(** * FileSystemManager (main.py): a shallow embedding and its properties

    The development follows [FileSystemManager] of [main.py]: the block
    allocator, the directory and file tables, the read cache, the per-file
    and metadata backups, metadata recovery and the defragmenter.  Every
    method is a function on the manager's state; a method that reads the
    clock takes the clock value [now] as its first argument.

    Python dictionaries are association lists that keep insertion order
    (iteration order is observable through [min] and [sorted]); Python
    integers are [Z]; strings are held as their UTF-8 bytes; the directory
    tree under [root_dir] is a dictionary from relative paths to nodes.
    Library functions whose results the code only stores or compares
    ([hashlib.md5], [json], [strftime], the text codec of [open], [stat]
    times) are the fields of the class [Host]; decoding may fail, and a
    file read in text mode has its line endings translated
    ([text_read]).  A [try ... except
    Exception] is a computation that may raise, run to a result by its
    handler; what was assigned before the exception stays assigned.

    [configure_cache] is modelled in full.  [simulate_disk_crash] takes
    the files that [random.sample] draws as an argument.  Of
    [analyze_performance] the block counts and the count of
    discontinuities are modelled ([used_blocks], [total_blocks],
    [discontinuities]); its timed runs of random reads and writes are left
    out. *)

From Stdlib Require Import String Ascii List ZArith Bool Lia Arith DecimalString.
From Stdlib Require Import Sorted Permutation.
Import ListNotations.
Local Open Scope string_scope.
Local Open Scope Z_scope.

(** ** Python strings and sequences *)

Module Py.

Definition slash : ascii := "/"%char.
Definition backslash : ascii := "\"%char.
Definition underscore : ascii := "_"%char.
Definition cr : ascii := "013"%char.
Definition lf : ascii := "010"%char.

Definition chars := list_ascii_of_string.
Definition str := string_of_list_ascii.

(** [s.replace(a, b)] for one-character [a] and [b]. *)
Definition replace (a b : ascii) (s : string) : string :=
  str (map (fun c => if Ascii.eqb c a then b else c) (chars s)).

(** [s.startswith(pre)]. *)
Definition startswith (s pre : string) : bool := String.prefix pre s.

Fixpoint drop_while (f : ascii -> bool) (l : list ascii) : list ascii :=
  match l with
  | [] => []
  | c :: l' => if f c then drop_while f l' else l
  end.

Fixpoint take_while (f : ascii -> bool) (l : list ascii) : list ascii :=
  match l with
  | [] => []
  | c :: l' => if f c then c :: take_while f l' else []
  end.

Definition is_slash (c : ascii) : bool := Ascii.eqb c slash.
Definition not_slash (c : ascii) : bool := negb (is_slash c).

(** [s.lstrip('/')] and [s.rstrip('/')]. *)
Definition lstrip (s : string) : string := str (drop_while is_slash (chars s)).
Definition rstrip (s : string) : string :=
  str (rev (drop_while is_slash (rev (chars s)))).

(** [s.endswith('/')]. *)
Definition endswith_slash (s : string) : bool :=
  match rev (chars s) with
  | c :: _ => is_slash c
  | [] => false
  end.

(** [s[:-1]]. *)
Definition drop_last (s : string) : string := str (removelast (chars s)).

(** [posixpath.split]: the cut is after the last slash,
    [i = p.rfind('/') + 1], giving [(p[:i], p[i:])] before the head is
    stripped. *)
Definition rcut (p : string) : string * string :=
  let r := rev (chars p) in
  (str (rev (drop_while not_slash r)), str (rev (take_while not_slash r))).

(** [os.path.basename]. *)
Definition basename (p : string) : string := snd (rcut p).

(** [os.path.dirname]: the head loses its trailing slashes unless it
    consists of slashes only. *)
Definition dirname (p : string) : string :=
  let head := fst (rcut p) in
  if forallb is_slash (chars head) then head else rstrip head.

(** [os.path.join(a, b)]. *)
Definition join (a b : string) : string :=
  if startswith b "/" then b
  else if (a =? "")%string then b
  else if endswith_slash a then a ++ b
  else a ++ "/" ++ b.

(** [range(a, a + n)]. *)
Fixpoint range_from (a : Z) (n : nat) : list Z :=
  match n with
  | O => []
  | S n' => a :: range_from (a + 1) n'
  end.

(** [list(range(a, b))]. *)
Definition range (a b : Z) : list Z := range_from a (Z.to_nat (b - a)).

(** The slice bound of [l[:n]] and [l[n:]]: a negative [n] counts from
    the end, and bounds are clipped to the list. *)
Definition bound {A} (n : Z) (l : list A) : nat :=
  if n <? 0 then Z.to_nat (Z.max 0 (Z.of_nat (length l) + n)) else Z.to_nat n.

Definition take {A} (n : Z) (l : list A) : list A := firstn (bound n l) l.
Definition drop {A} (n : Z) (l : list A) : list A := skipn (bound n l) l.

(** [len(l)]. *)
Definition len {A} (l : list A) : Z := Z.of_nat (length l).

(** [max(l)] of a non-empty list, as the fold [max] performs. *)
Definition max_list (l : list Z) : Z :=
  match l with
  | [] => 0
  | x :: l' => fold_left Z.max l' x
  end.

(** [sum(l)]. *)
Definition sum (l : list Z) : Z := fold_left Z.add l 0.

(** What a file opened for reading in text mode with the default
    [newline=None] makes of the decoded text: a carriage return followed
    by a line feed, and a carriage return on its own, are both returned
    as one line feed. *)
Fixpoint universal_newlines (s : string) : string :=
  match s with
  | EmptyString => EmptyString
  | String c s' =>
      if Ascii.eqb c cr then
        String lf (match s' with
                   | String c' s'' =>
                       if Ascii.eqb c' lf then universal_newlines s''
                       else universal_newlines s'
                   | EmptyString => EmptyString
                   end)
      else String c (universal_newlines s')
  end.

(** [len(s.encode())]: strings are held as their UTF-8 bytes. *)
Definition byte_len (s : string) : Z := Z.of_nat (String.length s).

(** Stable insertion sort, as [sorted(l, key=...)] orders by [<=] on the
    keys and keeps equal keys in their original order. *)
Fixpoint insert_by {A} (key : A -> string) (x : A) (l : list A) : list A :=
  match l with
  | [] => [x]
  | y :: l' =>
      if (key x <? key y)%string then x :: l
      else y :: insert_by key x l'
  end.

Definition sorted_by {A} (key : A -> string) (l : list A) : list A :=
  fold_left (fun acc x => insert_by key x acc) l [].

(** [sorted(l)] and [l.sort(reverse=True)] on strings. *)
Definition sorted (l : list string) : list string := sorted_by (fun s => s) l.

Fixpoint insert_desc (x : string) (l : list string) : list string :=
  match l with
  | [] => [x]
  | y :: l' =>
      if (y <? x)%string then x :: l
      else y :: insert_desc x l'
  end.

Definition sorted_desc (l : list string) : list string :=
  fold_left (fun acc x => insert_desc x acc) l [].

(** [s.split('/')]. *)
Fixpoint split_aux (cur : list ascii) (l : list ascii) : list string :=
  match l with
  | [] => [str (rev cur)]
  | c :: l' =>
      if is_slash c then str (rev cur) :: split_aux [] l'
      else split_aux (c :: cur) l'
  end.

Definition split (s : string) : list string := split_aux [] (chars s).

(** ['/'.join(l)]. *)
Fixpoint join_slash (l : list string) : string :=
  match l with
  | [] => ""
  | [x] => x
  | x :: l' => x ++ "/" ++ join_slash l'
  end.

(** [posixpath.normpath] of a relative path: empty and [.] components are
    dropped, and [..] removes the component before it when there is one
    that is not [..] itself. *)
Definition norm_step (new : list string) (comp : string) : list string :=
  if ((comp =? "") || (comp =? "."))%string then new
  else if negb (comp =? "..")%string then (new ++ [comp])%list
  else
    match rev new with
    | [] => (new ++ [comp])%list
    | last :: _ =>
        if (last =? "..")%string then (new ++ [comp])%list else removelast new
    end.

Definition normpath (p : string) : string :=
  let r := join_slash (fold_left norm_step (split p) []) in
  if (r =? "")%string then "." else r.

(** [l.sort()] on integers. *)
Fixpoint insert_Z (x : Z) (l : list Z) : list Z :=
  match l with
  | [] => [x]
  | y :: l' => if x <? y then x :: l else y :: insert_Z x l'
  end.

Definition sort_Z (l : list Z) : list Z :=
  fold_left (fun acc x => insert_Z x acc) l [].

End Py.

(** ** Python dictionaries

    A dictionary keeps its keys in insertion order; assigning to a key that
    is present keeps its position, assigning to a new key appends it. *)

Module Dict.

Definition t (V : Type) : Type := list (string * V).

Definition empty {V} : t V := [].

Fixpoint get {V} (k : string) (d : t V) : option V :=
  match d with
  | [] => None
  | (k', v) :: d' => if (k' =? k)%string then Some v else get k d'
  end.

Definition mem {V} (k : string) (d : t V) : bool :=
  match get k d with Some _ => true | None => false end.

Fixpoint set {V} (k : string) (v : V) (d : t V) : t V :=
  match d with
  | [] => [(k, v)]
  | (k', v') :: d' =>
      if (k' =? k)%string then (k, v) :: d' else (k', v') :: set k v d'
  end.

Fixpoint del {V} (k : string) (d : t V) : t V :=
  match d with
  | [] => []
  | (k', v') :: d' =>
      if (k' =? k)%string then d' else (k', v') :: del k d'
  end.

Definition keys {V} (d : t V) : list string := map fst d.
Definition values {V} (d : t V) : list V := map snd d.
Definition size {V} (d : t V) : Z := Z.of_nat (length d).

End Dict.

(** ** Data model *)

(** An entry of a directory's ['contents']: [{'type': 'file', 'file_id': _}]
    or [{'type': 'directory', 'path': _}]. *)
Inductive child : Type :=
| CFile (file_id : string)
| CDir (path : string).

(** A value of [directory_structure]. *)
Record dir_entry : Type := mk_dir_entry {
  d_created : Z;
  d_modified : Z;
  d_contents : Dict.t child
}.

(** A value of [file_table]. *)
Record file_record : Type := mk_file_record {
  f_path : string;
  f_size : Z;
  f_blocks : list Z;
  f_created : Z;
  f_modified : Z;
  f_checksum : string
}.

(** What [_save_metadata] hands to [json.dump]. *)
Record snapshot : Type := mk_snapshot {
  snap_block_size : Z;
  snap_free_blocks : list Z;
  snap_file_table : Dict.t file_record;
  snap_directory_structure : Dict.t dir_entry;
  snap_last_updated : Z
}.

(** What [json.load] returns: each field may be missing, and the code reads
    it with [data.get(field, default)]. *)
Record json_data : Type := mk_json_data {
  j_block_size : option Z;
  j_free_blocks : option (list Z);
  j_file_table : option (Dict.t file_record);
  j_directory_structure : option (Dict.t dir_entry)
}.

(** The library functions the code calls and whose results it only stores
    or compares. *)
Class Host : Type := {
  (** [hashlib.md5(b).hexdigest()] *)
  md5 : string -> string;
  (** [json.dump(obj, f, indent=2)] *)
  json_dump : snapshot -> string;
  (** [json.load(f)]; [None] when it raises *)
  json_load : string -> option json_data;
  (** [datetime.now().strftime('%Y%m%d_%H%M%S')] at a given clock value *)
  strftime : Z -> string;
  (** what [f.write(s)] puts on disk for a file opened with ['w'] *)
  text_encode : string -> string;
  (** the text that the bytes of a file opened with ['r'] decode to;
      [None] when they are not text in the encoding and [f.read()] raises
      [UnicodeDecodeError] *)
  text_decode : string -> option string;
  (** [os.path.getctime] and [os.path.getmtime] of an object under the root *)
  getctime : string -> Z;
  getmtime : string -> Z
}.

(** ** The directory tree under [root_dir]

    An object is named by its path relative to [root_dir]; the root itself
    is the empty path and always exists.  Trailing separators are ignored
    when a directory is named and make a file unreachable, as in POSIX;
    paths are otherwise compared as written, byte by byte: components [.]
    and [..] and doubled separators are not resolved, and there are no
    links.  Two paths whose components are names ([plain_path] below)
    are the same object exactly when they are written alike, and it is for
    such paths that the statements which rely on two places being
    different objects are made. *)

Module Disk.

Inductive node : Type :=
| File (bytes : string)
| Dir.

Definition t : Type := Dict.t node.

(** The object stored under a path, trailing separators removed. *)
Definition node_at (k : string) (d : t) : option node :=
  let k' := Py.rstrip k in
  if (k' =? "")%string then Some Dir else Dict.get k' d.

(** Path resolution: a regular file is not found through a path that
    ends with a separator. *)
Definition lookup (k : string) (d : t) : option node :=
  match node_at k d with
  | Some (File b) => if Py.endswith_slash k then None else Some (File b)
  | r => r
  end.

(** [os.path.exists], [os.path.isdir]. *)
Definition exists_ (k : string) (d : t) : bool :=
  match lookup k d with Some _ => true | None => false end.

Definition isdir (k : string) (d : t) : bool :=
  match lookup k d with Some Dir => true | _ => false end.

(** The bytes of a regular file; [None] stands for the [OSError] of
    [open]. *)
Definition read (k : string) (d : t) : option string :=
  match lookup k d with Some (File b) => Some b | _ => None end.

(** [open(k, 'w')] followed by a write of [b]: the path must not name a
    directory and its parent must be one. *)
Definition write (k b : string) (d : t) : option t :=
  if Py.endswith_slash k then None
  else
    match node_at k d with
    | Some Dir => None
    | _ => if isdir (Py.dirname k) d then Some (Dict.set k (File b) d) else None
    end.

(** [os.makedirs(k, exist_ok=True)]; the recursion is on the parent
    path, which is shorter. *)
Fixpoint makedirs_fuel (fuel : nat) (k : string) (d : t) : option t :=
  match node_at k d with
  | Some Dir => Some d
  | Some (File _) => None
  | None =>
      match fuel with
      | O => None
      | S fuel' =>
          match makedirs_fuel fuel' (Py.dirname (Py.rstrip k)) d with
          | Some d' =>
              if isdir (Py.dirname (Py.rstrip k)) d'
              then Some (Dict.set (Py.rstrip k) Dir d') else None
          | None => None
          end
      end
  end.

Definition makedirs (k : string) (d : t) : option t :=
  makedirs_fuel (S (String.length k)) k d.

(** [os.remove]. *)
Definition remove (k : string) (d : t) : option t :=
  match lookup k d with
  | Some (File _) => Some (Dict.del k d)
  | _ => None
  end.

(** The names directly inside a directory, in the order the disk holds
    them. *)
Definition children (k : string) (d : t) : list string :=
  map (fun e => Py.basename (fst e))
      (filter (fun e => (Py.dirname (fst e) =? Py.rstrip k)%string) d).

(** [os.listdir]. *)
Definition listdir (k : string) (d : t) : option (list string) :=
  if isdir k d then Some (children k d) else None.

(** [os.rmdir]: only an empty directory other than the root. *)
Definition rmdir (k : string) (d : t) : option t :=
  if (Py.rstrip k =? "")%string then None
  else if isdir k d then
    match children k d with
    | [] => Some (Dict.del (Py.rstrip k) d)
    | _ => None
    end
  else None.

(** [shutil.rmtree]: the directory and everything below it. *)
Definition rmtree (k : string) (d : t) : option t :=
  if isdir k d then
    Some (filter (fun e =>
                    negb ((fst e =? Py.rstrip k)%string
                          || Py.startswith (fst e) (Py.rstrip k ++ "/")))
                 d)
  else None.

(** [shutil.copy2(src, dst)]: into [dst] when it is a directory. *)
Definition copy2 (src dst : string) (d : t) : option t :=
  match read src d with
  | Some b =>
      if isdir dst d then write (Py.join dst (Py.basename src)) b d
      else write dst b d
  | None => None
  end.

End Disk.

(** ** The manager's state *)

(** The attributes of a [FileSystemManager], with the directory tree under
    [root_dir] as the last field. *)
Record state : Type := mk_state {
  block_size : Z;
  free_blocks : list Z;
  file_table : Dict.t file_record;
  directory_structure : Dict.t dir_entry;
  read_cache : Dict.t string;
  cache_max_size : Z;
  cache_ttl : Z;
  cache_timestamps : Dict.t Z;
  disk : Disk.t
}.

Definition set_block_size (v : Z) (s : state) : state :=
  mk_state v (free_blocks s) (file_table s) (directory_structure s)
           (read_cache s) (cache_max_size s) (cache_ttl s) (cache_timestamps s)
           (disk s).

Definition set_free_blocks (v : list Z) (s : state) : state :=
  mk_state (block_size s) v (file_table s) (directory_structure s)
           (read_cache s) (cache_max_size s) (cache_ttl s) (cache_timestamps s)
           (disk s).

Definition set_file_table (v : Dict.t file_record) (s : state) : state :=
  mk_state (block_size s) (free_blocks s) v (directory_structure s)
           (read_cache s) (cache_max_size s) (cache_ttl s) (cache_timestamps s)
           (disk s).

Definition set_directory_structure (v : Dict.t dir_entry) (s : state) : state :=
  mk_state (block_size s) (free_blocks s) (file_table s) v
           (read_cache s) (cache_max_size s) (cache_ttl s) (cache_timestamps s)
           (disk s).

Definition set_read_cache (v : Dict.t string) (s : state) : state :=
  mk_state (block_size s) (free_blocks s) (file_table s) (directory_structure s)
           v (cache_max_size s) (cache_ttl s) (cache_timestamps s)
           (disk s).

Definition set_cache_timestamps (v : Dict.t Z) (s : state) : state :=
  mk_state (block_size s) (free_blocks s) (file_table s) (directory_structure s)
           (read_cache s) (cache_max_size s) (cache_ttl s) v
           (disk s).

Definition set_disk (v : Disk.t) (s : state) : state :=
  mk_state (block_size s) (free_blocks s) (file_table s) (directory_structure s)
           (read_cache s) (cache_max_size s) (cache_ttl s) (cache_timestamps s)
           v.

(** [os.path.basename(self.metadata_file)] and
    [os.path.basename(self.backup_dir)], both directly under the root. *)
Definition metadata_file : string := "fs_metadata.json".
Definition backup_dir : string := ".backups".

(** ** Statements that may raise

    A method body runs in a state and either yields a value or raises; the
    state reached at the raise is kept, as the assignments made before an
    exception stay in place when a handler catches it. *)

Inductive res (A : Type) : Type :=
| Val (a : A)
| Exc.
Arguments Val {A} a.
Arguments Exc {A}.

Definition M (A : Type) : Type := state -> res A * state.

Definition ret {A} (a : A) : M A := fun s => (Val a, s).
Definition raise {A} : M A := fun s => (Exc, s).

Definition bind {A B} (m : M A) (k : A -> M B) : M B :=
  fun s =>
    match m s with
    | (Val a, s') => k a s'
    | (Exc, s') => (Exc, s')
    end.

Notation "x <- m ;; k" := (bind m (fun x => k))
  (at level 61, m at next level, right associativity).
Notation "m ;;; k" := (bind m (fun _ => k))
  (at level 61, right associativity).

(** The current state, and an assignment to it. *)
Definition get_state : M state := fun s => (Val s, s).
Definition update (f : state -> state) : M unit := fun s => (Val tt, f s).

(** A subscript [d[k]] or a call that raises when it has no result. *)
Definition must {A} (o : option A) : M A :=
  match o with
  | Some a => ret a
  | None => raise
  end.

(** A disk operation that raises when it fails. *)
Definition on_disk (f : Disk.t -> option Disk.t) : M unit :=
  fun s =>
    match f (disk s) with
    | Some d' => (Val tt, set_disk d' s)
    | None => (Exc, s)
    end.

(** [try: body  except Exception: return False]. *)
Definition try_bool (m : M bool) (s : state) : bool * state :=
  match m s with
  | (Val b, s') => (b, s')
  | (Exc, s') => (false, s')
  end.

(** [try: body  except Exception: return None]. *)
Definition try_option {A} (m : M (option A)) (s : state) : option A * state :=
  match m s with
  | (Val o, s') => (o, s')
  | (Exc, s') => (None, s')
  end.

(** [try: body  except Exception: print(...)], for a body without result. *)
Definition try_unit (m : M unit) (s : state) : state := snd (m s).

(** A method that cannot raise, called from a body. *)
Definition call {A} (f : state -> A * state) : M A :=
  fun s => let (a, s') := f s in (Val a, s').

Definition call_unit (f : state -> state) : M unit :=
  fun s => (Val tt, f s).

(** What a [try] block of a mutating method has decided when control
    reaches its last two statements, [self._save_metadata()] and
    [return True]: either it has returned already, or it goes on to them. *)
Inductive flow : Type :=
| Return (b : bool)
| Next.

(** ** Path normalization (the first statements of every public method) *)

Definition normalize (path : string) : string :=
  let path := Py.replace Py.backslash Py.slash path in
  if Py.startswith path "/" then path else "/" ++ path.

(** [os.path.join(self.root_dir, path.lstrip('/'))], relative to the root. *)
Definition physical (path : string) : string := Py.lstrip path.

(** ** Read cache *)

(** [_check_cache_expiration] at clock value [now]. *)
Definition expired_keys (now : Z) (s : state) : list string :=
  map fst (filter (fun e => now - snd e >? cache_ttl s) (cache_timestamps s)).

Definition expire_key (s : state) (key : string) : state :=
  let s1 :=
    if Dict.mem key (read_cache s)
    then set_read_cache (Dict.del key (read_cache s)) s else s in
  set_cache_timestamps (Dict.del key (cache_timestamps s1)) s1.

Definition _check_cache_expiration (now : Z) (s : state) : state :=
  fold_left expire_key (expired_keys now s) s.

(** [min(d, key=d.get)]: the first key whose value is least. *)
Definition min_key (d : Dict.t Z) : option string :=
  match d with
  | [] => None
  | e :: d' =>
      Some (fst (fold_left (fun best e' => if snd e' <? snd best then e' else best)
                           d' e))
  end.

(** [_add_to_cache(path, content)] at clock value [now]. *)
Definition _add_to_cache (now : Z) (path content : string) (s : state) : state :=
  let s1 :=
    if Py.len (read_cache s) >=? cache_max_size s then
      match min_key (cache_timestamps s) with
      | Some oldest_key => expire_key s oldest_key
      | None => s
      end
    else s in
  let s2 := set_read_cache (Dict.set path content (read_cache s1)) s1 in
  set_cache_timestamps (Dict.set path now (cache_timestamps s2)) s2.

(** [_invalidate_cache(path)] for a given path. *)
Definition _invalidate_cache (path : string) (s : state) : state :=
  let path := normalize path in
  if Dict.mem path (read_cache s)
  then set_read_cache (Dict.del path (read_cache s)) s else s.

(** ** Block allocator *)

(** [_allocate_blocks(num_blocks)] on the free list: the allocated blocks
    and the new free list. *)
Definition allocate (num_blocks : Z) (free : list Z) : list Z * list Z :=
  let free1 :=
    if Py.len free <? num_blocks then
      let current_max := match free with [] => 0 | _ => Py.max_list free end in
      (free ++ Py.range (current_max + 1) (current_max + 1 + num_blocks))%list
    else free in
  (Py.take num_blocks free1, Py.drop num_blocks free1).

Definition _allocate_blocks (num_blocks : Z) : M (list Z) :=
  fun s =>
    let (allocated, free') := allocate num_blocks (free_blocks s) in
    (Val allocated, set_free_blocks free' s).

(** [_free_blocks(blocks)]. *)
Definition _free_blocks (blocks : list Z) (s : state) : state :=
  set_free_blocks (free_blocks s ++ blocks)%list s.

(** [(file_size + self.block_size - 1) // self.block_size]; the division
    raises when the block size is zero. *)
Definition blocks_needed (file_size bs : Z) : option Z :=
  if bs =? 0 then None else Some ((file_size + bs - 1) / bs).

(** ** Checksums *)

Section WithHost.

Context {H : Host}.

(** [_calculate_checksum(file_path)]: the empty string when the file
    cannot be read. *)
Definition _calculate_checksum (k : string) (d : Disk.t) : string :=
  match Disk.read k d with
  | Some b => md5 b
  | None => ""
  end.

(** [f.read()] on a file opened with ['r']: the bytes are decoded and the
    line endings translated; it raises when the bytes do not decode. *)
Definition text_read (bytes : string) : option string :=
  option_map Py.universal_newlines (text_decode bytes).

(** ** Metadata store *)

Definition snapshot_of (now : Z) (s : state) : snapshot :=
  mk_snapshot (block_size s) (free_blocks s) (file_table s)
              (directory_structure s) now.

(** The [try] block of [_save_metadata] at clock value [now]. *)
Definition save_metadata_try (now : Z) : M unit :=
  s <- get_state ;;
  (if Disk.exists_ metadata_file (disk s) then
     on_disk (Disk.copy2 metadata_file
                (Py.join backup_dir ("metadata_backup_" ++ strftime now ++ ".json")))
   else ret tt) ;;;
  s1 <- get_state ;;
  on_disk (Disk.write metadata_file (json_dump (snapshot_of now s1))).

(** [_save_metadata]: an exception is printed and dropped. *)
Definition _save_metadata (now : Z) (s : state) : state :=
  try_unit (save_metadata_try now) s.

(** [_initialize_file_system]. *)
Definition _initialize_file_system (now : Z) (s : state) : state :=
  let s1 := set_free_blocks (Py.range 1 1001) s in
  let s2 := set_directory_structure
              [("/", mk_dir_entry now now Dict.empty)] s1 in
  let s3 := set_file_table Dict.empty s2 in
  _save_metadata now s3.

End WithHost.

(** ** File and directory operations *)

Section Operations.

Context {H : Host}.

(** A [for] loop whose body may raise. *)
Fixpoint for_each {A} (l : list A) (body : A -> M unit) : M unit :=
  match l with
  | [] => ret tt
  | x :: l' => body x ;;; for_each l' body
  end.

(** The last two statements of a mutating method's [try] block. *)
Definition finish (now : Z) (f : flow) : M bool :=
  match f with
  | Return b => ret b
  | Next => call_unit (_save_metadata now) ;;; ret true
  end.

(** [self.directory_structure[parent]['contents'][name] = c]. *)
Definition set_child (parent name : string) (c : child) : M unit :=
  s <- get_state ;;
  e <- must (Dict.get parent (directory_structure s)) ;;
  update (set_directory_structure
            (Dict.set parent
               (mk_dir_entry (d_created e) (d_modified e)
                             (Dict.set name c (d_contents e)))
               (directory_structure s))).

(** [del self.directory_structure[parent]['contents'][name]]. *)
Definition del_child (parent name : string) : M unit :=
  s <- get_state ;;
  e <- must (Dict.get parent (directory_structure s)) ;;
  _ <- must (Dict.get name (d_contents e)) ;;
  update (set_directory_structure
            (Dict.set parent
               (mk_dir_entry (d_created e) (d_modified e)
                             (Dict.del name (d_contents e)))
               (directory_structure s))).

(** [os.path.relpath(physical_path, self.root_dir)]. *)
Definition relpath (k : string) : string := Py.normpath k.

(** The name under which the backups of a file are kept, up to the
    timestamp: [f"{rel_path.replace('/', '_')}_"]. *)
Definition backup_prefix (k : string) : string :=
  Py.replace Py.slash Py.underscore (relpath k) ++ "_".

(** [_backup_file(file_path)] at clock value [now]. *)
Definition _backup_file (now : Z) (k : string) : state -> bool * state :=
  try_bool (
    s <- get_state ;;
    if negb (Disk.exists_ k (disk s)) then ret false
    else
      let backup_filename := backup_prefix k ++ strftime now in
      let backup_path := Py.join backup_dir backup_filename in
      on_disk (Disk.makedirs (Py.dirname backup_path)) ;;;
      on_disk (Disk.copy2 k backup_path) ;;;
      ret true).

(** The loop of [_recover_file] over the sorted backups. *)
Fixpoint restore_first (file_id k : string) (backups : list string) : M bool :=
  match backups with
  | [] => ret false
  | backup :: rest =>
      s <- get_state ;;
      let backup_path := Py.join backup_dir backup in
      let backup_checksum := _calculate_checksum backup_path (disk s) in
      r <- must (Dict.get file_id (file_table s)) ;;
      if (backup_checksum =? f_checksum r)%string then
        on_disk (Disk.copy2 backup_path k) ;;; ret true
      else restore_first file_id k rest
  end.

(** The backups [_recover_file] considers, in the order it tries them. *)
Definition candidate_backups (k : string) (names : list string) : list string :=
  Py.sorted_desc (filter (fun f => Py.startswith f (backup_prefix k)) names).

(** [_recover_file(file_id, physical_path)]. *)
Definition _recover_file (file_id k : string) : state -> bool * state :=
  try_bool (
    s <- get_state ;;
    if negb (Dict.mem file_id (file_table s)) then ret false
    else
      names <- must (Disk.listdir backup_dir (disk s)) ;;
      match filter (fun f => Py.startswith f (backup_prefix k)) names with
      | [] => ret false
      | _ => restore_first file_id k (candidate_backups k names)
      end).

(** [read_file(path)] at clock value [now]. *)
Definition read_file (now : Z) (path : string) : state -> option string * state :=
  try_option (
    let path := normalize path in
    call_unit (_check_cache_expiration now) ;;;
    s <- get_state ;;
    match Dict.get path (read_cache s) with
    | Some cached => ret (Some cached)
    | None =>
        let parent_dir := Py.dirname path in
        let file_name := Py.basename path in
        match Dict.get parent_dir (directory_structure s) with
        | None => ret None
        | Some entry =>
            match Dict.get file_name (d_contents entry) with
            | None => ret None
            | Some (CDir _) => ret None
            | Some (CFile file_id) =>
                let physical_path := physical path in
                let current_checksum :=
                  _calculate_checksum physical_path (disk s) in
                r <- must (Dict.get file_id (file_table s)) ;;
                (if negb (current_checksum =? f_checksum r)%string
                 then _ <- call (_recover_file file_id physical_path) ;; ret tt
                 else ret tt) ;;;
                s1 <- get_state ;;
                bytes <- must (Disk.read physical_path (disk s1)) ;;
                content <- must (text_read bytes) ;;
                call_unit (_add_to_cache now path content) ;;;
                ret (Some content)
            end
        end
    end).

(** The [try] block of [create_file] up to [self._save_metadata()]. *)
Definition create_file_steps (now : Z) (path content : string) : M flow :=
  let path := normalize path in
  s <- get_state ;;
  let parent_dir := Py.dirname path in
  match Dict.get parent_dir (directory_structure s) with
  | None => ret (Return false)
  | Some entry =>
      let file_name := Py.basename path in
      if Dict.mem file_name (d_contents entry) then ret (Return false)
      else
        let physical_path := physical path in
        on_disk (Disk.makedirs (Py.dirname physical_path)) ;;;
        on_disk (Disk.write physical_path (text_encode content)) ;;;
        let file_size := Py.byte_len content in
        n <- must (blocks_needed file_size (block_size s)) ;;
        allocated_blocks <- _allocate_blocks n ;;
        let file_id := md5 path in
        s1 <- get_state ;;
        update (set_file_table
                  (Dict.set file_id
                     (mk_file_record path file_size allocated_blocks now now
                        (_calculate_checksum physical_path (disk s1)))
                     (file_table s1))) ;;;
        set_child parent_dir file_name (CFile file_id) ;;;
        ret Next
  end.

(** [create_file(path, content)] at clock value [now]. *)
Definition create_file (now : Z) (path content : string) : state -> bool * state :=
  try_bool (f <- create_file_steps now path content ;; finish now f).

(** The [try] block of [create_directory] up to [self._save_metadata()];
    [self_call] is the method itself, for the missing parent. *)
Definition create_directory_steps
    (self_call : string -> state -> bool * state) (now : Z) (path : string)
  : M flow :=
  let path := normalize path in
  s <- get_state ;;
  if Dict.mem path (directory_structure s) then ret (Return false)
  else
    let parent_dir := Py.dirname path in
    ok <- (if negb (parent_dir =? "")%string
              && negb (Dict.mem parent_dir (directory_structure s))
           then call (self_call parent_dir) else ret true) ;;
    if negb ok then ret (Return false)
    else
      let physical_path := physical path in
      on_disk (Disk.makedirs physical_path) ;;;
      s1 <- get_state ;;
      update (set_directory_structure
                (Dict.set path (mk_dir_entry now now Dict.empty)
                          (directory_structure s1))) ;;;
      (if negb (path =? "/")%string
       then set_child parent_dir (Py.basename path) (CDir path)
       else ret tt) ;;;
      ret Next.

(** [create_directory(path)] with a bound on the depth of its recursion:
    when the bound is reached the innermost call fails, as it does when
    the interpreter's recursion limit is reached and its handler catches
    the [RecursionError]. *)
Fixpoint create_directory_depth (depth : nat) (now : Z) (path : string)
  : state -> bool * state :=
  match depth with
  | O => fun s => (false, s)
  | S depth' =>
      try_bool (f <- create_directory_steps
                       (create_directory_depth depth' now) now path ;;
                finish now f)
  end.

(** [create_directory(path)] at clock value [now]: each recursive call is
    on a shorter path, so the length of the path bounds the depth. *)
Definition create_directory (now : Z) (path : string) : state -> bool * state :=
  create_directory_depth (S (S (String.length path))) now path.

(** The [try] block of [write_file] up to [self._save_metadata()]. *)
Definition write_file_steps (now : Z) (path content : string) : M flow :=
  let path := normalize path in
  call_unit (_invalidate_cache path) ;;;
  let parent_dir := Py.dirname path in
  let file_name := Py.basename path in
  s <- get_state ;;
  (if negb (Dict.mem parent_dir (directory_structure s))
   then _ <- call (create_directory now parent_dir) ;; ret tt
   else ret tt) ;;;
  s1 <- get_state ;;
  entry <- must (Dict.get parent_dir (directory_structure s1)) ;;
  match Dict.get file_name (d_contents entry) with
  | Some file_entry =>
      file_id <- must (match file_entry with
                       | CFile file_id => Some file_id
                       | CDir _ => None
                       end) ;;
      r <- must (Dict.get file_id (file_table s1)) ;;
      call_unit (_free_blocks (f_blocks r)) ;;;
      let physical_path := physical path in
      _ <- call (_backup_file now physical_path) ;;
      on_disk (Disk.write physical_path (text_encode content)) ;;;
      let file_size := Py.byte_len content in
      n <- must (blocks_needed file_size (block_size s1)) ;;
      allocated_blocks <- _allocate_blocks n ;;
      s2 <- get_state ;;
      r2 <- must (Dict.get file_id (file_table s2)) ;;
      update (set_file_table
                (Dict.set file_id
                   (mk_file_record (f_path r2) file_size allocated_blocks
                      (f_created r2) now
                      (_calculate_checksum physical_path (disk s2)))
                   (file_table s2))) ;;;
      call_unit (_add_to_cache now path content) ;;;
      ret Next
  | None =>
      b <- call (create_file now path content) ;;
      ret (Return b)
  end.

(** [write_file(path, content)] at clock value [now]. *)
Definition write_file (now : Z) (path content : string) : state -> bool * state :=
  try_bool (f <- write_file_steps now path content ;; finish now f).

(** The [try] block of [delete_file] up to [self._save_metadata()]. *)
Definition delete_file_steps (now : Z) (path : string) : M flow :=
  let path := normalize path in
  let parent_dir := Py.dirname path in
  let file_name := Py.basename path in
  s <- get_state ;;
  match Dict.get parent_dir (directory_structure s) with
  | None => ret (Return false)
  | Some entry =>
      match Dict.get file_name (d_contents entry) with
      | None => ret (Return false)
      | Some (CDir _) => ret (Return false)
      | Some (CFile file_id) =>
          let physical_path := physical path in
          _ <- call (_backup_file now physical_path) ;;
          r <- must (Dict.get file_id (file_table s)) ;;
          call_unit (_free_blocks (f_blocks r)) ;;;
          s1 <- get_state ;;
          update (set_file_table (Dict.del file_id (file_table s1))) ;;;
          del_child parent_dir file_name ;;;
          s2 <- get_state ;;
          (if Disk.exists_ physical_path (disk s2)
           then on_disk (Disk.remove physical_path) else ret tt) ;;;
          ret Next
      end
  end.

(** [delete_file(path)] at clock value [now]. *)
Definition delete_file (now : Z) (path : string) : state -> bool * state :=
  try_bool (f <- delete_file_steps now path ;; finish now f).

(** The loop of a recursive [delete_directory] over
    [list(dir_entry['contents'].items())]; the results of the calls are
    not looked at. *)
Definition delete_contents
    (self_call : string -> state -> bool * state) (now : Z) (path : string)
    (items : Dict.t child) : M unit :=
  for_each items (fun e =>
    match snd e with
    | CFile _ => _ <- call (delete_file now (Py.join path (fst e))) ;; ret tt
    | CDir subdir_path => _ <- call (self_call subdir_path) ;; ret tt
    end).

(** The removal of the physical directory at the end of
    [delete_directory]. *)
Definition remove_physical_directory (recursive : bool) (k : string) : M unit :=
  s <- get_state ;;
  if Disk.exists_ k (disk s) then
    match Disk.rmdir k (disk s) with
    | Some d' => update (set_disk d')
    | None => if recursive then on_disk (Disk.rmtree k) else ret tt
    end
  else ret tt.

(** The [try] block of [delete_directory] up to [self._save_metadata()];
    [self_call] is the method itself with [recursive=True]. *)
Definition delete_directory_steps
    (self_call : string -> state -> bool * state) (now : Z) (path : string)
    (recursive : bool) : M flow :=
  let path := normalize path in
  if (path =? "/")%string then ret (Return false)
  else
    s <- get_state ;;
    match Dict.get path (directory_structure s) with
    | None => ret (Return false)
    | Some dir_entry =>
        match d_contents dir_entry, recursive with
        | _ :: _, false => ret (Return false)
        | _, _ =>
            (if recursive
             then delete_contents self_call now path (d_contents dir_entry)
             else ret tt) ;;;
            let parent_dir := Py.dirname path in
            let dir_name := Py.basename path in
            s1 <- get_state ;;
            parent_entry <- must (Dict.get parent_dir (directory_structure s1)) ;;
            (if Dict.mem dir_name (d_contents parent_entry)
             then del_child parent_dir dir_name else ret tt) ;;;
            s2 <- get_state ;;
            _ <- must (Dict.get path (directory_structure s2)) ;;
            update (set_directory_structure
                      (Dict.del path (directory_structure s2))) ;;;
            remove_physical_directory recursive (physical path) ;;;
            ret Next
        end
    end.

(** [delete_directory(path, recursive)] with a bound on the depth of its
    recursion, reached as in [create_directory_depth]. *)
Fixpoint delete_directory_depth (depth : nat) (now : Z) (path : string)
    (recursive : bool) : state -> bool * state :=
  match depth with
  | O => fun s => (false, s)
  | S depth' =>
      try_bool (f <- delete_directory_steps
                       (fun p => delete_directory_depth depth' now p true)
                       now path recursive ;;
                finish now f)
  end.

(** [delete_directory(path, recursive)] at clock value [now]: nested calls
    are on distinct directories of the table, whose size bounds the
    depth. *)
Definition delete_directory (now : Z) (path : string) (recursive : bool)
  : state -> bool * state :=
  fun s =>
    delete_directory_depth (S (length (directory_structure s)))
                           now path recursive s.

(** The result of [list_directory]. *)
Inductive item : Type :=
| IFile (size created modified : Z)
| IDir (created modified item_count : Z).

Record listing : Type := mk_listing {
  l_name : string;
  l_path : string;
  l_created : Z;
  l_modified : Z;
  l_contents : Dict.t item
}.

(** The path [list_directory] looks up. *)
Definition list_path (path : string) : string :=
  let path := normalize path in
  if negb (path =? "/")%string && Py.endswith_slash path
  then Py.drop_last path else path.

(** The loop of [list_directory] over [dir_entry['contents'].items()]. *)
Fixpoint list_items (s : state) (items : Dict.t child) (acc : Dict.t item)
  : option (Dict.t item) :=
  match items with
  | [] => Some acc
  | (name, CFile file_id) :: rest =>
      match Dict.get file_id (file_table s) with
      | Some file_info =>
          list_items s rest
            (Dict.set name
               (IFile (f_size file_info) (f_created file_info)
                      (f_modified file_info)) acc)
      | None => None
      end
  | (name, CDir subdir_path) :: rest =>
      match Dict.get subdir_path (directory_structure s) with
      | Some subdir_info =>
          list_items s rest
            (Dict.set name
               (IDir (d_created subdir_info) (d_modified subdir_info)
                     (Py.len (d_contents subdir_info))) acc)
      | None => None
      end
  end.

(** [list_directory(path)]; it changes nothing. *)
Definition list_directory (path : string) (s : state) : option listing :=
  let path := list_path path in
  match Dict.get path (directory_structure s) with
  | None => None
  | Some dir_entry =>
      match list_items s (d_contents dir_entry) Dict.empty with
      | Some contents =>
          Some (mk_listing
                  (if (Py.basename path =? "")%string then "/"
                   else Py.basename path)
                  path (d_created dir_entry) (d_modified dir_entry) contents)
      | None => None
      end
  end.

(** ** Metadata recovery *)

(** The assignments after [json.load]: a missing field takes its
    default. *)
Definition adopt (data : json_data) (s : state) : state :=
  let s1 := set_block_size
              (match j_block_size data with Some v => v | None => 4096 end) s in
  let s2 := set_free_blocks
              (match j_free_blocks data with Some v => v | None => [] end) s1 in
  let s3 := set_file_table
              (match j_file_table data with Some v => v | None => Dict.empty end)
              s2 in
  set_directory_structure
    (match j_directory_structure data with Some v => v | None => Dict.empty end)
    s3.

(** [with open(k, 'r') as f: data = json.load(f)] and the assignments. *)
Definition load_from (k : string) : M unit :=
  s <- get_state ;;
  bytes <- must (Disk.read k (disk s)) ;;
  data <- must (json_load bytes) ;;
  update (adopt data).

(** The body of the loop of [_scan_directory] for one name. *)
Definition scan_item
    (self_call : string -> string -> state -> state) (now : Z)
    (physical_path virtual_path item : string) : M unit :=
  if ((item =? metadata_file) || (item =? backup_dir))%string then ret tt
  else
    let item_physical_path := Py.join physical_path item in
    let item_virtual_path :=
      Py.replace Py.backslash Py.slash (Py.join virtual_path item) in
    s <- get_state ;;
    if Disk.isdir item_physical_path (disk s) then
      update (set_directory_structure
                (Dict.set item_virtual_path
                   (mk_dir_entry (getctime item_physical_path)
                                 (getmtime item_physical_path) Dict.empty)
                   (directory_structure s))) ;;;
      call_unit (self_call item_physical_path item_virtual_path)
    else
      bytes <- must (Disk.read item_physical_path (disk s)) ;;
      let file_size := Py.byte_len bytes in
      let file_id := md5 item_virtual_path in
      n <- must (blocks_needed file_size (block_size s)) ;;
      allocated_blocks <- _allocate_blocks n ;;
      s1 <- get_state ;;
      update (set_file_table
                (Dict.set file_id
                   (mk_file_record item_virtual_path file_size allocated_blocks
                      (getctime item_physical_path) (getmtime item_physical_path)
                      (_calculate_checksum item_physical_path (disk s1)))
                   (file_table s1))) ;;;
      let parent_dir :=
        Py.replace Py.backslash Py.slash (Py.dirname item_virtual_path) in
      s2 <- get_state ;;
      (if negb (Dict.mem parent_dir (directory_structure s2))
       then update (set_directory_structure
                      (Dict.set parent_dir (mk_dir_entry now now Dict.empty)
                                (directory_structure s2)))
       else ret tt) ;;;
      set_child parent_dir item (CFile file_id).

(** [_scan_directory(physical_path, virtual_path)] with a bound on the
    depth of its recursion. *)
Fixpoint _scan_directory_depth (depth : nat) (now : Z)
    (physical_path virtual_path : string) : state -> state :=
  match depth with
  | O => fun s => s
  | S depth' =>
      try_unit (
        s <- get_state ;;
        items <- must (Disk.listdir physical_path (disk s)) ;;
        for_each items
          (scan_item (_scan_directory_depth depth' now) now
                     physical_path virtual_path))
  end.

(** [_scan_directory]: a directory inside another has a longer path, so
    the number of objects on the disk bounds the depth. *)
Definition _scan_directory (now : Z) (physical_path virtual_path : string)
  : state -> state :=
  fun s =>
    _scan_directory_depth (S (length (disk s))) now
                          physical_path virtual_path s.

(** The fallback of [_recover_metadata]: a fresh file system, rebuilt from
    the physical tree and saved. *)
Definition rescan (now : Z) (s : state) : state :=
  _save_metadata now (_scan_directory now "" "/" (_initialize_file_system now s)).

(** The metadata backups [_recover_metadata] finds. *)
Definition metadata_backups (names : list string) : list string :=
  filter (fun f => Py.startswith f "metadata_backup_") names.

(** [_recover_metadata()] at clock value [now]; listing the backup
    directory may raise. *)
Definition _recover_metadata (now : Z) : M unit :=
  s <- get_state ;;
  names <- must (Disk.listdir backup_dir (disk s)) ;;
  restored <-
    match metadata_backups names with
    | [] => ret false
    | backup_files =>
        let latest_backup := last (Py.sorted backup_files) "" in
        let backup_path := Py.join backup_dir latest_backup in
        call (try_bool (load_from backup_path ;;; ret true))
    end ;;
  if (restored : bool) then ret tt else call_unit (rescan now).

(** [_load_metadata()] at clock value [now]. *)
Definition _load_metadata (now : Z) : M unit :=
  s <- get_state ;;
  loaded <- call (try_bool (
              if Disk.exists_ metadata_file (disk s)
              then load_from metadata_file ;;; ret true
              else call_unit (_initialize_file_system now) ;;; ret true)) ;;
  if (loaded : bool) then ret tt else _recover_metadata now.

(** [FileSystemManager(root_dir)] on a given tree, at clock value [now]. *)
Definition init (now : Z) (d : Disk.t) : res unit * state :=
  (on_disk (Disk.makedirs "") ;;;
   on_disk (Disk.makedirs backup_dir) ;;;
   _load_metadata now)
    (mk_state 4096 [] Dict.empty Dict.empty Dict.empty 100 300 Dict.empty d).

(** ** Defragmentation *)

(** The body of the loop of [defragment] for one file. *)
Definition defragment_file (e : string * file_record) : M unit :=
  let file_id := fst e in
  let file_info := snd e in
  s <- get_state ;;
  n <- must (blocks_needed (f_size file_info) (block_size s)) ;;
  new_blocks <- _allocate_blocks n ;;
  s1 <- get_state ;;
  r <- must (Dict.get file_id (file_table s1)) ;;
  update (set_file_table
            (Dict.set file_id
               (mk_file_record (f_path r) (f_size r) new_blocks
                               (f_created r) (f_modified r) (f_checksum r))
               (file_table s1))).

(** The [try] block of [defragment]. *)
Definition defragment_try (now : Z) : M bool :=
  s0 <- get_state ;;
  update (set_free_blocks (Py.sort_Z (free_blocks s0))) ;;;
  s <- get_state ;;
  let total_blocks :=
    Py.sum (map (fun info => Py.len (f_blocks info)) (Dict.values (file_table s)))
    + Py.len (free_blocks s) in
  update (set_free_blocks (Py.range 1 (total_blocks + 1))) ;;;
  let sorted_files := Py.sorted_by (fun e => f_path (snd e)) (file_table s) in
  for_each sorted_files defragment_file ;;;
  call_unit (_save_metadata now) ;;;
  ret true.

(** [defragment()] at clock value [now]: on an exception the file table
    taken at the start is put back. *)
Definition defragment (now : Z) (s : state) : bool * state :=
  match defragment_try now s with
  | (Val b, s') => (b, s')
  | (Exc, s') => (false, set_file_table (file_table s) s')
  end.

End Operations.

(** ** Notions used in the statements *)

(** The state in which [write_file] looks the file up: the cache entry of
    the path is dropped and a missing parent directory is created. *)
Definition prepared {H : Host} (now : Z) (p : string) (s : state) : state :=
  let path := normalize p in
  let s0 := _invalidate_cache path s in
  if Dict.mem (Py.dirname path) (directory_structure s) then s0
  else snd (create_directory now (Py.dirname path) s0).

(** A path at which [open(k, 'w')] succeeds. *)
Definition writable (k : string) (d : Disk.t) : bool :=
  match Disk.write k "" d with
  | Some _ => true
  | None => false
  end.

(** A name that stands for one entry of a directory: it is not empty,
    not [.] and not [..], has no NUL character and at most 255 bytes. *)
Definition plain_name (n : string) : bool :=
  negb ((n =? "") || (n =? ".") || (n =? ".."))%string
  && forallb (fun ch => negb (Ascii.eqb ch Ascii.zero)) (Py.chars n)
  && (String.length n <=? 255)%nat.

(** A normalized path all of whose components are such names.  Its place
    on disk has no other spelling among these paths, so that comparing the
    places as written, as [Disk] does, tells whether they are the same
    object. *)
Definition plain_path (path : string) : bool :=
  match Py.split path with
  | first :: names =>
      (first =? "")%string
      && match names with [] => false | _ => forallb plain_name names end
  | [] => false
  end.

(** The places under the root the manager keeps for itself: the metadata
    file and what lies in the backup directory, whether the path is
    written that way or comes to it once [.], [..] and doubled separators
    are resolved. *)
Definition kept (k : string) : bool :=
  (k =? metadata_file)%string || Py.startswith k (backup_dir ++ "/").

Definition reserved (k : string) : bool := kept k || kept (Py.normpath k).

(** Text without a carriage return. *)
Definition no_carriage_return (c : string) : bool :=
  forallb (fun ch => negb (Ascii.eqb ch Py.cr)) (Py.chars c).

(** A state in which the path leads to a file that holds [c]: the cache
    entry of the path, if there is one, is [c]; the directory and file
    tables lead to a record whose checksum is that of the bytes of [c];
    and the disk holds those bytes. *)
Definition ready {H : Host} (p c : string) (s : state) : Prop :=
  exists e fid r,
    NoDup (Dict.keys (read_cache s))
    /\ (forall v, Dict.get (normalize p) (read_cache s) = Some v -> v = c)
    /\ Dict.get (Py.dirname (normalize p)) (directory_structure s) = Some e
    /\ Dict.get (Py.basename (normalize p)) (d_contents e) = Some (CFile fid)
    /\ Dict.get fid (file_table s) = Some r
    /\ f_checksum r = md5 (text_encode c)
    /\ Disk.read (physical (normalize p)) (disk s) = Some (text_encode c).

(** A statement that leaves the read cache as it is, whether it raises
    or not. *)
Definition keeps_cache {A} (m : M A) : Prop :=
  forall s, read_cache (snd (m s)) = read_cache s.

(** The names in the backup directory, none when it cannot be listed. *)
Definition backup_names (d : Disk.t) : list string :=
  match Disk.listdir backup_dir d with
  | Some names => names
  | None => []
  end.

(** The backup per-file recovery settles on: among the names that start
    with the file's backup prefix, taken from the greatest name down, the
    first whose checksum is the stored one. *)
Definition first_valid_backup {H : Host} (k stored : string) (d : Disk.t)
  : option string :=
  find (fun b => (_calculate_checksum (Py.join backup_dir b) d =? stored)%string)
       (candidate_backups k (backup_names d)).

(** The metadata backup [_recover_metadata] tries: the name that sorts
    last. *)
Definition latest_backup (names : list string) : string :=
  last (Py.sorted (metadata_backups names)) "".

(** What deserializing the file at a path gives, if anything. *)
Definition load_backup {H : Host} (k : string) (d : Disk.t) : option json_data :=
  match Disk.read k d with
  | Some b => json_load b
  | None => None
  end.

(** The order [sorted(..., key=...)] establishes. *)
Definition key_le {A} (key : A -> string) (x y : A) : Prop :=
  (key x <=? key y)%string = true.

(** A record with another block list. *)
Definition with_blocks (r : file_record) (blocks : list Z) : file_record :=
  mk_file_record (f_path r) (f_size r) blocks
                 (f_created r) (f_modified r) (f_checksum r).

(** The number of blocks a record's size calls for,
    [ceil(size / block_size)]. *)
Definition block_count (bs : Z) (r : file_record) : Z :=
  (f_size r + bs - 1) / bs.

(** The layout the defragmenter is to produce: the files in the given
    order, each with a run of consecutive blocks that starts where the run
    of the file before it ends. *)
Fixpoint layout (bs start : Z) (files : list (string * file_record))
  : list (string * file_record) :=
  match files with
  | [] => []
  | (file_id, r) :: rest =>
      let n := block_count bs r in
      (file_id, with_blocks r (Py.range start (start + n)))
        :: layout bs (start + n) rest
  end.

(** ** A host and file systems to run the operations on

    The digest keeps its argument, text is stored as written and read as
    UTF-8, the clock value is printed in decimal, a snapshot is dumped as a
    summary of its counts, and the only document [json_load] accepts is
    the empty object, for which every field takes its default. *)

Definition decimal (n : Z) : string :=
  NilZero.string_of_uint (N.to_uint (Z.to_N n)).

Definition in_range (lo hi : N) (c : ascii) : bool :=
  let n := N_of_ascii c in ((lo <=? n) && (n <=? hi))%N.

(** Well-formed UTF-8: one byte below 128, or a lead byte with its one,
    two or three continuation bytes, overlong forms, surrogates and code
    points above 10FFFF left out. *)
Fixpoint utf8 (l : list ascii) : bool :=
  match l with
  | [] => true
  | a :: l1 =>
      if in_range 0 127 a then utf8 l1
      else
        match l1 with
        | [] => false
        | b :: l2 =>
            if in_range 194 223 a then in_range 128 191 b && utf8 l2
            else
              match l2 with
              | [] => false
              | c :: l3 =>
                  if in_range 224 239 a then
                    in_range (if in_range 224 224 a then 160 else 128)
                             (if in_range 237 237 a then 159 else 191) b
                    && in_range 128 191 c && utf8 l3
                  else
                    match l3 with
                    | [] => false
                    | d :: l4 =>
                        in_range 240 244 a
                        && in_range (if in_range 240 240 a then 144 else 128)
                                    (if in_range 244 244 a then 143 else 191) b
                        && in_range 128 191 c && in_range 128 191 d && utf8 l4
                    end
              end
        end
  end.

#[local] Instance plain_host : Host := {|
  md5 := fun b => "md5:" ++ b;
  json_dump := fun snap =>
    "{block_size: " ++ decimal (snap_block_size snap)
    ++ ", free: " ++ decimal (Py.len (snap_free_blocks snap))
    ++ ", files: " ++ decimal (Py.len (snap_file_table snap)) ++ "}";
  json_load := fun b => if (b =? "{}")%string
                        then Some (mk_json_data None None None None) else None;
  strftime := decimal;
  text_encode := fun s => s;
  text_decode := fun b => if utf8 (Py.chars b) then Some b else None;
  getctime := fun _ => 0;
  getmtime := fun _ => 0
|}.

(** A freshly initialized file system on an empty tree. *)
Definition fresh : state := snd (init 0 []).

(** Files [/f1] ... [/fn] of one byte each, created in that order. *)
Fixpoint fill (n : nat) (s : state) : state :=
  match n with
  | O => s
  | S n' => snd (create_file 1 ("/f" ++ decimal (Z.of_nat n)) "x" (fill n' s))
  end.

(** A fresh file system after a thousand one-block files: every block of
    the initial pool is held by a file. *)
Definition full : state := fill 1000 fresh.

(** A fresh file system with a directory [/docs]. *)
Definition with_docs : state := snd (create_directory 1 "/docs" fresh).

(** ... and a file [/docs/readme.txt] in it, read once. *)
Definition with_readme : state :=
  snd (read_file 3 "/docs/readme.txt"
         (snd (create_file 2 "/docs/readme.txt" "Welcome" with_docs))).

(** The file system of [with_readme] after the file has been written
    once more (which leaves a backup of its content), and then damaged on
    disk the way [simulate_disk_crash("files")] does. *)
Definition damaged : state :=
  let s := snd (write_file 6 "/docs/readme.txt" "Welcome" with_readme) in
  set_disk (Dict.set "docs/readme.txt" (Disk.File "CORRUPTED DATA!!!") (disk s)) s.

(** A tree whose metadata file is unreadable and whose backup directory
    holds an older backup that parses and a newer one that does not. *)
Definition two_backups : Disk.t :=
  [(".backups", Disk.Dir);
   (".backups/metadata_backup_20250101_000000.json", Disk.File "{}");
   (".backups/metadata_backup_20250102_000000.json", Disk.File "{{{Invalid JSON!!");
   ("fs_metadata.json", Disk.File "{{{Invalid JSON!!")].

(** A file system with two files whose blocks are out of path order:
    [/b.txt] is created first, then [/a.txt], then [/b.txt] is written
    again, which moves it to the next free block. *)
Definition scattered : state :=
  let s1 := snd (create_file 1 "/b.txt" "b" fresh) in
  let s2 := snd (create_file 2 "/a.txt" "a" s1) in
  snd (write_file 3 "/b.txt" "bb" s2).

(** A file system whose backup directory is gone: [/.backups] has been
    registered as a directory and deleted recursively, which removes the
    physical directory with the metadata backups in it. *)
Definition no_backup_dir : state :=
  let s1 := snd (create_directory 1 "/.backups" fresh) in
  snd (delete_directory 2 "/.backups" true s1).

(** ** Cache configuration *)

Definition set_cache_max_size (v : Z) (s : state) : state :=
  mk_state (block_size s) (free_blocks s) (file_table s) (directory_structure s)
           (read_cache s) v (cache_ttl s) (cache_timestamps s)
           (disk s).

Definition set_cache_ttl (v : Z) (s : state) : state :=
  mk_state (block_size s) (free_blocks s) (file_table s) (directory_structure s)
           (read_cache s) (cache_max_size s) v (cache_timestamps s)
           (disk s).

(** [if self.read_cache: self.read_cache.pop(next(iter(self.read_cache)))]:
    the entry inserted first goes. *)
Definition pop_first (s : state) : state :=
  match read_cache s with
  | [] => s
  | (key, _) :: _ => set_read_cache (Dict.del key (read_cache s)) s
  end.

(** [configure_cache(max_size, ttl)]. *)
Definition configure_cache (max_size ttl : Z) (s : state) : state :=
  let s1 := set_cache_max_size max_size s in
  let s2 := set_cache_ttl ttl s1 in
  let s3 := set_cache_timestamps Dict.empty s2 in
  if Py.len (read_cache s3) >? cache_max_size s3 then
    let items_to_remove := Py.len (read_cache s3) - cache_max_size s3 in
    fold_left (fun s' _ => pop_first s') (Py.range 0 items_to_remove) s3
  else s3.

(** ** Block statistics

    The counts [analyze_performance] takes from the tables before it
    starts its timing runs. *)

(** [sum(len(info['blocks']) for info in self.file_table.values())]. *)
Definition used_blocks (s : state) : Z :=
  Py.sum (map (fun info => Py.len (f_blocks info)) (Dict.values (file_table s))).

(** [used_blocks + len(self.free_blocks)]. *)
Definition total_blocks (s : state) : Z :=
  used_blocks s + Py.len (free_blocks s).

(** [sum(1 for i in range(len(blocks) - 1) if blocks[i+1] != blocks[i] + 1)]:
    the neighbours in the list that are not consecutive identifiers. *)
Fixpoint discontinuities (blocks : list Z) : Z :=
  match blocks with
  | a :: rest =>
      match rest with
      | b :: _ => (if b =? a + 1 then 0 else 1) + discontinuities rest
      | [] => 0
      end
  | [] => 0
  end.

(** ** Further notions used in the statements *)

(** The read cache and its timestamps as dictionaries over the same
    keys. *)
Definition cache_consistent (s : state) : Prop :=
  NoDup (Dict.keys (read_cache s))
  /\ NoDup (Dict.keys (cache_timestamps s))
  /\ forall k, In k (Dict.keys (read_cache s))
               <-> In k (Dict.keys (cache_timestamps s)).

(** An entry of the timestamps that [_check_cache_expiration] drops at
    clock value [now]. *)
Definition expired (now : Z) (s : state) (k : string) : bool :=
  match Dict.get k (cache_timestamps s) with
  | Some t => now - t >? cache_ttl s
  | None => false
  end.

(** The file system of [with_docs] with a file [/docs/readme.txt] that
    has not been read yet. *)
Definition with_file : state :=
  snd (create_file 2 "/docs/readme.txt" "Welcome" with_docs).

(** The file system of [with_file] after the bytes of the file on disk
    have been replaced by one byte that is not UTF-8. *)
Definition garbled : state :=
  set_disk (Dict.set "docs/readme.txt" (Disk.File (String "255" "")) (disk with_file))
           with_file.

(** What the block bookkeeping relies on (the conditions under which C7
    describes [defragment]): a positive block size, a file table that
    binds no key twice, and in every record as many blocks as the size
    calls for. *)
Definition sized (s : state) : Prop :=
  0 < block_size s
  /\ NoDup (Dict.keys (file_table s))
  /\ forall id r, Dict.get id (file_table s) = Some r ->
                  Py.len (f_blocks r) = block_count (block_size s) r.

(** Two states that differ at most in the directory table and on disk. *)
Definition same_files (s s' : state) : Prop :=
  block_size s' = block_size s
  /\ free_blocks s' = free_blocks s
  /\ file_table s' = file_table s
  /\ read_cache s' = read_cache s
  /\ cache_timestamps s' = cache_timestamps s
  /\ cache_max_size s' = cache_max_size s
  /\ cache_ttl s' = cache_ttl s.

(** A statement every run of which, whether it raises or not, takes a
    state to one related to it by [R]. *)
Definition respects {A} (R : state -> state -> Prop) (m : M A) : Prop :=
  forall s, R s (snd (m s)).

(** No directory lists a subdirectory among its contents. *)
Definition files_only (s : state) : Prop :=
  forall dir e name c,
    Dict.get dir (directory_structure s) = Some e ->
    Dict.get name (d_contents e) = Some c ->
    exists file_id, c = CFile file_id.

(** A tree with a directory [docs], a file in it, and a metadata file
    that does not parse; there is no metadata backup. *)
Definition crashed_tree : Disk.t :=
  [(".backups", Disk.Dir);
   ("docs", Disk.Dir);
   ("docs/a.txt", Disk.File "hello");
   ("fs_metadata.json", Disk.File "{{{Invalid JSON!!")].

(** ** Crash simulation *)

Section Crash.

Context {H : Host}.

(** [simulate_disk_crash(corruption_type)]; [sample] stands for the file
    ids that [random.sample] draws when files are corrupted.  The method
    has no handler of its own: a failing [open] or a missing record raises
    to the caller. *)
Definition simulate_disk_crash (corruption_type : string) (sample : list string)
  : M unit :=
  if (corruption_type =? "metadata")%string then
    on_disk (Disk.write metadata_file (text_encode "{{{Invalid JSON!!"))
  else if (corruption_type =? "files")%string then
    for_each sample (fun file_id =>
      s <- get_state ;;
      r <- must (Dict.get file_id (file_table s)) ;;
      on_disk (Disk.write (physical (f_path r)) (text_encode "CORRUPTED DATA!!!")))
  else ret tt.

End Crash.

(** The path of the metadata backup a save at a given time writes. *)
Definition metadata_backup_of {H : Host} (now : Z) : string :=
  Py.join backup_dir ("metadata_backup_" ++ strftime now ++ ".json").

(** A fresh file system on a tree whose metadata file holds an empty
    document, for which every field takes its default. *)
Definition one_generation : state :=
  set_disk [(".backups", Disk.Dir); ("fs_metadata.json", Disk.File "{}")] fresh.

(** What [list_directory] reports for one entry of a directory, if the
    table the entry points into has it. *)
Definition describe (s : state) (c : child) : option item :=
  match c with
  | CFile file_id =>
      option_map (fun r => IFile (f_size r) (f_created r) (f_modified r))
                 (Dict.get file_id (file_table s))
  | CDir subdir_path =>
      option_map (fun e => IDir (d_created e) (d_modified e) (Py.len (d_contents e)))
                 (Dict.get subdir_path (directory_structure s))
  end.

(** The entries of a directory with their descriptions, in order; nothing
    when one of them cannot be described. *)
Fixpoint describe_all (s : state) (items : Dict.t child) : option (Dict.t item) :=
  match items with
  | [] => Some []
  | (name, c) :: rest =>
      match describe s c, describe_all s rest with
      | Some i, Some l => Some ((name, i) :: l)
      | _, _ => None
      end
  end.

(** The blocks the files hold, file by file. *)
Definition held_blocks (s : state) : list Z :=
  concat (map f_blocks (Dict.values (file_table s))).

(** No block is free and held, held by two files or listed twice: the
    free list followed by the blocks of all files has no repetition (and
    the file table binds no key twice). *)
Definition unshared (s : state) : Prop :=
  NoDup (Dict.keys (file_table s))
  /\ NoDup (free_blocks s ++ held_blocks s).

(** A tree in which every object has a name and is found under it in its
    directory: no path ends with a separator, and each is its directory
    joined with its name. *)
Definition named (d : Disk.t) : bool :=
  forallb (fun e =>
             negb (Py.basename (fst e) =? "")%string
             && (Py.join (Py.dirname (fst e)) (Py.basename (fst e)) =? fst e)%string)
          d.

(** The directory [_scan_directory] comes to from a physical and a virtual
    path by going down through the given names, each a directory that its
    parent lists and that is not one of the two names the scan skips. *)
Fixpoint descend (d : Disk.t) (physical_path virtual_path : string)
    (items : list string) : option (string * string) :=
  match items with
  | [] => Some (physical_path, virtual_path)
  | item :: rest =>
      if existsb (String.eqb item) (Disk.children physical_path d)
         && negb ((item =? metadata_file) || (item =? backup_dir))%string
         && Disk.isdir (Py.join physical_path item) d
      then descend d (Py.join physical_path item)
                   (Py.replace Py.backslash Py.slash (Py.join virtual_path item))
                   rest
      else None
  end.

(** The physical paths on the way down. *)
Fixpoint visited (physical_path : string) (items : list string) : list string :=
  match items with
  | [] => []
  | item :: rest =>
      Py.join physical_path item :: visited (Py.join physical_path item) rest
  end.

(** A step that leaves the disk and the block size as they are and keeps
    every directory that is registered. *)
Definition grows (s s' : state) : Prop :=
  disk s' = disk s
  /\ block_size s' = block_size s
  /\ forall v, Dict.mem v (directory_structure s) = true ->
               Dict.mem v (directory_structure s') = true.

(** * Properties *)

(** ** Running a method body *)

(** Unfolds the combinators of [M] so that a body becomes the nested
    matches of its statements. *)
Ltac mred :=
  cbv beta iota delta
      [bind ret raise get_state update must on_disk call call_unit
       try_bool try_option try_unit finish].

(** ** Dictionaries *)

Lemma get_set_eq {V} (k : string) (v : V) (d : Dict.t V) :
  Dict.get k (Dict.set k v d) = Some v.
Proof.
  induction d as [|[k' v'] d IH]; simpl.
  - now rewrite String.eqb_refl.
  - destruct (k' =? k)%string eqn:E; simpl.
    + now rewrite String.eqb_refl.
    + now rewrite E.
Qed.

Lemma get_set_neq {V} (k k' : string) (v : V) (d : Dict.t V) :
  k <> k' -> Dict.get k' (Dict.set k v d) = Dict.get k' d.
Proof.
  intros Hne. induction d as [|[k0 v0] d IH]; simpl.
  - destruct (k =? k')%string eqn:E; [apply String.eqb_eq in E; contradiction | reflexivity].
  - destruct (k0 =? k)%string eqn:E; simpl.
    + apply String.eqb_eq in E. subst k0.
      destruct (k =? k')%string eqn:E'; [apply String.eqb_eq in E'; contradiction | reflexivity].
    + destruct (k0 =? k')%string; [reflexivity | exact IH].
Qed.

Lemma get_del_neq {V} (k k' : string) (d : Dict.t V) :
  k <> k' -> Dict.get k' (Dict.del k d) = Dict.get k' d.
Proof.
  intros Hne. induction d as [|[k0 v0] d IH]; simpl; [reflexivity|].
  destruct (k0 =? k)%string eqn:E; simpl.
  - apply String.eqb_eq in E. subst k0.
    destruct (k =? k')%string eqn:E'; [apply String.eqb_eq in E'; contradiction | reflexivity].
  - destruct (k0 =? k')%string; [reflexivity | exact IH].
Qed.

(** Deleting keeps what is found under any key that is still found. *)
Lemma get_del_some {V} (k k' : string) (d : Dict.t V) (v : V) :
  Dict.get k' (Dict.del k d) = Some v -> Dict.get k' d = Some v \/ k = k'.
Proof.
  destruct (String.eqb_spec k k') as [->|Hne]; [now right|].
  rewrite get_del_neq by assumption. now left.
Qed.

Lemma mem_get {V} (k : string) (d : Dict.t V) :
  Dict.mem k d = true <-> exists v, Dict.get k d = Some v.
Proof.
  unfold Dict.mem. destruct (Dict.get k d); split; intros Hx;
    try discriminate; eauto. now destruct Hx.
Qed.

(** Assigning to a key that is bound keeps the keys. *)
Lemma keys_set_present {V} (d : Dict.t V) (k : string) (v v' : V) :
  Dict.get k d = Some v' -> Dict.keys (Dict.set k v d) = Dict.keys d.
Proof.
  induction d as [|[k0 v0] d IH]; [discriminate|].
  cbn [Dict.get Dict.set]. destruct (String.eqb_spec k0 k) as [->|Hne].
  - reflexivity.
  - intros Hg. cbn [Dict.keys map fst]. f_equal. now apply IH.
Qed.

(** In a dictionary (no key twice) a pair of the list is what its key
    is bound to. *)
Lemma get_In {V} (d : Dict.t V) (k : string) (v : V) :
  NoDup (Dict.keys d) -> In (k, v) d -> Dict.get k d = Some v.
Proof.
  induction d as [|[k' v'] d IH]; [intros _ []|].
  cbn [Dict.keys map fst]. intros Hnd Hin. apply NoDup_cons_iff in Hnd.
  destruct Hnd as [Hk' Hnd]. cbn [Dict.get].
  destruct Hin as [[= -> ->]|Hin].
  - now rewrite String.eqb_refl.
  - destruct (String.eqb_spec k' k) as [->|Hne].
    + exfalso. apply Hk'. change k with (fst (k, v)). now apply in_map.
    + now apply IH.
Qed.

Lemma get_Some_In {V} (d : Dict.t V) (k : string) (v : V) :
  Dict.get k d = Some v -> In (k, v) d.
Proof.
  induction d as [|[k' v'] d IH]; [discriminate|]. cbn [Dict.get].
  destruct (String.eqb_spec k' k) as [->|Hne].
  - intros [= ->]. now left.
  - intros Hg. right. now apply IH.
Qed.

Lemma get_None_notin {V} (d : Dict.t V) (k : string) :
  ~ In k (Dict.keys d) -> Dict.get k d = None.
Proof.
  induction d as [|[k' v'] d IH]; [reflexivity|].
  cbn [Dict.keys map fst In Dict.get]. intros Hn.
  destruct (String.eqb_spec k' k) as [->|Hne]; [exfalso; auto|].
  apply IH. intros Hin. apply Hn. now right.
Qed.

Lemma keys_del_incl {V} (k x : string) (d : Dict.t V) :
  In x (Dict.keys (Dict.del k d)) -> In x (Dict.keys d).
Proof.
  induction d as [|[k0 v0] d IH]; [intros []|]. cbn [Dict.del].
  destruct (k0 =? k)%string; cbn [Dict.keys map fst In].
  - now right.
  - intros [->|Hx]; [now left | right; now apply IH].
Qed.

Lemma keys_del_NoDup {V} (k : string) (d : Dict.t V) :
  NoDup (Dict.keys d) -> NoDup (Dict.keys (Dict.del k d)).
Proof.
  induction d as [|[k0 v0] d IH]; [intros _; constructor|].
  cbn [Dict.keys map fst Dict.del]. intros Hnd. apply NoDup_cons_iff in Hnd.
  destruct Hnd as [Hk0 Hnd]. destruct (k0 =? k)%string; [exact Hnd|].
  cbn [map fst]. constructor; [|now apply IH].
  intros Hin. apply Hk0. now apply keys_del_incl in Hin.
Qed.

Lemma get_del_eq {V} (k : string) (d : Dict.t V) :
  NoDup (Dict.keys d) -> Dict.get k (Dict.del k d) = None.
Proof.
  induction d as [|[k0 v0] d IH]; [reflexivity|].
  cbn [Dict.keys map fst Dict.del]. intros Hnd. apply NoDup_cons_iff in Hnd.
  destruct Hnd as [Hk0 Hnd]. destruct (String.eqb_spec k0 k) as [->|Hne].
  - now apply get_None_notin.
  - cbn [Dict.get]. destruct (String.eqb_spec k0 k); [contradiction | now apply IH].
Qed.

Lemma keys_set_incl {V} (k x : string) (v : V) (d : Dict.t V) :
  In x (Dict.keys (Dict.set k v d)) -> x = k \/ In x (Dict.keys d).
Proof.
  induction d as [|[k0 v0] d IH]; cbn [Dict.set Dict.keys map fst In].
  - intros [->|[]]. now left.
  - destruct (k0 =? k)%string eqn:E; cbn [map fst In].
    + intros [->|Hx]; auto.
    + intros [->|Hx]; auto. destruct (IH Hx); auto.
Qed.

Lemma keys_set_NoDup {V} (k : string) (v : V) (d : Dict.t V) :
  NoDup (Dict.keys d) -> NoDup (Dict.keys (Dict.set k v d)).
Proof.
  induction d as [|[k0 v0] d IH]; cbn [Dict.set Dict.keys map fst].
  - intros _. repeat constructor. intros [].
  - intros Hnd. apply NoDup_cons_iff in Hnd. destruct Hnd as [Hk0 Hnd].
    destruct (String.eqb_spec k0 k) as [->|Hne]; cbn [map fst].
    + now constructor.
    + constructor; [|now apply IH].
      intros Hin. apply keys_set_incl in Hin. destruct Hin as [->|Hin]; auto.
Qed.

(** ** Strings and paths *)

Lemma chars_str (l : list ascii) : Py.chars (Py.str l) = l.
Proof. apply list_ascii_of_string_of_list_ascii. Qed.

Lemma str_chars (s : string) : Py.str (Py.chars s) = s.
Proof. apply string_of_list_ascii_of_string. Qed.

Lemma replace_backslash_idem (s : string) :
  Py.replace Py.backslash Py.slash (Py.replace Py.backslash Py.slash s)
  = Py.replace Py.backslash Py.slash s.
Proof.
  unfold Py.replace. rewrite chars_str, map_map. f_equal.
  apply map_ext. intros c.
  destruct (Ascii.eqb c Py.backslash) eqn:E; [reflexivity | now rewrite E].
Qed.

Lemma replace_cons (a b c : ascii) (s : string) :
  Py.replace a b (String c s)
  = String (if Ascii.eqb c a then b else c) (Py.replace a b s).
Proof. reflexivity. Qed.

Lemma startswith_slash_cons (c : ascii) (s : string) :
  Py.startswith (String c s) "/" = Ascii.eqb c Py.slash.
Proof.
  unfold Py.startswith. cbn [String.prefix].
  destruct (ascii_dec "/" c) as [<-|Hne].
  - now destruct s.
  - symmetry. apply Ascii.eqb_neq. unfold Py.slash. congruence.
Qed.

(** A normalized path starts with a slash and is normalized to itself. *)
Lemma normalize_startswith (p : string) : Py.startswith (normalize p) "/" = true.
Proof.
  unfold normalize.
  destruct (Py.startswith (Py.replace Py.backslash Py.slash p) "/") eqn:E;
    [exact E |].
  cbn [String.append]. now rewrite startswith_slash_cons.
Qed.

Lemma normalize_idem (p : string) : normalize (normalize p) = normalize p.
Proof.
  assert (Hr : Py.replace Py.backslash Py.slash (normalize p) = normalize p).
  { unfold normalize.
    destruct (Py.startswith (Py.replace Py.backslash Py.slash p) "/").
    - apply replace_backslash_idem.
    - cbn [String.append]. rewrite replace_cons.
      now rewrite replace_backslash_idem. }
  unfold normalize at 1. rewrite Hr, normalize_startswith. reflexivity.
Qed.

(** A path without trailing slash is its own [rstrip]. *)
Lemma rstrip_id (k : string) : Py.endswith_slash k = false -> Py.rstrip k = k.
Proof.
  unfold Py.endswith_slash, Py.rstrip. intros Hk.
  assert (Hrev : Py.chars k = rev (rev (Py.chars k)))
    by (symmetry; apply rev_involutive).
  destruct (rev (Py.chars k)) as [|c l] eqn:E.
  - cbn [Py.drop_while rev] in Hrev |- *.
    rewrite <- (str_chars k), Hrev. reflexivity.
  - cbn [Py.drop_while]. rewrite Hk, <- Hrev. apply str_chars.
Qed.

Lemma startswith_backups (rest : string) :
  Py.startswith (".backups/" ++ rest) ".backups/" = true.
Proof. now destruct rest. Qed.

(** The metadata backup is written under the backup directory, so its
    path starts with a dot, whatever the timestamp. *)
Lemma metadata_backup_path (stamp : string) :
  Py.join backup_dir ("metadata_backup_" ++ stamp ++ ".json")
  = String "." ("backups/metadata_backup_" ++ stamp ++ ".json").
Proof. reflexivity. Qed.

Lemma join_dot (a b : string) :
  exists rest, Py.join (String "." a) (String "f" b) = String "." rest.
Proof.
  unfold Py.join. rewrite startswith_slash_cons.
  change (Ascii.eqb "f" Py.slash) with false. cbv iota.
  change ((String "." a =? "")%string) with false. cbv iota.
  destruct (Py.endswith_slash (String "." a)); cbn [String.append]; eauto.
Qed.

Lemma join_backups (a : string) :
  exists rest, Py.join (".backups/" ++ a) "fs_metadata.json" = ".backups/" ++ rest.
Proof.
  unfold Py.join.
  change (Py.startswith "fs_metadata.json" "/") with false. cbv iota.
  change ((".backups/" ++ a =? "")%string) with false. cbv iota.
  destruct (Py.endswith_slash (".backups/" ++ a)); eexists; reflexivity.
Qed.

(** ** The order on strings *)

Lemma ascii_compare_lt_trans (a b c : ascii) :
  Ascii.compare a b = Lt -> Ascii.compare b c = Lt -> Ascii.compare a c = Lt.
Proof.
  unfold Ascii.compare. rewrite !N.compare_lt_iff. lia.
Qed.

Lemma string_compare_refl (s : string) : String.compare s s = Eq.
Proof.
  induction s as [|a s IH]; [reflexivity|]. cbn [String.compare].
  unfold Ascii.compare. now rewrite N.compare_refl.
Qed.

Lemma string_compare_lt_trans (s1 s2 s3 : string) :
  String.compare s1 s2 = Lt -> String.compare s2 s3 = Lt ->
  String.compare s1 s3 = Lt.
Proof.
  revert s2 s3. induction s1 as [|a s1 IH]; intros [|b s2] [|c s3];
    cbn [String.compare]; try discriminate; try reflexivity.
  destruct (Ascii.compare a b) eqn:Eab; try discriminate;
    destruct (Ascii.compare b c) eqn:Ebc; try discriminate; intros H12 H23.
  - apply Ascii.compare_eq_iff in Eab, Ebc. subst.
    unfold Ascii.compare. rewrite N.compare_refl. eauto.
  - apply Ascii.compare_eq_iff in Eab. subst. now rewrite Ebc.
  - apply Ascii.compare_eq_iff in Ebc. subst. now rewrite Eab.
  - now rewrite (ascii_compare_lt_trans _ _ _ Eab Ebc).
Qed.

Lemma leb_iff (s1 s2 : string) :
  (s1 <=? s2)%string = true <-> String.compare s1 s2 = Lt \/ s1 = s2.
Proof.
  unfold String.leb. destruct (String.compare s1 s2) eqn:E; split; intros Hx;
    try discriminate; auto.
  - right. now apply String.compare_eq_iff.
  - destruct Hx as [Hx|Hx]; [discriminate|]. subst.
    rewrite string_compare_refl in E. discriminate.
Qed.

Lemma leb_refl (s : string) : (s <=? s)%string = true.
Proof. apply leb_iff. now right. Qed.

Lemma leb_trans (s1 s2 s3 : string) :
  (s1 <=? s2)%string = true -> (s2 <=? s3)%string = true ->
  (s1 <=? s3)%string = true.
Proof.
  rewrite !leb_iff. intros [H12| ->] [H23| ->]; auto.
  left. eapply string_compare_lt_trans; eauto.
Qed.

Lemma ltb_leb (s1 s2 : string) :
  (s1 <? s2)%string = true -> (s1 <=? s2)%string = true.
Proof.
  unfold String.ltb, String.leb.
  destruct (String.compare s1 s2); intros Hx; (reflexivity || exact Hx).
Qed.

Lemma not_ltb_leb (s1 s2 : string) :
  (s1 <? s2)%string = false -> (s2 <=? s1)%string = true.
Proof.
  unfold String.ltb, String.leb. rewrite (String.compare_antisym s2 s1).
  destruct (String.compare s1 s2); cbn [CompOpp]; intros Hx;
    (reflexivity || discriminate Hx).
Qed.

Lemma ltb_irrefl (x : string) : (x <? x)%string = false.
Proof. unfold String.ltb. now rewrite string_compare_refl. Qed.

Lemma ltb_not_leb (x y : string) :
  (x <? y)%string = true -> (y <=? x)%string = true -> False.
Proof.
  unfold String.ltb, String.leb. rewrite (String.compare_antisym y x).
  destruct (String.compare x y); cbn [CompOpp]; intros H1 H2; discriminate.
Qed.

(** ** Sorting *)

Section SortedBy.

Context {A : Type} (key : A -> string).

Lemma insert_by_In (x y : A) (l : list A) :
  In y (Py.insert_by key x l) <-> y = x \/ In y l.
Proof.
  induction l as [|z l IH]; cbn [Py.insert_by In].
  - intuition.
  - destruct (key x <? key z)%string; cbn [In]; rewrite ?IH; intuition.
Qed.

Lemma insert_by_sorted (x : A) (l : list A) :
  StronglySorted (key_le key) l -> StronglySorted (key_le key) (Py.insert_by key x l).
Proof.
  induction 1 as [|z l Hs IH Hall]; cbn [Py.insert_by].
  - repeat constructor.
  - destruct (key x <? key z)%string eqn:E.
    + constructor; [now constructor|]. constructor; [now apply ltb_leb|].
      rewrite Forall_forall in Hall |- *. intros w Hw.
      eapply leb_trans; [apply ltb_leb; eassumption|]. now apply Hall.
    + constructor; [assumption|].
      rewrite Forall_forall in Hall |- *. intros w Hw.
      apply insert_by_In in Hw. destruct Hw as [->|Hw]; [|now apply Hall].
      now apply not_ltb_leb.
Qed.

Lemma insert_by_perm (x : A) (l : list A) :
  Permutation (x :: l) (Py.insert_by key x l).
Proof.
  induction l as [|z l IH]; cbn [Py.insert_by]; [reflexivity|].
  destruct (key x <? key z)%string; [reflexivity|].
  rewrite perm_swap. now constructor.
Qed.

Lemma sorted_by_acc (l acc : list A) :
  StronglySorted (key_le key) acc ->
  StronglySorted (key_le key) (fold_left (fun acc x => Py.insert_by key x acc) l acc)
  /\ Permutation (acc ++ l)%list
                 (fold_left (fun acc x => Py.insert_by key x acc) l acc).
Proof.
  revert acc. induction l as [|x l IH]; intros acc Hacc; cbn [fold_left].
  - split; [assumption|]. now rewrite app_nil_r.
  - destruct (IH _ (insert_by_sorted x acc Hacc)) as [Hs Hp]. split; [assumption|].
    rewrite <- Hp. rewrite <- insert_by_perm.
    change (x :: acc)%list with ([x] ++ acc)%list.
    rewrite <- Permutation_middle. reflexivity.
Qed.

Lemma sorted_by_sorted (l : list A) : StronglySorted (key_le key) (Py.sorted_by key l).
Proof. apply sorted_by_acc. constructor. Qed.

Lemma sorted_by_perm (l : list A) : Permutation l (Py.sorted_by key l).
Proof. apply (sorted_by_acc l []). constructor. Qed.

(** The last element of a sorted list is its greatest. *)
Lemma sorted_last_greatest (l : list A) (d x : A) :
  StronglySorted (key_le key) l -> In x l -> key_le key x (last l d).
Proof.
  induction 1 as [|z l Hs IH Hall]; [intros []|].
  intros [->|Hx].
  - destruct l as [|w l]; [apply leb_refl|].
    rewrite Forall_forall in Hall.
    change (last (x :: w :: l) d) with (last (w :: l) d).
    apply Hall. destruct (exists_last (l:=w :: l)) as [l' [a ->]]; [discriminate|].
    rewrite last_last. apply in_or_app. right. now left.
  - destruct l as [|w l]; [destruct Hx|].
    change (last (z :: w :: l) d) with (last (w :: l) d). now apply IH.
Qed.

End SortedBy.

(** The candidates are the names with the file's prefix, from the greatest
    name down. *)
Lemma insert_desc_In (x y : string) (l : list string) :
  In y (Py.insert_desc x l) <-> y = x \/ In y l.
Proof.
  induction l as [|z l IH]; cbn [Py.insert_desc In].
  - intuition.
  - destruct (z <? x)%string; cbn [In]; rewrite ?IH; intuition.
Qed.

Lemma insert_desc_sorted (x : string) (l : list string) :
  StronglySorted (fun a b => (b <=? a)%string = true) l ->
  StronglySorted (fun a b => (b <=? a)%string = true) (Py.insert_desc x l).
Proof.
  induction 1 as [|z l Hs IH Hall]; cbn [Py.insert_desc].
  - repeat constructor.
  - destruct (z <? x)%string eqn:E.
    + constructor; [now constructor|]. constructor; [now apply ltb_leb|].
      rewrite Forall_forall in Hall |- *. intros w Hw.
      eapply leb_trans; [now apply Hall | now apply ltb_leb].
    + constructor; [assumption|].
      rewrite Forall_forall in Hall |- *. intros w Hw.
      apply insert_desc_In in Hw. destruct Hw as [->|Hw]; [|now apply Hall].
      now apply not_ltb_leb.
Qed.

Lemma sorted_desc_acc (l acc : list string) :
  StronglySorted (fun a b => (b <=? a)%string = true) acc ->
  StronglySorted (fun a b => (b <=? a)%string = true)
                 (fold_left (fun acc x => Py.insert_desc x acc) l acc)
  /\ forall y, In y (fold_left (fun acc x => Py.insert_desc x acc) l acc)
               <-> In y acc \/ In y l.
Proof.
  revert acc. induction l as [|x l IH]; intros acc Hacc; cbn [fold_left].
  - split; [assumption|]. cbn [In]. intuition.
  - destruct (IH _ (insert_desc_sorted x acc Hacc)) as [Hs Hin].
    split; [assumption|]. intros y. rewrite Hin, insert_desc_In. cbn [In].
    intuition.
Qed.

(** ** Ranges, slices and sums *)

(** [range_from] and the slices. *)
Lemma range_from_length (a : Z) (n : nat) : length (Py.range_from a n) = n.
Proof. revert a. induction n; intros a; simpl; [reflexivity | now rewrite IHn]. Qed.

Lemma range_length (a b : Z) : a <= b -> Py.len (Py.range a b) = b - a.
Proof.
  intros Hab. unfold Py.len, Py.range. rewrite range_from_length. lia.
Qed.

Lemma range_from_In (a : Z) (n : nat) (x : Z) :
  In x (Py.range_from a n) <-> a <= x < a + Z.of_nat n.
Proof.
  revert a. induction n; intros a; simpl.
  - lia.
  - rewrite IHn. lia.
Qed.

Lemma range_In (a b x : Z) : In x (Py.range a b) -> a <= x < b.
Proof. unfold Py.range. rewrite range_from_In. lia. Qed.

Lemma range_from_app (a : Z) (n m : nat) :
  Py.range_from a (n + m) = (Py.range_from a n ++ Py.range_from (a + Z.of_nat n) m)%list.
Proof.
  revert a. induction n as [|n IH]; intros a.
  - cbn [Nat.add Py.range_from app]. f_equal. lia.
  - cbn [Nat.add Py.range_from app]. rewrite IH. do 3 f_equal. lia.
Qed.

(** Taking [n] blocks from a run leaves the rest of the run. *)
Lemma take_drop_range (a b n : Z) :
  0 <= n -> a + n <= b ->
  Py.take n (Py.range a b) = Py.range a (a + n)
  /\ Py.drop n (Py.range a b) = Py.range (a + n) b.
Proof.
  intros Hn Hb. unfold Py.take, Py.drop, Py.bound.
  destruct (n <? 0) eqn:E; [lia|].
  unfold Py.range.
  replace (Z.to_nat (b - a)) with (Z.to_nat n + Z.to_nat (b - (a + n)))%nat by lia.
  rewrite range_from_app.
  replace (a + n - a) with n by lia.
  replace (a + Z.of_nat (Z.to_nat n)) with (a + n) by lia.
  split.
  - rewrite firstn_app, firstn_all2 by (rewrite range_from_length; lia).
    rewrite range_from_length, Nat.sub_diag. cbn [firstn]. apply app_nil_r.
  - rewrite skipn_app, skipn_all2 by (rewrite range_from_length; lia).
    rewrite range_from_length, Nat.sub_diag. reflexivity.
Qed.

Lemma max_list_ge (l : list Z) (x : Z) : In x l -> x <= Py.max_list l.
Proof.
  destruct l as [|y l]; [intros []|]. simpl.
  assert (Hfold : forall l0 acc z, (z <= acc \/ In z l0) -> z <= fold_left Z.max l0 acc).
  { induction l0 as [|w l0 IH]; intros acc z [Hz|Hz]; simpl.
    - assumption.
    - destruct Hz.
    - apply IH. left. lia.
    - destruct Hz as [->|Hz]; apply IH; [left; lia | now right]. }
  intros [->|Hx]; apply Hfold; [left; lia | now right].
Qed.

Lemma sort_Z_length (l : list Z) : Py.len (Py.sort_Z l) = Py.len l.
Proof.
  unfold Py.len, Py.sort_Z. f_equal.
  assert (Hins : forall x acc, length (Py.insert_Z x acc) = S (length acc)).
  { intros x acc. induction acc as [|y acc IH]; cbn [Py.insert_Z length]; [reflexivity|].
    destruct (x <? y); cbn [length]; [reflexivity | now rewrite IH]. }
  assert (Hfold : forall l0 acc,
             length (fold_left (fun acc x => Py.insert_Z x acc) l0 acc)
             = (length acc + length l0)%nat).
  { induction l0 as [|x l0 IH]; intros acc; cbn [fold_left length]; [lia|].
    rewrite IH, Hins. lia. }
  apply (Hfold l []).
Qed.

(** [sum] does not depend on the order. *)
Lemma sum_acc (l : list Z) (a : Z) : fold_left Z.add l a = a + Py.sum l.
Proof.
  unfold Py.sum. revert a. induction l as [|x l IH]; intros a; cbn [fold_left]; [lia|].
  rewrite (IH (a + x)), (IH (0 + x)). lia.
Qed.

Lemma sum_cons (x : Z) (l : list Z) : Py.sum (x :: l) = x + Py.sum l.
Proof. unfold Py.sum at 1. cbn [fold_left]. rewrite sum_acc. lia. Qed.

Lemma sum_perm (l l' : list Z) : Permutation l l' -> Py.sum l = Py.sum l'.
Proof.
  induction 1; rewrite ?sum_cons; lia.
Qed.

Lemma sum_nonneg (l : list Z) : (forall x, In x l -> 0 <= x) -> 0 <= Py.sum l.
Proof.
  induction l as [|x l IH]; intros Hl; [unfold Py.sum; cbn; lia|].
  rewrite sum_cons. pose proof (Hl x (or_introl eq_refl)).
  assert (0 <= Py.sum l) by (apply IH; intros y Hy; apply Hl; now right). lia.
Qed.

(** ** The disk *)

Lemma node_at_plain (k : string) (d : Disk.t) :
  Py.endswith_slash k = false ->
  Disk.node_at k d = if (k =? "")%string then Some Disk.Dir else Dict.get k d.
Proof. intros Hk. unfold Disk.node_at. now rewrite (rstrip_id k Hk). Qed.

Lemma isdir_node_at (x : string) (d : Disk.t) :
  Disk.isdir x d = true <-> Disk.node_at x d = Some Disk.Dir.
Proof.
  unfold Disk.isdir, Disk.lookup.
  destruct (Disk.node_at x d) as [[b|]|].
  - destruct (Py.endswith_slash x); split; discriminate.
  - now split.
  - split; discriminate.
Qed.

(** Reading a regular file back. *)
Lemma read_some_inv (k : string) (d : Disk.t) (b : string) :
  Disk.read k d = Some b ->
  Py.endswith_slash k = false
  /\ (Py.rstrip k =? "")%string = false
  /\ Dict.get k d = Some (Disk.File b).
Proof.
  unfold Disk.read, Disk.lookup, Disk.node_at.
  destruct (Py.endswith_slash k) eqn:Es.
  - destruct (Py.rstrip k =? "")%string; [discriminate|].
    destruct (Dict.get (Py.rstrip k) d) as [[b'|]|]; discriminate.
  - rewrite (rstrip_id k Es).
    destruct (k =? "")%string; [discriminate|].
    destruct (Dict.get k d) as [[b'|]|]; try discriminate.
    intros [= ->]. auto.
Qed.

Lemma read_set_eq (k : string) (d : Disk.t) (b : string) :
  Py.endswith_slash k = false -> (k =? "")%string = false ->
  Disk.read k (Dict.set k (Disk.File b) d) = Some b.
Proof.
  intros Es Hne. unfold Disk.read, Disk.lookup, Disk.node_at.
  rewrite (rstrip_id k Es), Hne, get_set_eq, Es. reflexivity.
Qed.

Lemma writable_inv (k : string) (d : Disk.t) :
  writable k d = true ->
  Py.endswith_slash k = false
  /\ Disk.node_at k d <> Some Disk.Dir
  /\ Disk.isdir (Py.dirname k) d = true.
Proof.
  unfold writable, Disk.write.
  destruct (Py.endswith_slash k); [discriminate|].
  destruct (Disk.node_at k d) as [[b|]|]; try discriminate;
    destruct (Disk.isdir (Py.dirname k) d); try discriminate;
    intros _; repeat split; discriminate.
Qed.

Lemma write_writable (k b : string) (d : Disk.t) :
  writable k d = true -> Disk.write k b d = Some (Dict.set k (Disk.File b) d).
Proof.
  unfold writable, Disk.write.
  destruct (Py.endswith_slash k); [discriminate|].
  destruct (Disk.node_at k d) as [[b0|]|]; try discriminate;
    destruct (Disk.isdir (Py.dirname k) d); try discriminate; reflexivity.
Qed.

Lemma write_inv (k b : string) (d d' : Disk.t) :
  Disk.write k b d = Some d' ->
  writable k d = true /\ d' = Dict.set k (Disk.File b) d.
Proof.
  intros Hw. assert (Hk : writable k d = true).
  { unfold writable, Disk.write in *.
    destruct (Py.endswith_slash k); [discriminate|].
    destruct (Disk.node_at k d) as [[b0|]|]; try discriminate;
      destruct (Disk.isdir (Py.dirname k) d); try discriminate; reflexivity. }
  split; [exact Hk|]. rewrite (write_writable k b d Hk) in Hw. congruence.
Qed.

(** A write keeps the directories and keeps the files files. *)
Lemma write_node_at (key b : string) (d d' : Disk.t) (x : string) :
  Disk.write key b d = Some d' ->
  (Disk.node_at x d = Some Disk.Dir -> Disk.node_at x d' = Some Disk.Dir)
  /\ (forall b0, Disk.node_at x d = Some (Disk.File b0) ->
                 exists b1, Disk.node_at x d' = Some (Disk.File b1)).
Proof.
  intros Hw. destruct (write_inv _ _ _ _ Hw) as [Hk ->].
  destruct (writable_inv _ _ Hk) as (Hs & Hnd & _).
  rewrite (node_at_plain key d Hs) in Hnd.
  unfold Disk.node_at.
  destruct (Py.rstrip x =? "")%string; [split; [auto | discriminate]|].
  destruct (String.eqb_spec key (Py.rstrip x)) as [<-|Hne].
  - rewrite get_set_eq. split.
    + intros Hd. destruct (key =? "")%string; congruence.
    + intros b0 _. eauto.
  - rewrite get_set_neq by assumption. split; eauto.
Qed.

Lemma write_read_other (key b : string) (d d' : Disk.t) (k : string) :
  Disk.write key b d = Some d' ->
  Py.endswith_slash k = false -> key <> k ->
  Disk.read k d' = Disk.read k d.
Proof.
  intros Hw Hk Hne. destruct (write_inv _ _ _ _ Hw) as [_ ->].
  unfold Disk.read, Disk.lookup. rewrite !(node_at_plain k _ Hk).
  now rewrite get_set_neq.
Qed.

(** Writing a file whose path starts with a dot leaves the metadata file
    as it is. *)
Lemma write_dot_keeps_metadata (rest b : string) (d d' : Disk.t) :
  Disk.write (String "." rest) b d = Some d' ->
  Disk.read metadata_file d' = Disk.read metadata_file d.
Proof.
  unfold Disk.write.
  destruct (Py.endswith_slash (String "." rest)); [discriminate|].
  destruct (Disk.node_at (String "." rest) d) as [[b0|]|]; try discriminate;
    destruct (Disk.isdir _ d); try discriminate; intros [= <-];
    unfold Disk.read, Disk.lookup, Disk.node_at;
    change (Py.rstrip metadata_file) with metadata_file;
    change ((metadata_file =? "")%string) with false; cbv iota;
    (rewrite get_set_neq by discriminate); reflexivity.
Qed.

(** [makedirs] keeps every object that is there. *)
Lemma makedirs_fuel_node_at (fuel : nat) (q : string) (d d' : Disk.t) (x : string)
    (v : Disk.node) :
  Disk.makedirs_fuel fuel q d = Some d' ->
  Disk.node_at x d = Some v -> Disk.node_at x d' = Some v.
Proof.
  revert q d'. induction fuel as [|fuel IH]; intros q d'; cbn [Disk.makedirs_fuel].
  - destruct (Disk.node_at q d) as [[b|]|]; try discriminate. now intros [= <-].
  - destruct (Disk.node_at q d) as [[b|]|] eqn:Eq; try discriminate.
    + now intros [= <-].
    + destruct (Disk.makedirs_fuel fuel (Py.dirname (Py.rstrip q)) d) as [d1|] eqn:E1;
        [|discriminate].
      destruct (Disk.isdir (Py.dirname (Py.rstrip q)) d1); [|discriminate].
      intros [= <-] Hx. specialize (IH _ _ E1 Hx).
      unfold Disk.node_at in *.
      destruct (Py.rstrip x =? "")%string; [exact IH|].
      destruct (String.eqb_spec (Py.rstrip q) (Py.rstrip x)) as [E|Hne].
      * rewrite E in Eq. destruct (Py.rstrip x =? "")%string; congruence.
      * now rewrite get_set_neq.
Qed.

Lemma makedirs_present (q : string) (d : Disk.t) :
  Disk.isdir q d = true -> Disk.makedirs q d = Some d.
Proof.
  intros Hq. apply isdir_node_at in Hq.
  unfold Disk.makedirs. cbn [Disk.makedirs_fuel]. now rewrite Hq.
Qed.

(** [copy2] keeps the directories and keeps the files files. *)
Lemma copy2_node_at (src dst : string) (d d' : Disk.t) (x : string) :
  Disk.copy2 src dst d = Some d' ->
  (Disk.node_at x d = Some Disk.Dir -> Disk.node_at x d' = Some Disk.Dir)
  /\ (forall b0, Disk.node_at x d = Some (Disk.File b0) ->
                 exists b1, Disk.node_at x d' = Some (Disk.File b1)).
Proof.
  unfold Disk.copy2. destruct (Disk.read src d) as [b|]; [|discriminate].
  destruct (Disk.isdir dst d); apply write_node_at.
Qed.

(** Copying onto a regular file replaces its bytes by those of the
    source. *)
Lemma copy2_onto_file (src k : string) (d d' : Disk.t) (old : string) :
  Disk.read k d = Some old ->
  Disk.copy2 src k d = Some d' ->
  exists bytes, Disk.read src d = Some bytes /\ Disk.read k d' = Some bytes.
Proof.
  intros Hold. destruct (read_some_inv _ _ _ Hold) as (Es & Hne & Hget).
  rewrite (rstrip_id k Es) in Hne.
  unfold Disk.copy2.
  destruct (Disk.read src d) as [bytes|]; [|discriminate].
  assert (Hdir : Disk.isdir k d = false).
  { unfold Disk.isdir. unfold Disk.read in Hold.
    destruct (Disk.lookup k d) as [[b|]|]; congruence. }
  rewrite Hdir. unfold Disk.write. rewrite Es.
  destruct (Disk.node_at k d) as [[b|]|]; try discriminate;
    destruct (Disk.isdir (Py.dirname k) d); try discriminate;
    intros [= <-]; exists bytes; (split; [reflexivity | now apply read_set_eq]).
Qed.

Lemma copy2_metadata_backup (stamp : string) (d d' : Disk.t) :
  Disk.copy2 metadata_file
             (Py.join backup_dir ("metadata_backup_" ++ stamp ++ ".json")) d
  = Some d' ->
  Disk.read metadata_file d' = Disk.read metadata_file d.
Proof.
  rewrite metadata_backup_path. unfold Disk.copy2.
  destruct (Disk.read metadata_file d) as [b|] eqn:Er; [|discriminate].
  rewrite <- Er.
  destruct (Disk.isdir _ d).
  - change (Py.basename metadata_file) with (String "f" "s_metadata.json").
    destruct (join_dot ("backups/metadata_backup_" ++ stamp ++ ".json")
                       "s_metadata.json") as [rest ->].
    apply write_dot_keeps_metadata.
  - apply write_dot_keeps_metadata.
Qed.

(** ** What the helper methods leave untouched *)

Section Frames.

Context {H : Host}.

(** Expiring cache entries touches the cache only, and only removes. *)
Lemma expire_key_frame (s : state) (key : string) :
  let s' := expire_key s key in
  directory_structure s' = directory_structure s
  /\ file_table s' = file_table s
  /\ disk s' = disk s
  /\ free_blocks s' = free_blocks s
  /\ block_size s' = block_size s.
Proof.
  unfold expire_key. destruct (Dict.mem key (read_cache s)); repeat split.
Qed.

Lemma check_cache_expiration_frame (now : Z) (s : state) :
  let s' := _check_cache_expiration now s in
  directory_structure s' = directory_structure s
  /\ file_table s' = file_table s
  /\ disk s' = disk s
  /\ free_blocks s' = free_blocks s
  /\ block_size s' = block_size s.
Proof.
  unfold _check_cache_expiration.
  generalize (expired_keys now s). intros l. revert s.
  induction l as [|key l IH]; intros s; cbn [fold_left]; [repeat split|].
  destruct (IH (expire_key s key)) as (H1 & H2 & H3 & H4 & H5).
  destruct (expire_key_frame s key) as (G1 & G2 & G3 & G4 & G5).
  cbv zeta in *. repeat split; congruence.
Qed.

Lemma add_to_cache_frame (now : Z) (path content : string) (s : state) :
  let s' := _add_to_cache now path content s in
  directory_structure s' = directory_structure s
  /\ file_table s' = file_table s
  /\ disk s' = disk s
  /\ free_blocks s' = free_blocks s
  /\ block_size s' = block_size s.
Proof.
  unfold _add_to_cache.
  destruct (Py.len (read_cache s) >=? cache_max_size s); [|repeat split].
  destruct (min_key (cache_timestamps s)) as [oldest|]; [|repeat split].
  destruct (expire_key_frame s oldest) as (G1 & G2 & G3 & G4 & G5).
  cbv zeta in *. repeat split; assumption.
Qed.

Lemma expire_key_cache (s : state) (key : string) :
  NoDup (Dict.keys (read_cache s)) ->
  NoDup (Dict.keys (read_cache (expire_key s key)))
  /\ forall k v, Dict.get k (read_cache (expire_key s key)) = Some v ->
                 Dict.get k (read_cache s) = Some v.
Proof.
  intros Hnd. unfold expire_key.
  destruct (Dict.mem key (read_cache s)); cbn [read_cache set_cache_timestamps set_read_cache].
  - split; [now apply keys_del_NoDup|].
    intros k v Hg. destruct (get_del_some _ _ _ _ Hg) as [Hg'| ->]; [exact Hg'|].
    rewrite get_del_eq in Hg by assumption. discriminate.
  - split; [assumption | auto].
Qed.

Lemma check_cache_expiration_cache (now : Z) (s : state) :
  NoDup (Dict.keys (read_cache s)) ->
  forall k v, Dict.get k (read_cache (_check_cache_expiration now s)) = Some v ->
              Dict.get k (read_cache s) = Some v.
Proof.
  unfold _check_cache_expiration. generalize (expired_keys now s). intros l.
  revert s. induction l as [|key l IH]; intros s Hnd k v; cbn [fold_left]; [auto|].
  destruct (expire_key_cache s key Hnd) as [Hnd' Hsub].
  intros Hg. apply Hsub. now apply IH.
Qed.

Lemma add_to_cache_get (now : Z) (path content : string) (s : state) :
  Dict.get path (read_cache (_add_to_cache now path content s)) = Some content.
Proof.
  unfold _add_to_cache. cbn [read_cache set_cache_timestamps set_read_cache].
  apply get_set_eq.
Qed.

Lemma add_to_cache_NoDup (now : Z) (path content : string) (s : state) :
  NoDup (Dict.keys (read_cache s)) ->
  NoDup (Dict.keys (read_cache (_add_to_cache now path content s))).
Proof.
  intros Hnd. unfold _add_to_cache.
  cbn [read_cache set_cache_timestamps set_read_cache].
  apply keys_set_NoDup.
  destruct (Py.len (read_cache s) >=? cache_max_size s); [|assumption].
  destruct (min_key (cache_timestamps s)); [|assumption].
  now apply expire_key_cache.
Qed.

Lemma invalidate_cache_directory_structure (path : string) (s : state) :
  directory_structure (_invalidate_cache path s) = directory_structure s.
Proof.
  unfold _invalidate_cache.
  now destruct (Dict.mem (normalize path) (read_cache s)).
Qed.

Lemma invalidate_cache_spec (p : string) (s : state) :
  NoDup (Dict.keys (read_cache s)) ->
  let s' := _invalidate_cache (normalize p) s in
  NoDup (Dict.keys (read_cache s'))
  /\ Dict.get (normalize p) (read_cache s') = None
  /\ block_size s' = block_size s
  /\ free_blocks s' = free_blocks s
  /\ file_table s' = file_table s
  /\ directory_structure s' = directory_structure s
  /\ disk s' = disk s.
Proof.
  intros Hnd. unfold _invalidate_cache. rewrite normalize_idem.
  unfold Dict.mem. destruct (Dict.get (normalize p) (read_cache s)) eqn:E;
    cbn [read_cache set_read_cache].
  - repeat split; [now apply keys_del_NoDup | now apply get_del_eq].
  - repeat split; assumption.
Qed.

(** Saving the metadata changes the disk only. *)
Lemma save_metadata_memory (now : Z) (s : state) :
  let s' := _save_metadata now s in
  block_size s' = block_size s
  /\ free_blocks s' = free_blocks s
  /\ file_table s' = file_table s
  /\ directory_structure s' = directory_structure s
  /\ read_cache s' = read_cache s
  /\ cache_timestamps s' = cache_timestamps s
  /\ cache_max_size s' = cache_max_size s
  /\ cache_ttl s' = cache_ttl s.
Proof.
  unfold _save_metadata, save_metadata_try. mred.
  destruct (Disk.exists_ metadata_file (disk s)).
  - destruct (Disk.copy2 metadata_file _ (disk s)) as [d1|]; cbn [snd];
      [|repeat split].
    cbn [disk set_disk].
    match goal with |- context [Disk.write ?a ?b ?c] => destruct (Disk.write a b c) end;
      repeat split.
  - match goal with |- context [Disk.write ?a ?b ?c] => destruct (Disk.write a b c) end;
      repeat split.
Qed.

(** Saving the metadata leaves every file outside the reserved places
    as it is. *)
Lemma save_metadata_read (now : Z) (k : string) (s : state) :
  Py.endswith_slash k = false -> reserved k = false ->
  Disk.read k (disk (_save_metadata now s)) = Disk.read k (disk s).
Proof.
  intros Hk Hres. unfold reserved in Hres. apply orb_false_elim in Hres.
  destruct Hres as [Hres _]. unfold kept in Hres. apply orb_false_elim in Hres.
  destruct Hres as [Hmeta Hpre]. apply String.eqb_neq in Hmeta.
  assert (Hother : forall rest, ".backups/" ++ rest <> k).
  { intros rest <-. change (backup_dir ++ "/") with ".backups/" in Hpre.
    now rewrite startswith_backups in Hpre. }
  unfold _save_metadata, save_metadata_try. mred.
  assert (Hwrite : forall d, Disk.read k
            (disk (snd (match Disk.write metadata_file
                                (json_dump (snapshot_of now (set_disk d s))) d with
                        | Some d' => (Val tt, set_disk d' (set_disk d s))
                        | None => (@Exc unit, set_disk d s)
                        end)))
            = Disk.read k d).
  { intros d. destruct (Disk.write metadata_file _ d) as [d'|] eqn:Ew; cbn [snd disk set_disk];
      [|reflexivity].
    apply (write_read_other _ _ _ _ k Ew Hk). congruence. }
  destruct (Disk.exists_ metadata_file (disk s)).
  - destruct (Disk.copy2 metadata_file _ (disk s)) as [d1|] eqn:Ec; [|reflexivity].
    rewrite Hwrite.
    unfold Disk.copy2 in Ec.
    destruct (Disk.read metadata_file (disk s)) as [b|]; [|discriminate].
    destruct (Disk.isdir _ (disk s)).
    + destruct (join_backups ("metadata_backup_" ++ strftime now ++ ".json"))
        as [rest Hj].
      change (Py.join backup_dir ("metadata_backup_" ++ strftime now ++ ".json"))
        with (".backups/" ++ "metadata_backup_" ++ strftime now ++ ".json") in Ec.
      change (Py.basename metadata_file) with "fs_metadata.json" in Ec.
      rewrite Hj in Ec. apply (write_read_other _ _ _ _ k Ec Hk). apply Hother.
    + apply (write_read_other _ _ _ _ k Ec Hk). apply Hother.
  - destruct (Disk.write metadata_file _ (disk s)) as [d'|] eqn:Ew; cbn [snd disk set_disk];
      [|reflexivity].
    apply (write_read_other _ _ _ _ k Ew Hk). congruence.
Qed.

(** [_backup_file] touches the disk only. *)
Lemma backup_file_memory (now : Z) (k : string) (s : state) :
  let s' := snd (_backup_file now k s) in
  read_cache s' = read_cache s /\ cache_timestamps s' = cache_timestamps s.
Proof.
  unfold _backup_file, try_bool, bind, get_state, on_disk, ret.
  destruct (Disk.exists_ k (disk s)); cbn [negb snd]; [|now split].
  destruct (Disk.makedirs _ (disk s)); cbn [snd]; [|now split].
  match goal with |- context [Disk.copy2 ?a ?b ?c] => destruct (Disk.copy2 a b c) end;
    cbn [snd]; now split.
Qed.

(** [_backup_file] changes nothing but the disk, on which the file stays
    writable. *)
Lemma backup_file_frame (now : Z) (k : string) (s : state) :
  let s' := snd (_backup_file now k s) in
  block_size s' = block_size s
  /\ free_blocks s' = free_blocks s
  /\ file_table s' = file_table s
  /\ directory_structure s' = directory_structure s
  /\ read_cache s' = read_cache s
  /\ (writable k (disk s) = true -> writable k (disk s') = true).
Proof.
  unfold _backup_file, try_bool, bind, get_state, on_disk, ret.
  destruct (Disk.exists_ k (disk s)) eqn:Ex; cbn [negb snd]; [|repeat split; auto].
  destruct (Disk.makedirs _ (disk s)) as [d1|] eqn:Em; cbn [snd]; [|repeat split; auto].
  cbn [disk set_disk].
  assert (Hw1 : writable k (disk s) = true -> writable k d1 = true
                /\ exists b0, Disk.node_at k d1 = Some (Disk.File b0)).
  { intros Hw. destruct (writable_inv _ _ Hw) as (Hs & Hnd & Hp).
    unfold Disk.exists_, Disk.lookup in Ex.
    destruct (Disk.node_at k (disk s)) as [[b0|]|] eqn:En;
      [|congruence|discriminate].
    pose proof (makedirs_fuel_node_at _ _ _ _ k _ Em En) as En1.
    apply isdir_node_at in Hp.
    pose proof (makedirs_fuel_node_at _ _ _ _ (Py.dirname k) _ Em Hp) as Hp1.
    split; [|eauto].
    unfold writable, Disk.write. rewrite Hs, En1.
    apply isdir_node_at in Hp1. now rewrite Hp1. }
  match goal with |- context [Disk.copy2 ?a ?b ?c] =>
    destruct (Disk.copy2 a b c) as [d2|] eqn:Ec end; cbn [snd].
  - cbn [block_size free_blocks file_table directory_structure read_cache disk set_disk].
    repeat split. intros Hw. destruct (Hw1 Hw) as [Hw' [b0 En1]].
    destruct (writable_inv _ _ Hw') as (Hs & _ & Hp).
    apply isdir_node_at in Hp.
    destruct (copy2_node_at _ _ _ _ k Ec) as [_ Hf].
    destruct (copy2_node_at _ _ _ _ (Py.dirname k) Ec) as [Hd _].
    destruct (Hf _ En1) as [b1 En2]. specialize (Hd Hp).
    unfold writable, Disk.write. rewrite Hs, En2.
    apply isdir_node_at in Hd. now rewrite Hd.
  - cbn [block_size free_blocks file_table directory_structure read_cache disk set_disk].
    repeat split. intros Hw. now apply Hw1.
Qed.

End Frames.

(** ** C1: writing and reading back *)

(** Text without a carriage return is left as it is by the newline
    translation, and translated text has no carriage return. *)
Lemma universal_newlines_id (c : string) :
  no_carriage_return c = true -> Py.universal_newlines c = c.
Proof.
  unfold no_carriage_return, Py.chars.
  induction c as [|ch c IH]; [reflexivity|].
  cbn [list_ascii_of_string forallb Py.universal_newlines].
  intros Hc. apply andb_prop in Hc. destruct Hc as [Hch Hc].
  apply negb_true_iff in Hch. rewrite Hch. now rewrite (IH Hc).
Qed.

Lemma universal_newlines_no_cr (c : string) :
  no_carriage_return (Py.universal_newlines c) = true.
Proof.
  unfold no_carriage_return, Py.chars.
  assert (Hall : forall n c, (String.length c <= n)%nat ->
            forallb (fun ch => negb (Ascii.eqb ch Py.cr))
                    (list_ascii_of_string (Py.universal_newlines c)) = true).
  { intros n. induction n as [|n IH]; intros [|ch c'] Hlen;
      try reflexivity; cbn [String.length] in Hlen; [lia|].
    cbn [Py.universal_newlines].
    destruct (Ascii.eqb ch Py.cr) eqn:E.
    - cbn [list_ascii_of_string forallb]. change (negb (Ascii.eqb Py.lf Py.cr)) with true.
      cbn [andb]. destruct c' as [|ch' c'']; [reflexivity|].
      cbn [String.length] in Hlen.
      destruct (Ascii.eqb ch' Py.lf); apply IH; cbn [String.length]; lia.
    - cbn [list_ascii_of_string forallb]. rewrite E. cbn [negb andb].
      apply IH. lia. }
  exact (Hall (String.length c) c (le_n _)).
Qed.

(** Whatever the encoding, text that has a carriage return is not what
    reading a file in text mode returns. *)
Lemma text_read_no_cr {H : Host} (bytes c : string) :
  text_read bytes = Some c -> no_carriage_return c = true.
Proof.
  unfold text_read. destruct (text_decode bytes) as [t|]; [|discriminate].
  cbn [option_map]. intros [= <-]. apply universal_newlines_no_cr.
Qed.

(** C1 (counterexample): on a fresh file system, all three paths have the
    parent [/].  A carriage return written to [/notes.txt] is read back as
    a line feed.  What is written to [/fs_metadata.json] is overwritten by
    the save that ends the write, and the read returns the saved
    metadata.  [/docs] is a directory: writing to it returns [False]. *)
Lemma C1_round_trip_fails :
  Dict.mem "/" (directory_structure fresh) = true
  /\ fst (write_file 1 "/notes.txt" ("a" ++ String Py.cr "b") fresh) = true
  /\ fst (read_file 2 "/notes.txt"
            (snd (write_file 1 "/notes.txt" ("a" ++ String Py.cr "b") fresh)))
     = Some ("a" ++ String Py.lf "b")
  /\ fst (write_file 1 "/fs_metadata.json" "x" fresh) = true
  /\ fst (read_file 2 "/fs_metadata.json"
            (snd (write_file 1 "/fs_metadata.json" "x" fresh)))
     = Some "{block_size: 4096, free: 999, files: 1}"
  /\ fst (write_file 2 "/docs" "x" with_docs) = false
  /\ fst (read_file 3 "/docs" (snd (write_file 2 "/docs" "x" with_docs))) = None.
Proof. vm_compute. repeat split; reflexivity. Qed.

Section WriteThenRead.

Context {H : Host}.

(** A read in a state whose cache entry for the path, if any, is [c],
    whose directory and file tables lead to a record with the checksum of
    the bytes of [c], and whose disk holds those bytes. *)
Lemma read_back (now : Z) (p c : string) (s : state) (e : dir_entry)
    (fid : string) (r : file_record) :
  NoDup (Dict.keys (read_cache s)) ->
  (forall v, Dict.get (normalize p) (read_cache s) = Some v -> v = c) ->
  Dict.get (Py.dirname (normalize p)) (directory_structure s) = Some e ->
  Dict.get (Py.basename (normalize p)) (d_contents e) = Some (CFile fid) ->
  Dict.get fid (file_table s) = Some r ->
  f_checksum r = md5 (text_encode c) ->
  Disk.read (physical (normalize p)) (disk s) = Some (text_encode c) ->
  text_read (text_encode c) = Some c ->
  fst (read_file now p s) = Some c.
Proof.
  intros Hnd Hcache He Hname Hr Hsum Hdisk Hcodec.
  destruct (check_cache_expiration_frame now s) as (Fd & Ft & Fk & _ & _).
  cbv zeta in Fd, Ft, Fk.
  pose proof (check_cache_expiration_cache now s Hnd (normalize p)) as Hsub.
  unfold read_file. mred.
  destruct (Dict.get (normalize p) (read_cache (_check_cache_expiration now s)))
    as [v|] eqn:Ec.
  - cbn [fst]. f_equal. apply Hcache. now apply Hsub.
  - rewrite Fd, He, Hname, Ft, Hr. cbv beta iota.
    unfold _calculate_checksum. rewrite Fk, Hdisk, Hsum, String.eqb_refl.
    cbn [negb]. cbv beta iota. rewrite Fk, Hdisk. cbv beta iota.
    rewrite Hcodec. reflexivity.
Qed.

Lemma write_existing (now : Z) (p c : string) (s : state) (e : dir_entry)
    (fid : string) (r : file_record) :
  NoDup (Dict.keys (read_cache s)) ->
  Dict.get (Py.dirname (normalize p)) (directory_structure s) = Some e ->
  Dict.get (Py.basename (normalize p)) (d_contents e) = Some (CFile fid) ->
  Dict.get fid (file_table s) = Some r ->
  block_size s <> 0 ->
  writable (physical (normalize p)) (disk s) = true ->
  reserved (physical (normalize p)) = false ->
  exists s', write_file now p c s = (true, s') /\ ready p c s'.
Proof.
  intros Hnd He Hname Hr Hbs Hw Hres.
  destruct (invalidate_cache_spec p s Hnd) as (Hnd0 & Hc0 & Hb0 & Hf0 & Ht0 & Hd0 & Hk0).
  cbv zeta in Hnd0, Hc0, Hb0, Hf0, Ht0, Hd0, Hk0.
  unfold write_file, write_file_steps. mred.
  set (s0 := _invalidate_cache (normalize p) s) in *.
  set (k := physical (normalize p)) in *.
  unfold Dict.mem. rewrite Hd0, He. cbn [negb]. cbv beta iota.
  rewrite Hd0, He. cbv beta iota. rewrite Hname. cbv beta iota.
  rewrite Ht0, Hr. cbv beta iota.
  destruct (backup_file_frame now k (_free_blocks (f_blocks r) s0))
    as (Bb & Bf & Bt & Bd & Bc & Bw).
  cbv zeta in Bb, Bf, Bt, Bd, Bc, Bw.
  destruct (_backup_file now k (_free_blocks (f_blocks r) s0)) as [bk s2].
  cbn [snd] in Bb, Bf, Bt, Bd, Bc, Bw. cbv beta iota.
  cbn [_free_blocks block_size free_blocks file_table directory_structure
       read_cache disk set_free_blocks] in Bb, Bf, Bt, Bd, Bc, Bw.
  assert (Hw2 : writable k (disk s2) = true) by (apply Bw; now rewrite Hk0).
  destruct (writable_inv _ _ Hw2) as (Hslash & Hnode & _).
  assert (Hk : (k =? "")%string = false).
  { rewrite (node_at_plain k _ Hslash) in Hnode.
    destruct (k =? "")%string; [now elim Hnode | reflexivity]. }
  rewrite (write_writable k (text_encode c) _ Hw2). cbv beta iota.
  unfold blocks_needed. rewrite Hb0.
  destruct (block_size s =? 0) eqn:Ez; [apply Z.eqb_eq in Ez; contradiction|].
  cbv beta iota. unfold _allocate_blocks.
  match goal with |- context [allocate ?n ?f] =>
    destruct (allocate n f) as [allocated free'] end.
  cbv beta iota. cbn [file_table set_free_blocks set_disk disk].
  rewrite Bt, Ht0, Hr. cbv beta iota.
  eexists. split; [reflexivity|].
  match goal with |- ready p c (_save_metadata now (_add_to_cache now _ c ?base)) =>
    set (s5 := base) end.
  destruct (save_metadata_memory now (_add_to_cache now (normalize p) c s5))
    as (_ & _ & St & Sd & Sc & _).
  cbv zeta in St, Sd, Sc.
  destruct (add_to_cache_frame now (normalize p) c s5) as (Ad & At & Ak & _ & _).
  cbv zeta in Ad, At, Ak.
  exists e, fid,
    (mk_file_record (f_path r) (Py.byte_len c) allocated (f_created r) now
       (_calculate_checksum k (Dict.set k (Disk.File (text_encode c)) (disk s2)))).
  repeat split.
  - rewrite Sc. apply add_to_cache_NoDup. cbn [s5 read_cache set_file_table set_free_blocks set_disk].
    rewrite Bc. exact Hnd0.
  - intros v. rewrite Sc, add_to_cache_get. congruence.
  - rewrite Sd, Ad. cbn [s5 directory_structure set_file_table set_free_blocks set_disk].
    now rewrite Bd, Hd0.
  - exact Hname.
  - rewrite St, At. cbn [s5 file_table set_file_table]. apply get_set_eq.
  - cbn [f_checksum]. unfold _calculate_checksum.
    now rewrite (read_set_eq k _ _ Hslash Hk).
  - rewrite (save_metadata_read now k _ Hslash Hres), Ak.
    cbn [s5 disk set_file_table set_free_blocks set_disk].
    exact (read_set_eq k _ _ Hslash Hk).
Qed.

Lemma create_new (now : Z) (p c : string) (s : state) (e : dir_entry) :
  Dict.get (Py.dirname (normalize p)) (directory_structure s) = Some e ->
  Dict.get (Py.basename (normalize p)) (d_contents e) = None ->
  block_size s <> 0 ->
  writable (physical (normalize p)) (disk s) = true ->
  reserved (physical (normalize p)) = false ->
  exists s' e' r',
    create_file now p c s = (true, s')
    /\ read_cache s' = read_cache s
    /\ Dict.get (Py.dirname (normalize p)) (directory_structure s') = Some e'
    /\ Dict.get (Py.basename (normalize p)) (d_contents e')
       = Some (CFile (md5 (normalize p)))
    /\ Dict.get (md5 (normalize p)) (file_table s') = Some r'
    /\ f_checksum r' = md5 (text_encode c)
    /\ Disk.read (physical (normalize p)) (disk s') = Some (text_encode c).
Proof.
  intros He Hname Hbs Hw Hres.
  destruct (writable_inv _ _ Hw) as (Hslash & Hnode & Hparent).
  set (k := physical (normalize p)) in *.
  assert (Hk : (k =? "")%string = false).
  { rewrite (node_at_plain k _ Hslash) in Hnode.
    destruct (k =? "")%string; [now elim Hnode | reflexivity]. }
  unfold create_file, create_file_steps, set_child. mred. fold k.
  rewrite He. cbv beta iota. unfold Dict.mem. rewrite Hname. cbv beta iota.
  rewrite (makedirs_present _ _ Hparent). cbv beta iota. cbn [disk set_disk].
  rewrite (write_writable k (text_encode c) _ Hw). cbv beta iota.
  unfold blocks_needed.
  destruct (block_size s =? 0) eqn:Ez; [apply Z.eqb_eq in Ez; contradiction|].
  cbv beta iota. unfold _allocate_blocks.
  match goal with |- context [allocate ?n ?f] =>
    destruct (allocate n f) as [allocated free'] end.
  cbv beta iota.
  cbn [directory_structure file_table disk set_file_table set_free_blocks set_disk].
  rewrite He. cbv beta iota.
  do 3 eexists. split; [reflexivity|].
  match goal with |- context [_save_metadata now ?base] => set (s5 := base) end.
  destruct (save_metadata_memory now s5) as (_ & _ & St & Sd & Sc & _).
  cbv zeta in St, Sd, Sc.
  rewrite St, Sd, Sc, (save_metadata_read now k _ Hslash Hres).
  cbn [s5 read_cache directory_structure file_table disk set_directory_structure
       set_file_table set_free_blocks set_disk].
  split; [reflexivity|]. split; [apply get_set_eq|].
  cbn [d_contents]. split; [apply get_set_eq|]. split; [apply get_set_eq|].
  cbn [f_checksum]. unfold _calculate_checksum.
  rewrite (read_set_eq k _ _ Hslash Hk). split; reflexivity.
Qed.

Lemma write_new (now : Z) (p c : string) (s : state) (e : dir_entry) :
  NoDup (Dict.keys (read_cache s)) ->
  Dict.get (Py.dirname (normalize p)) (directory_structure s) = Some e ->
  Dict.get (Py.basename (normalize p)) (d_contents e) = None ->
  block_size s <> 0 ->
  writable (physical (normalize p)) (disk s) = true ->
  reserved (physical (normalize p)) = false ->
  exists s', write_file now p c s = (true, s') /\ ready p c s'.
Proof.
  intros Hnd He Hname Hbs Hw Hres.
  destruct (invalidate_cache_spec p s Hnd) as (Hnd0 & Hc0 & Hb0 & Hf0 & Ht0 & Hd0 & Hk0).
  cbv zeta in Hnd0, Hc0, Hb0, Hf0, Ht0, Hd0, Hk0.
  set (s0 := _invalidate_cache (normalize p) s) in *.
  destruct (create_new now (normalize p) c s0 e) as (s' & e' & r' & Hrun & Hc & Hd & Hn & Ht & Hs & Hk);
    rewrite ?normalize_idem, ?Hd0, ?Hb0, ?Hk0; try assumption.
  rewrite normalize_idem in Hd, Hn, Ht, Hk.
  exists s'. split.
  - unfold write_file, write_file_steps. mred. fold s0.
    unfold Dict.mem. rewrite Hd0, He. cbn [negb]. cbv beta iota.
    rewrite Hd0, He. cbv beta iota. rewrite Hname. cbv beta iota.
    now rewrite Hrun.
  - exists e', (md5 (normalize p)), r'. repeat split; try assumption.
    + now rewrite Hc.
    + intros v. rewrite Hc, Hc0. discriminate.
Qed.

(** C1 (amended): let the components of [p] be names, the parent
    directory of [p] exist, the name of [p] under it be free or bound to a
    file that has its record -- not to a directory --, the block size be
    non-zero, the place of [p] on disk be one that can be opened for
    writing and is neither the metadata file nor inside the backup
    directory, and [c] be text that is read back as written: it has no
    carriage return, and what it is encoded to decodes to it.  Then
    [write_file(p, c)] returns [True] and a following [read_file(p)], at
    any later or earlier clock value, returns exactly [c]. *)
Theorem C1_write_then_read (now now' : Z) (p c : string) (s : state) (e : dir_entry) :
  NoDup (Dict.keys (read_cache s)) ->
  plain_path (normalize p) = true ->
  Dict.get (Py.dirname (normalize p)) (directory_structure s) = Some e ->
  match Dict.get (Py.basename (normalize p)) (d_contents e) with
  | None => True
  | Some (CFile file_id) => Dict.mem file_id (file_table s) = true
  | Some (CDir _) => False
  end ->
  block_size s <> 0 ->
  writable (physical (normalize p)) (disk s) = true ->
  reserved (physical (normalize p)) = false ->
  text_decode (text_encode c) = Some c ->
  no_carriage_return c = true ->
  exists s',
    write_file now p c s = (true, s')
    /\ fst (read_file now' p s') = Some c.
Proof.
  intros Hnd _ He Hname Hbs Hw Hres Hdec Hcr.
  assert (Hcodec : text_read (text_encode c) = Some c).
  { unfold text_read. rewrite Hdec. cbn [option_map].
    now rewrite (universal_newlines_id c Hcr). }
  assert (Hready : exists s', write_file now p c s = (true, s') /\ ready p c s').
  { destruct (Dict.get (Py.basename (normalize p)) (d_contents e))
      as [[fid|sub]|] eqn:En.
    - apply mem_get in Hname. destruct Hname as [r Hr].
      now apply (write_existing now p c s e fid r).
    - destruct Hname.
    - now apply (write_new now p c s e). }
  destruct Hready as (s' & Hrun & e' & fid & r' & R1 & R2 & R3 & R4 & R5 & R6 & R7).
  exists s'. split; [exact Hrun|].
  now apply (read_back now' p c s' e' fid r').
Qed.

End WriteThenRead.

(** C1 (amended) at work: overwriting [/docs/readme.txt] and reading it
    back after the cache entry has expired. *)
Lemma C1_write_then_read_witness :
  exists s',
    write_file 6 "/docs/readme.txt" "New" with_readme = (true, s')
    /\ fst (read_file 1000 "/docs/readme.txt" s') = Some "New".
Proof.
  apply (C1_write_then_read 6 1000 "/docs/readme.txt" "New" with_readme
           (mk_dir_entry 1 1 [("readme.txt", CFile (md5 "/docs/readme.txt"))])).
  - vm_compute. repeat constructor. intros [].
  - vm_compute. reflexivity.
  - vm_compute. reflexivity.
  - vm_compute. reflexivity.
  - vm_compute. discriminate.
  - vm_compute. reflexivity.
  - vm_compute. reflexivity.
  - vm_compute. reflexivity.
  - vm_compute. reflexivity.
Defined.

(** ** C2: [delete_file] and the read cache *)

Lemma keeps_ret {A} (a : A) : keeps_cache (ret a).
Proof. intros s. reflexivity. Qed.

Lemma keeps_raise {A} : keeps_cache (@raise A).
Proof. intros s. reflexivity. Qed.

Lemma keeps_get_state : keeps_cache get_state.
Proof. intros s. reflexivity. Qed.

Lemma keeps_must {A} (o : option A) : keeps_cache (must o).
Proof. intros s. now destruct o. Qed.

Lemma keeps_on_disk (f : Disk.t -> option Disk.t) : keeps_cache (on_disk f).
Proof. intros s. unfold on_disk. now destruct (f (disk s)). Qed.

Lemma keeps_update (f : state -> state) :
  (forall s, read_cache (f s) = read_cache s) -> keeps_cache (update f).
Proof. intros Hf s. apply Hf. Qed.

Lemma keeps_call_unit (f : state -> state) :
  (forall s, read_cache (f s) = read_cache s) -> keeps_cache (call_unit f).
Proof. intros Hf s. apply Hf. Qed.

Lemma keeps_call {A} (f : state -> A * state) :
  (forall s, read_cache (snd (f s)) = read_cache s) -> keeps_cache (call f).
Proof. intros Hf s. unfold call. specialize (Hf s). now destruct (f s). Qed.

Lemma keeps_bind {A B} (m : M A) (k : A -> M B) :
  keeps_cache m -> (forall a, keeps_cache (k a)) -> keeps_cache (bind m k).
Proof.
  intros Hm Hk s. unfold bind. specialize (Hm s).
  destruct (m s) as [[a|] s1]; cbn [snd] in Hm |- *; [|exact Hm].
  now rewrite Hk.
Qed.

Create HintDb cache.
#[local] Hint Resolve keeps_ret keeps_raise keeps_get_state keeps_must
  keeps_on_disk : cache.
#[local] Hint Extern 1 (keeps_cache (update _)) =>
  apply keeps_update; intros; reflexivity : cache.

(** Walks through a method body, statement by statement. *)
Ltac keeps :=
  repeat match goal with
         | |- keeps_cache (bind _ _) => apply keeps_bind; [|intros ?]
         | |- keeps_cache (match ?x with _ => _ end) => destruct x
         | |- keeps_cache _ => solve [auto with cache]
         end.

Section CacheAfterDelete.

Context {H : Host}.

Lemma keeps_free_blocks (blocks : list Z) :
  keeps_cache (call_unit (_free_blocks blocks)).
Proof. apply keeps_call_unit. reflexivity. Qed.

Lemma keeps_backup_file (now : Z) (k : string) :
  keeps_cache (call (_backup_file now k)).
Proof. apply keeps_call. intros s. apply backup_file_memory. Qed.

Lemma keeps_save_metadata (now : Z) :
  keeps_cache (call_unit (_save_metadata now)).
Proof. apply keeps_call_unit. intros s. apply save_metadata_memory. Qed.

#[local] Hint Resolve keeps_free_blocks keeps_backup_file keeps_save_metadata : cache.

(** No statement of [delete_file] touches the read cache, whatever the
    path and the outcome. *)
Lemma delete_file_keeps_cache (now : Z) (p : string) (s : state) :
  read_cache (snd (delete_file now p s)) = read_cache s.
Proof.
  assert (Hbody : keeps_cache (f <- delete_file_steps now p ;; finish now f)).
  { unfold delete_file_steps, del_child, finish. cbv zeta. keeps. }
  unfold delete_file, try_bool. specialize (Hbody s).
  now destruct ((f <- delete_file_steps now p ;; finish now f) s) as [[b|] s'].
Qed.

End CacheAfterDelete.

(** C2 (the code at the failing input): on a fresh file system holding
    [/docs/readme.txt] with its content in the read cache, [delete_file]
    succeeds and takes the file out of the directory and the file table,
    yet the cache entry stays and the following [read_file] returns the
    deleted content instead of failing. *)
Theorem C2_delete_keeps_cache_entry :
  let r := delete_file 4 "/docs/readme.txt" with_readme in
  Dict.get "/docs/readme.txt" (read_cache with_readme) = Some "Welcome"
  /\ fst r = true
  /\ file_table (snd r) = []
  /\ Dict.get "/docs/readme.txt" (read_cache (snd r)) = Some "Welcome"
  /\ fst (read_file 5 "/docs/readme.txt" (snd r)) = Some "Welcome".
Proof. vm_compute. repeat split; reflexivity. Qed.

(** ** C3 and C4: the allocator *)

(** The allocator always hands out as many blocks as it is asked for. *)
Lemma allocate_length (n : Z) (free : list Z) :
  0 <= n -> Py.len (fst (allocate n free)) = n.
Proof.
  intros Hn. unfold allocate. cbn [fst]. unfold Py.take, Py.bound, Py.len.
  destruct (n <? 0) eqn:E; [lia|].
  rewrite length_firstn.
  destruct (Z.of_nat (length free) <? n) eqn:E'.
  - rewrite length_app. unfold Py.range. rewrite range_from_length. lia.
  - apply Z.ltb_ge in E'. lia.
Qed.

(** The identifiers it mints lie above every identifier of the free
    list, and only of the free list. *)
Lemma allocate_minted_above_free (n : Z) (free : list Z) (x : Z) :
  In x (Py.range (match free with [] => 0 | _ => Py.max_list free end + 1)
                 (match free with [] => 0 | _ => Py.max_list free end + 1 + n)) ->
  forall y, In y free -> y < x.
Proof.
  unfold Py.range. rewrite range_from_In. intros [Hx _] y Hy.
  destruct free as [|z free]; [destruct Hy|].
  pose proof (max_list_ge _ _ Hy). lia.
Qed.

(** C4 (the code at the failing input): after a thousand one-block files
    on a fresh file system the free list is empty while the files hold the
    blocks 1 to 1000; [_allocate_blocks(1)] then returns block 1, which
    the file [/f1] holds, instead of an identifier above 1000. *)
Theorem C4_allocate_reissues_live_block :
  free_blocks full = []
  /\ option_map f_blocks (Dict.get (md5 "/f1") (file_table full)) = Some [1]
  /\ option_map f_blocks (Dict.get (md5 "/f1000") (file_table full)) = Some [1000]
  /\ fst (_allocate_blocks 1 full) = Val [1].
Proof. vm_compute. repeat split; reflexivity. Qed.

(** C3 (the code at the failing input): creating one more file after
    those thousand gives it block 1 as well, so two live files hold the
    same block. *)
Theorem C3_block_shared_by_two_files :
  let r := create_file 2 "/g" "x" full in
  fst r = true
  /\ option_map f_blocks (Dict.get (md5 "/f1") (file_table (snd r))) = Some [1]
  /\ option_map f_blocks (Dict.get (md5 "/g") (file_table (snd r))) = Some [1].
Proof. vm_compute. repeat split; reflexivity. Qed.

(** ** C5: per-file recovery on read *)

(** C5 (counterexample): [/docs/readme.txt] has no backup, and its bytes
    on disk have been replaced by a byte that is not text.  The read finds
    the checksum changed and nothing to restore, leaves the file as it is,
    and returns nothing, not the content of the file; nothing is cached. *)
Lemma C5_undecodable_content_not_returned :
  first_valid_backup "docs/readme.txt" (md5 "Welcome") (disk garbled) = None
  /\ Disk.read "docs/readme.txt" (disk garbled) = Some (String "255" "")
  /\ fst (read_file 3 "/docs/readme.txt" garbled) = None
  /\ disk (snd (read_file 3 "/docs/readme.txt" garbled)) = disk garbled
  /\ read_cache (snd (read_file 3 "/docs/readme.txt" garbled)) = [].
Proof. vm_compute. repeat split; reflexivity. Qed.

Section Recovery.

Context {H : Host}.

(** The loop over the backups stops at the first whose checksum is the
    stored one and copies it over the file. *)
Lemma restore_first_spec (fid k : string) (r : file_record) (l : list string) (s : state) :
  Dict.get fid (file_table s) = Some r ->
  restore_first fid k l s
  = match find (fun b => (_calculate_checksum (Py.join backup_dir b) (disk s)
                          =? f_checksum r)%string) l with
    | Some b =>
        match Disk.copy2 (Py.join backup_dir b) k (disk s) with
        | Some d' => (Val true, set_disk d' s)
        | None => (Exc, s)
        end
    | None => (Val false, s)
    end.
Proof.
  intros Hr. induction l as [|b l IH]; [reflexivity|].
  cbn [restore_first find]. mred. rewrite Hr. cbv beta iota.
  destruct (_calculate_checksum (Py.join backup_dir b) (disk s) =? f_checksum r)%string.
  - mred. now destruct (Disk.copy2 _ k (disk s)).
  - exact IH.
Qed.

Lemma recover_file_spec (fid k : string) (r : file_record) (s : state) :
  Dict.get fid (file_table s) = Some r ->
  _recover_file fid k s
  = match first_valid_backup k (f_checksum r) (disk s) with
    | Some b =>
        match Disk.copy2 (Py.join backup_dir b) k (disk s) with
        | Some d' => (true, set_disk d' s)
        | None => (false, s)
        end
    | None => (false, s)
    end.
Proof.
  intros Hr. unfold _recover_file, first_valid_backup, backup_names.
  cbv beta iota delta [try_bool bind get_state must ret raise].
  unfold Dict.mem. rewrite Hr. cbn [negb].
  destruct (Disk.listdir backup_dir (disk s)) as [names|]; [|reflexivity].
  unfold candidate_backups.
  destruct (filter _ names) as [|b0 l0] eqn:Ef; [reflexivity|].
  rewrite (restore_first_spec fid k r _ s Hr).
  destruct (find _ _) as [b|]; [|reflexivity].
  now destruct (Disk.copy2 _ k (disk s)).
Qed.

Lemma candidate_backups_spec (k : string) (names : list string) :
  (forall b, In b (candidate_backups k names)
             <-> In b names /\ Py.startswith b (backup_prefix k) = true)
  /\ StronglySorted (fun a b => (b <=? a)%string = true) (candidate_backups k names).
Proof.
  unfold candidate_backups, Py.sorted_desc.
  destruct (sorted_desc_acc
              (filter (fun f => Py.startswith f (backup_prefix k)) names) [])
    as [Hs Hin]; [constructor|].
  split; [|exact Hs].
  intros b. rewrite Hin, filter_In. cbn [In]. intuition.
Qed.

(** C5 (amended): a [read_file] that misses the cache, resolves the path
    to a file and finds the checksum of the bytes on disk different from
    the stored one looks at the backups whose names start with the file's
    backup prefix, from the greatest name (the newest timestamp) down, and
    takes the first whose checksum is the stored one.  When there is one
    and the copy goes through, the file holds that backup's bytes
    afterwards and their checksum is the stored one; when there is none,
    the disk is left as it was.  In both cases the read returns what
    reading the file in text mode gives for the bytes it then holds: their
    text, or nothing when they do not decode.  When nothing was restored
    and the bytes do not decode, nothing is put in the cache either. *)
Theorem C5_read_recovers_from_backup
    (now : Z) (p : string) (s : state) (e : dir_entry) (fid : string)
    (r : file_record) (old : string) :
  let path := normalize p in
  let k := physical path in
  let names := backup_names (disk s) in
  Dict.get path (read_cache (_check_cache_expiration now s)) = None ->
  Dict.get (Py.dirname path) (directory_structure s) = Some e ->
  Dict.get (Py.basename path) (d_contents e) = Some (CFile fid) ->
  Dict.get fid (file_table s) = Some r ->
  Disk.read k (disk s) = Some old ->
  md5 old <> f_checksum r ->
  (forall b, In b (candidate_backups k names)
             <-> In b names /\ Py.startswith b (backup_prefix k) = true)
  /\ StronglySorted (fun a b => (b <=? a)%string = true) (candidate_backups k names)
  /\ match first_valid_backup k (f_checksum r) (disk s) with
     | Some b =>
         forall d', Disk.copy2 (Py.join backup_dir b) k (disk s) = Some d' ->
         exists bytes,
           Disk.read (Py.join backup_dir b) (disk s) = Some bytes
           /\ md5 bytes = f_checksum r
           /\ fst (read_file now p s) = text_read bytes
           /\ Disk.read k (disk (snd (read_file now p s))) = Some bytes
     | None =>
         fst (read_file now p s) = text_read old
         /\ disk (snd (read_file now p s)) = disk s
         /\ (text_read old = None ->
             read_cache (snd (read_file now p s))
             = read_cache (_check_cache_expiration now s))
     end.
Proof.
  intros path k names Hmiss He Hname Hr Hold Hsum.
  destruct (candidate_backups_spec k names) as [Hin Hsorted].
  split; [exact Hin|]. split; [exact Hsorted|].
  destruct (check_cache_expiration_frame now s) as (Fd & Ft & Fk & _ & _).
  cbv zeta in Fd, Ft, Fk.
  set (s0 := _check_cache_expiration now s) in *.
  assert (Hread : read_file now p s
          = match _recover_file fid k s0 with
            | (_, s1) =>
                match Disk.read k (disk s1) with
                | Some bytes =>
                    match text_read bytes with
                    | Some content =>
                        (Some content, _add_to_cache now path content s1)
                    | None => (None, s1)
                    end
                | None => (None, s1)
                end
            end).
  { unfold read_file. mred. fold path. fold s0. rewrite Hmiss, Fd, He, Hname, Ft, Hr.
    fold k. unfold _calculate_checksum at 1. rewrite Fk, Hold.
    destruct (md5 old =? f_checksum r)%string eqn:E;
      [apply String.eqb_eq in E; contradiction|].
    cbn [negb].
    destruct (_recover_file fid k s0) as [b1 s1].
    destruct (Disk.read k (disk s1)) as [bytes|]; [|reflexivity].
    now destruct (text_read bytes). }
  assert (Hr0 : Dict.get fid (file_table s0) = Some r) by now rewrite Ft.
  rewrite (recover_file_spec fid k r s0 Hr0), Fk in Hread.
  destruct (first_valid_backup k (f_checksum r) (disk s)) as [b|] eqn:Ev.
  - intros d' Hcopy. rewrite Hcopy in Hread.
    destruct (copy2_onto_file _ _ _ _ _ Hold Hcopy) as (bytes & Hsrc & Hdst).
    exists bytes. split; [exact Hsrc|].
    unfold first_valid_backup in Ev. apply find_some in Ev. destruct Ev as [_ Ev].
    unfold _calculate_checksum in Ev. rewrite Hsrc in Ev. apply String.eqb_eq in Ev.
    split; [exact Ev|].
    cbn [disk set_disk] in Hread. rewrite Hdst in Hread. rewrite Hread.
    destruct (text_read bytes) as [content|]; cbn [fst snd];
      (split; [reflexivity|]); [|exact Hdst].
    destruct (add_to_cache_frame now path content (set_disk d' s0))
      as (_ & _ & Gk & _ & _). cbv zeta in Gk. rewrite Gk. exact Hdst.
  - rewrite Fk, Hold in Hread. rewrite Hread.
    destruct (text_read old) as [content|]; cbn [fst snd];
      (split; [reflexivity|]); [|split; [exact Fk | reflexivity]].
    destruct (add_to_cache_frame now path content s0)
      as (_ & _ & Gk & _ & _). cbv zeta in Gk. rewrite Gk.
    split; [exact Fk | discriminate].
Qed.

End Recovery.

(** C5 at work: [/docs/readme.txt] has a backup with the stored checksum
    and has been overwritten on disk with a corruption marker; a read
    after the cache entry has expired returns the original content. *)
Lemma C5_read_recovers_from_backup_witness :
  fst (read_file 1000 "/docs/readme.txt" damaged) = Some "Welcome".
Proof.
  pose proof (C5_read_recovers_from_backup 1000 "/docs/readme.txt" damaged
                (mk_dir_entry 1 1 [("readme.txt", CFile (md5 "/docs/readme.txt"))])
                (md5 "/docs/readme.txt")
                (mk_file_record "/docs/readme.txt" 7 [2] 2 6 (md5 "Welcome"))
                "CORRUPTED DATA!!!") as Hc.
  cbv zeta in Hc.
  specialize (Hc ltac:(vm_compute; reflexivity) ltac:(vm_compute; reflexivity)
                 ltac:(vm_compute; reflexivity) ltac:(vm_compute; reflexivity)
                 ltac:(vm_compute; reflexivity) ltac:(vm_compute; discriminate)).
  destruct Hc as (_ & _ & Hc).
  match type of Hc with
  | match ?x with _ => _ end =>
      assert (Ev : x = Some "docs_readme.txt_6") by (vm_compute; reflexivity);
      rewrite Ev in Hc
  end.
  match type of Hc with
  | forall d', ?c = Some d' -> _ =>
      assert (Ec : exists d', c = Some d') by (vm_compute; eexists; reflexivity)
  end.
  destruct Ec as [d' Ec].
  destruct (Hc d' Ec) as (bytes & Hsrc & _ & Hres & _).
  vm_compute in Hsrc. injection Hsrc as <-. rewrite Hres.
  vm_compute. reflexivity.
Defined.

(** ** C6: metadata recovery *)

(** C6 (counterexample): the metadata file is unreadable, the backup of
    2025-01-01 parses and the newer one of 2025-01-02 does not.  Loading
    falls through to the rescan (the root directory and the full pool of a
    fresh file system) instead of adopting the older backup, whose state
    has an empty directory structure and an empty pool. *)
Lemma C6_older_backup_not_tried :
  load_backup ".backups/metadata_backup_20250101_000000.json" two_backups
    = Some (mk_json_data None None None None)
  /\ fst (init 5 two_backups) = Val tt
  /\ directory_structure (snd (init 5 two_backups))
     = [("/", mk_dir_entry 5 5 Dict.empty)]
  /\ free_blocks (snd (init 5 two_backups)) = Py.range 1 1001
  /\ directory_structure
       (adopt (mk_json_data None None None None) (snd (init 5 two_backups))) = [].
Proof. vm_compute. repeat split; reflexivity. Qed.

Section MetadataRecovery.

Context {H : Host}.

(** The name [_recover_metadata] picks is the greatest of the metadata
    backups. *)
Lemma latest_backup_greatest (names : list string) (f : string) :
  In f (metadata_backups names) -> (f <=? latest_backup names)%string = true.
Proof.
  intros Hf. unfold latest_backup, Py.sorted.
  apply (sorted_last_greatest (fun s : string => s)).
  - apply sorted_by_sorted.
  - eapply Permutation_in; [apply sorted_by_perm | exact Hf].
Qed.

(** C6 (amended): recovery tries one backup only, the metadata backup
    whose name is the greatest, that is the most recently dated one.  When
    that backup deserializes, its state is adopted; when there is no
    metadata backup or that one fails to deserialize, the file system is
    rebuilt by the rescan, whatever the older backups hold. *)
Theorem C6_recover_metadata_latest_only (now : Z) (s : state) (names : list string) :
  Disk.listdir backup_dir (disk s) = Some names ->
  (forall f, In f (metadata_backups names) ->
             (f <=? latest_backup names)%string = true)
  /\ _recover_metadata now s
     = (Val tt,
        match metadata_backups names with
        | [] => rescan now s
        | _ :: _ =>
            match load_backup (Py.join backup_dir (latest_backup names)) (disk s) with
            | Some data => adopt data s
            | None => rescan now s
            end
        end).
Proof.
  intros Hls. split; [apply latest_backup_greatest|].
  unfold _recover_metadata, load_from. mred.
  rewrite Hls. cbv beta iota.
  unfold latest_backup, load_backup.
  destruct (metadata_backups names) as [|f fs]; [reflexivity|].
  destruct (Disk.read _ (disk s)) as [b|]; [|reflexivity].
  now destruct (json_load b).
Qed.

End MetadataRecovery.

(** The amended statement on the counterexample's tree: the backup of
    2025-01-02 is the one tried, and as it does not parse the state is
    that of the rescan. *)
Lemma C6_recover_metadata_latest_only_witness :
  latest_backup
    ["metadata_backup_20250101_000000.json"; "metadata_backup_20250102_000000.json"]
  = "metadata_backup_20250102_000000.json"
  /\ snd (_recover_metadata 5 (set_disk two_backups fresh))
     = rescan 5 (set_disk two_backups fresh).
Proof.
  split; [reflexivity|].
  destruct (C6_recover_metadata_latest_only 5 (set_disk two_backups fresh)
              ["metadata_backup_20250101_000000.json";
               "metadata_backup_20250102_000000.json"] eq_refl) as [_ Heq].
  rewrite Heq. reflexivity.
Defined.

(** ** C7: defragmentation *)

Lemma allocate_from_range (a b n : Z) :
  0 <= n -> a + n <= b ->
  allocate n (Py.range a b) = (Py.range a (a + n), Py.range (a + n) b).
Proof.
  intros Hn Hb. unfold allocate.
  assert (Hlen : (Py.len (Py.range a b) <? n) = false).
  { apply Z.ltb_ge. rewrite range_length by lia. lia. }
  rewrite Hlen. destruct (take_drop_range a b n Hn Hb) as [-> ->]. reflexivity.
Qed.

Section Layout.

Variable bs : Z.

(** What the layout binds a key to: the record of the first file with
    that key, with a run that lies inside the blocks the layout uses. *)
Lemma layout_inv (files : list (string * file_record)) :
  (forall id r, In (id, r) files -> 0 <= block_count bs r) ->
  forall (start : Z) (id : string) (r' : file_record),
    Dict.get id (layout bs start files) = Some r' ->
    exists r st,
      In (id, r) files
      /\ start <= st
      /\ st + block_count bs r
         <= start + Py.sum (map (block_count bs) (map snd files))
      /\ r' = with_blocks r (Py.range st (st + block_count bs r)).
Proof.
  induction files as [|[id0 r0] files IH]; intros Hn start id r'; [discriminate|].
  cbn [layout Dict.get map snd]. rewrite sum_cons.
  assert (Hrest : 0 <= Py.sum (map (block_count bs) (map snd files))).
  { apply sum_nonneg. intros x Hx. apply in_map_iff in Hx.
    destruct Hx as (r & <- & Hr). apply in_map_iff in Hr.
    destruct Hr as ([id1 r1] & <- & Hin). apply (Hn id1 r1). now right. }
  pose proof (Hn id0 r0 (or_introl eq_refl)) as Hn0.
  destruct (String.eqb_spec id0 id) as [->|Hne].
  - intros [= <-]. exists r0, start. repeat split; [now left | lia | lia].
  - intros Hg. destruct (IH (fun i r Hi => Hn i r (or_intror Hi)) _ _ _ Hg)
      as (r & st & Hin & Hst & Hend & ->).
    exists r, st. repeat split; [now right | lia | lia].
Qed.

Lemma layout_get (files : list (string * file_record)) :
  NoDup (Dict.keys files) ->
  (forall id r, In (id, r) files -> 0 <= block_count bs r) ->
  forall (start : Z) (id : string) (r : file_record),
    In (id, r) files ->
    exists st,
      start <= st
      /\ Dict.get id (layout bs start files)
         = Some (with_blocks r (Py.range st (st + block_count bs r))).
Proof.
  induction files as [|[id0 r0] files IH]; intros Hnd Hn start id r; [intros []|].
  cbn [Dict.keys map fst] in Hnd. apply NoDup_cons_iff in Hnd.
  destruct Hnd as [Hid0 Hnd]. cbn [layout Dict.get].
  pose proof (Hn id0 r0 (or_introl eq_refl)) as Hn0.
  intros [[= -> ->]|Hin].
  - rewrite String.eqb_refl. exists start. split; [lia | reflexivity].
  - destruct (String.eqb_spec id0 id) as [->|Hne].
    + exfalso. apply Hid0. change id with (fst (id, r)). now apply in_map.
    + destruct (IH Hnd (fun i r1 Hi => Hn i r1 (or_intror Hi))
                   (start + block_count bs r0) id r Hin) as (st & Hst & Hg).
      exists st. split; [lia | exact Hg].
Qed.

(** In the layout of files sorted by path, a file with a smaller path
    has smaller blocks. *)
Lemma layout_order (files : list (string * file_record)) :
  StronglySorted (key_le (fun e : string * file_record => f_path (snd e))) files ->
  (forall id r, In (id, r) files -> 0 <= block_count bs r) ->
  forall (start : Z) (id1 id2 : string) (r1 r2 : file_record) (b1 b2 : Z),
    Dict.get id1 (layout bs start files) = Some r1 ->
    Dict.get id2 (layout bs start files) = Some r2 ->
    (f_path r1 <? f_path r2)%string = true ->
    In b1 (f_blocks r1) -> In b2 (f_blocks r2) -> b1 < b2.
Proof.
  induction 1 as [|[id0 r0] files Hs IH Hall]; intros Hn start id1 id2 r1 r2 b1 b2;
    [discriminate|].
  cbn [layout Dict.get].
  pose proof (Hn id0 r0 (or_introl eq_refl)) as Hn0.
  assert (Hn' : forall id r, In (id, r) files -> 0 <= block_count bs r)
    by (intros i r Hi; apply (Hn i r); now right).
  destruct (String.eqb_spec id0 id1) as [->|Hne1];
    destruct (String.eqb_spec id1 id2) as [E2|Hne2]; try subst id2.
  - intros [= <-] [= <-] Hlt. now rewrite ltb_irrefl in Hlt.
  - intros [= <-]. destruct (String.eqb_spec id1 id2) as [->|_]; [contradiction|].
    intros Hg2 _ Hb1 Hb2.
    destruct (layout_inv files Hn' _ _ _ Hg2) as (r & st & _ & Hst & _ & ->).
    cbn [with_blocks f_blocks] in Hb1, Hb2.
    apply range_In in Hb1, Hb2. lia.
  - destruct (String.eqb_spec id0 id1) as [->|_]; [contradiction|].
    now apply IH.
  - destruct (String.eqb_spec id0 id2) as [->|Hne0].
    + intros Hg1 [= <-] Hlt. exfalso.
      destruct (layout_inv files Hn' _ _ _ Hg1) as (r & st & Hin & _ & _ & ->).
      cbn [with_blocks f_path] in Hlt.
      rewrite Forall_forall in Hall. specialize (Hall _ Hin).
      unfold key_le in Hall. cbn [snd] in Hall.
      exact (ltb_not_leb _ _ Hlt Hall).
    + now apply IH.
Qed.

End Layout.

Section Defragment.

Context {H : Host}.

(** The layout binds the keys of the files, each to its record with new
    blocks. *)
Lemma layout_keys (bs start : Z) (files : list (string * file_record)) :
  Dict.keys (layout bs start files) = Dict.keys files.
Proof.
  revert start. induction files as [|[id r] files IH]; intros start; [reflexivity|].
  cbn [layout Dict.keys map fst]. f_equal. apply IH.
Qed.

(** The loop of [defragment]: on a free list that is one run with room
    for every file, the files receive the runs of the layout. *)
Lemma defragment_loop (bs : Z) (files : list (string * file_record)) :
  0 < bs ->
  NoDup (Dict.keys files) ->
  forall (start free_end : Z) (s : state),
    block_size s = bs ->
    free_blocks s = Py.range start free_end ->
    (forall id r, In (id, r) files ->
                  Dict.get id (file_table s) = Some r /\ 0 <= block_count bs r) ->
    start + Py.sum (map (block_count bs) (Dict.values files)) <= free_end ->
    exists s',
      for_each files defragment_file s = (Val tt, s')
      /\ block_size s' = bs
      /\ directory_structure s' = directory_structure s
      /\ read_cache s' = read_cache s
      /\ cache_timestamps s' = cache_timestamps s
      /\ disk s' = disk s
      /\ Dict.keys (file_table s') = Dict.keys (file_table s)
      /\ forall id,
           Dict.get id (file_table s')
           = match Dict.get id (layout bs start files) with
             | Some r' => Some r'
             | None => Dict.get id (file_table s)
             end.
Proof.
  intros Hbs. induction files as [|[id info] files IH];
    intros Hnd start free_end s Hb Hfree Hfiles Hroom.
  - exists s. cbn [for_each layout Dict.get]. unfold ret. repeat split; auto.
  - cbn [Dict.keys map fst] in Hnd. apply NoDup_cons_iff in Hnd.
    destruct Hnd as [Hid Hnd].
    destruct (Hfiles id info (or_introl eq_refl)) as [Hget Hn].
    cbn [Dict.values map snd] in Hroom. rewrite sum_cons in Hroom.
    assert (Hrest : 0 <= Py.sum (map (block_count bs) (Dict.values files))).
    { apply sum_nonneg. intros x Hx. apply in_map_iff in Hx.
      destruct Hx as (r & <- & Hr). unfold Dict.values in Hr.
      apply in_map_iff in Hr. destruct Hr as ([id' r'] & <- & Hin).
      apply (Hfiles id' r'). now right. }
    unfold Dict.values in Hrest.
    set (n := block_count bs info) in *.
    set (s1 := set_file_table
                 (Dict.set id (with_blocks info (Py.range start (start + n)))
                           (file_table s))
                 (set_free_blocks (Py.range (start + n) free_end) s)).
    assert (Hstep : defragment_file (id, info) s = (Val tt, s1)).
    { unfold defragment_file, _allocate_blocks, blocks_needed. mred. cbn [fst snd].
      rewrite Hb. destruct (bs =? 0) eqn:E; [lia|]. cbv beta iota.
      fold (block_count bs info). fold n.
      rewrite Hfree, (allocate_from_range start free_end n) by lia.
      cbv beta iota. cbn [file_table set_free_blocks]. rewrite Hget. reflexivity. }
    destruct (IH Hnd (start + n) free_end s1) as (s' & Hrun & Hb' & Hd & Hc & Ht & Hk & Hkeys & Hgets).
    + exact Hb.
    + reflexivity.
    + intros id' r' Hin. split; [|apply (Hfiles id' r'); now right].
      cbn [s1 file_table set_file_table]. rewrite get_set_neq.
      * apply (Hfiles id' r'). now right.
      * intros ->. apply Hid. change id' with (fst (id', r')). now apply in_map.
    + unfold Dict.values. lia.
    + exists s'. cbn [for_each]. unfold bind at 1. rewrite Hstep, Hrun.
      repeat split; auto.
      * rewrite Hkeys. cbn [s1 file_table set_file_table].
        now apply keys_set_present with (v' := info).
      * intros id0. rewrite Hgets. cbn [layout Dict.get]. fold n.
        destruct (String.eqb_spec id id0) as [<-|Hne].
        -- rewrite (get_None_notin (layout bs (start + n) files) id)
             by (rewrite layout_keys; exact Hid).
           cbn [s1 file_table set_file_table]. apply get_set_eq.
        -- destruct (Dict.get id0 (layout bs (start + n) files)); [reflexivity|].
           cbn [s1 file_table set_file_table]. now apply get_set_neq.
Qed.

(** C7: on a state whose block size is positive and whose records hold
    as many blocks as their size calls for, a [defragment()] that returns
    [True] leaves every record as it was except for its blocks; taking
    the files in ascending order of their paths, each receives the run of
    consecutive identifiers that starts at 1 for the first file and, for
    the others, where the run of the file before ends, of length
    [ceil(size / block_size)]; a file with a smaller path has smaller
    blocks throughout. *)
Theorem C7_defragment_contiguous_runs (now : Z) (s s' : state) :
  0 < block_size s ->
  NoDup (Dict.keys (file_table s)) ->
  (forall id r, Dict.get id (file_table s) = Some r ->
                Py.len (f_blocks r) = block_count (block_size s) r) ->
  defragment now s = (true, s') ->
  let files := Py.sorted_by (fun e => f_path (snd e)) (file_table s) in
  StronglySorted (key_le (fun e => f_path (snd e))) files
  /\ Permutation (file_table s) files
  /\ (forall id, Dict.get id (file_table s')
                 = Dict.get id (layout (block_size s) 1 files))
  /\ (forall id r,
        Dict.get id (file_table s) = Some r ->
        exists start,
          1 <= start
          /\ Dict.get id (file_table s')
             = Some (with_blocks r
                       (Py.range start (start + block_count (block_size s) r)))
          /\ Py.len (Py.range start (start + block_count (block_size s) r))
             = block_count (block_size s) r)
  /\ (forall id1 id2 r1 r2 b1 b2,
        Dict.get id1 (file_table s') = Some r1 ->
        Dict.get id2 (file_table s') = Some r2 ->
        (f_path r1 <? f_path r2)%string = true ->
        In b1 (f_blocks r1) -> In b2 (f_blocks r2) -> b1 < b2).
Proof.
  intros Hbs Hnd Hinv Hrun files.
  set (bs := block_size s) in *.
  pose proof (sorted_by_sorted (fun e : string * file_record => f_path (snd e))
                               (file_table s)) as Hsorted.
  pose proof (sorted_by_perm (fun e : string * file_record => f_path (snd e))
                             (file_table s)) as Hperm.
  fold files in Hsorted, Hperm.
  assert (Hcount : forall id r, In (id, r) files ->
                     Dict.get id (file_table s) = Some r /\ 0 <= block_count bs r).
  { intros id r Hin. apply (Permutation_in _ (Permutation_sym Hperm)) in Hin.
    pose proof (get_In _ _ _ Hnd Hin) as Hg. split; [exact Hg|].
    rewrite <- (Hinv id r Hg). unfold Py.len. lia. }
  assert (Hnd' : NoDup (Dict.keys files)).
  { unfold Dict.keys. eapply Permutation_NoDup; [|exact Hnd].
    apply Permutation_map. exact Hperm. }
  set (total := Py.sum (map (fun info => Py.len (f_blocks info))
                            (Dict.values (file_table s)))
                + Py.len (Py.sort_Z (free_blocks s))).
  set (s2 := set_free_blocks (Py.range 1 (total + 1))
               (set_free_blocks (Py.sort_Z (free_blocks s)) s)).
  destruct (defragment_loop bs files Hbs Hnd' 1 (total + 1) s2)
    as (s3 & Hloop & Hb3 & _ & _ & _ & _ & _ & Hgets).
  - reflexivity.
  - reflexivity.
  - exact Hcount.
  - assert (Hsum : Py.sum (map (block_count bs) (Dict.values files))
                   = Py.sum (map (fun info => Py.len (f_blocks info))
                                 (Dict.values (file_table s)))).
    { rewrite (sum_perm _ (map (block_count bs) (Dict.values (file_table s)))).
      - f_equal. apply map_ext_in. intros r Hr. unfold Dict.values in Hr.
        apply in_map_iff in Hr. destruct Hr as ([id r0] & <- & Hin).
        symmetry. apply (Hinv id r0). now apply get_In.
      - apply Permutation_map. unfold Dict.values. apply Permutation_map.
        now apply Permutation_sym. }
    rewrite Hsum. unfold total. rewrite sort_Z_length. unfold Py.len. lia.
  - assert (Hs' : file_table s' = file_table s3).
    { unfold defragment, defragment_try in Hrun. revert Hrun. mred.
      change (file_table (set_free_blocks (Py.sort_Z (free_blocks s)) s))
        with (file_table s).
      change (free_blocks (set_free_blocks (Py.sort_Z (free_blocks s)) s))
        with (Py.sort_Z (free_blocks s)).
      fold total. fold s2. fold files. rewrite Hloop. cbv beta iota.
      intros [= <-]. apply save_metadata_memory. }
    assert (Hlayout : forall id, Dict.get id (file_table s')
                                 = Dict.get id (layout bs 1 files)).
    { intros id. rewrite Hs', Hgets.
      destruct (Dict.get id (layout bs 1 files)) as [r'|] eqn:E; [reflexivity|].
      cbn [s2 file_table set_free_blocks].
      apply get_None_notin. intros Hin.
      assert (Hin' : In id (Dict.keys (layout bs 1 files))).
      { rewrite layout_keys. unfold Dict.keys.
        eapply Permutation_in; [apply Permutation_map; exact Hperm | exact Hin]. }
      unfold Dict.keys in Hin'. apply in_map_iff in Hin'.
      destruct Hin' as ([id' r'] & Hid & Hin'). cbn [fst] in Hid. subst id'.
      assert (Hnd'' : NoDup (Dict.keys (layout bs 1 files)))
        by (rewrite layout_keys; exact Hnd').
      rewrite (get_In _ _ _ Hnd'' Hin') in E. discriminate. }
    split; [exact Hsorted|]. split; [exact Hperm|]. split; [exact Hlayout|]. split.
    + intros id r Hg.
      assert (Hin : In (id, r) files).
      { eapply Permutation_in; [exact Hperm | now apply get_Some_In]. }
      destruct (layout_get bs files Hnd' (fun i r0 Hi => proj2 (Hcount i r0 Hi))
                           1 id r Hin) as (st & Hst & Hg').
      exists st. split; [exact Hst|]. split; [now rewrite Hlayout|].
      pose proof (proj2 (Hcount id r Hin)). rewrite range_length by lia. lia.
    + intros id1 id2 r1 r2 b1 b2 Hg1 Hg2. rewrite Hlayout in Hg1, Hg2.
      exact (layout_order bs files Hsorted (fun i r0 Hi => proj2 (Hcount i r0 Hi))
                          1 id1 id2 r1 r2 b1 b2 Hg1 Hg2).
Qed.

End Defragment.

(** C7 at work: [/b.txt] holds block 3 and [/a.txt] block 2; after
    [defragment()], [/a.txt] has block 1 and [/b.txt] block 2. *)
Lemma C7_defragment_contiguous_runs_witness :
  option_map f_blocks (Dict.get (md5 "/a.txt") (file_table (snd (defragment 4 scattered))))
  = Some [1]
  /\ option_map f_blocks (Dict.get (md5 "/b.txt") (file_table (snd (defragment 4 scattered))))
     = Some [2].
Proof.
  pose proof (C7_defragment_contiguous_runs 4 scattered (snd (defragment 4 scattered)))
    as Hc.
  specialize (Hc ltac:(vm_compute; reflexivity)).
  assert (Hnd : NoDup (Dict.keys (file_table scattered))).
  { vm_compute. repeat constructor; cbn [In]; intuition discriminate. }
  specialize (Hc Hnd).
  assert (Hinv : forall id r, Dict.get id (file_table scattered) = Some r ->
                   Py.len (f_blocks r) = block_count (block_size scattered) r).
  { assert (Hb : forallb (fun e => Py.len (f_blocks (snd e))
                                    =? block_count (block_size scattered) (snd e))
                          (file_table scattered) = true)
      by (vm_compute; reflexivity).
    intros id r Hg. apply get_Some_In in Hg.
    rewrite forallb_forall in Hb. specialize (Hb _ Hg). cbn [snd] in Hb.
    apply Z.eqb_eq in Hb. exact Hb. }
  specialize (Hc Hinv ltac:(vm_compute; reflexivity)).
  cbv zeta in Hc. destruct Hc as (_ & _ & Hl & _).
  rewrite !Hl. vm_compute. split; reflexivity.
Defined.

(** ** C8: trailing slashes *)

(** C8 (the code at the failing input): [list_directory] drops a trailing
    slash, the other methods keep it.  With [/docs] present,
    [create_directory("/docs/")] succeeds and registers a second directory
    under the key [/docs/] where [create_directory("/docs")] fails, and
    [read_file("/docs/readme.txt/")] finds nothing where
    [read_file("/docs/readme.txt")] returns the content. *)
Theorem C8_trailing_slash_is_kept :
  list_path "/docs/" = "/docs"
  /\ normalize "/docs/" = "/docs/"
  /\ fst (create_directory 2 "/docs" with_docs) = false
  /\ fst (create_directory 2 "/docs/" with_docs) = true
  /\ Dict.mem "/docs/" (directory_structure (snd (create_directory 2 "/docs/" with_docs))) = true
  /\ fst (read_file 4 "/docs/readme.txt" with_readme) = Some "Welcome"
  /\ fst (read_file 4 "/docs/readme.txt/" with_readme) = None.
Proof. vm_compute. repeat split; reflexivity. Qed.

(** ** C9: [write_file] on a path that is not a file yet *)

(** C9 (counterexample): on a fresh file system [/a] is absent;
    [create_file("/a/c.txt", "x")] fails, while [write_file] of the same
    arguments succeeds, adds [/a] to the directory structure and creates
    the file. *)
Lemma C9_write_file_creates_parent :
  Dict.mem "/a" (directory_structure fresh) = false
  /\ fst (create_file 2 "/a/c.txt" "x" fresh) = false
  /\ fst (write_file 2 "/a/c.txt" "x" fresh) = true
  /\ Dict.mem "/a" (directory_structure (snd (write_file 2 "/a/c.txt" "x" fresh))) = true
  /\ fst (read_file 3 "/a/c.txt" (snd (write_file 2 "/a/c.txt" "x" fresh))) = Some "x".
Proof. vm_compute. repeat split; reflexivity. Qed.

Section WriteNewFile.

Context {H : Host}.

(** C9 (amended): when the name is not bound under the parent directory
    -- the parent being there already, or once [write_file] has created
    it -- [write_file(p, c)] is [create_file(p, c)] run after the cache
    entry of [p] has been dropped and the missing parent created: same
    result, same state. *)
Theorem C9_write_file_delegates (now : Z) (p c : string) (s : state) (e : dir_entry) :
  Dict.get (Py.dirname (normalize p)) (directory_structure (prepared now p s)) = Some e ->
  Dict.get (Py.basename (normalize p)) (d_contents e) = None ->
  write_file now p c s = create_file now p c (prepared now p s).
Proof.
  intros He Hname.
  assert (Heq : forall s', create_file now (normalize p) c s' = create_file now p c s').
  { intros s'. unfold create_file, create_file_steps. now rewrite normalize_idem. }
  unfold write_file, write_file_steps. mred.
  rewrite invalidate_cache_directory_structure.
  unfold prepared in He |- *.
  set (s0 := _invalidate_cache (normalize p) s) in *.
  destruct (Dict.mem (Py.dirname (normalize p)) (directory_structure s)) eqn:Hmem;
    cbn [negb].
  - rewrite He, Hname, Heq. now destruct (create_file now p c s0).
  - destruct (create_directory now (Py.dirname (normalize p)) s0) as [b s1] eqn:Ecd.
    cbn [snd] in He |- *. rewrite He, Hname, Heq.
    now destruct (create_file now p c s1).
Qed.

End WriteNewFile.

(** The amended statement on the counterexample's input: the parent [/a]
    is created, then the file. *)
Lemma C9_write_file_delegates_witness :
  write_file 2 "/a/c.txt" "x" fresh
  = create_file 2 "/a/c.txt" "x" (prepared 2 "/a/c.txt" fresh).
Proof.
  apply (C9_write_file_delegates 2 "/a/c.txt" "x" fresh
           (mk_dir_entry 2 2 Dict.empty)); reflexivity.
Defined.

(** ** C10: a failing metadata save *)

Section SaveFailure.

Context {H : Host}.

(** When the [try] block of [_save_metadata] raises, the metadata file
    holds what it held before and the attributes are untouched. *)
Lemma save_raises_nothing_persisted (now : Z) (s1 s2 : state) :
  save_metadata_try now s1 = (Exc, s2) ->
  Disk.read metadata_file (disk s2) = Disk.read metadata_file (disk s1)
  /\ file_table s2 = file_table s1
  /\ directory_structure s2 = directory_structure s1
  /\ free_blocks s2 = free_blocks s1.
Proof.
  unfold save_metadata_try. mred.
  destruct (Disk.exists_ metadata_file (disk s1)).
  - destruct (Disk.copy2 metadata_file _ (disk s1)) as [d1|] eqn:Ec.
    + cbn [disk set_disk].
      match goal with |- context [Disk.write ?a ?b ?c] => destruct (Disk.write a b c) end;
        [discriminate|].
      intros [= <-]. cbn [disk set_disk]. repeat split.
      exact (copy2_metadata_backup _ _ _ Ec).
    + intros [= <-]. repeat split.
  - match goal with |- context [Disk.write ?a ?b ?c] => destruct (Disk.write a b c) end;
      [discriminate|].
    intros [= <-]. repeat split.
Qed.

(** C10: when the statements of a mutating method's [try] block before
    [self._save_metadata()] have run through, and the save then raises
    inside [_save_metadata], the exception is dropped there: the method
    returns [True], the attributes hold the new state, and the metadata
    file on disk still holds what it held before the save. *)
Theorem C10_save_failure_reported_as_success (now : Z) (s1 s2 : state) :
  save_metadata_try now s1 = (Exc, s2) ->
  _save_metadata now s1 = s2
  /\ Disk.read metadata_file (disk s2) = Disk.read metadata_file (disk s1)
  /\ file_table s2 = file_table s1
  /\ directory_structure s2 = directory_structure s1
  /\ free_blocks s2 = free_blocks s1
  /\ (forall s p c, create_file_steps now p c s = (Val Next, s1) ->
                    create_file now p c s = (true, s2))
  /\ (forall s p c, write_file_steps now p c s = (Val Next, s1) ->
                    write_file now p c s = (true, s2))
  /\ (forall s p, delete_file_steps now p s = (Val Next, s1) ->
                  delete_file now p s = (true, s2))
  /\ (forall s p depth,
        create_directory_steps (create_directory_depth depth now) now p s
        = (Val Next, s1) ->
        create_directory_depth (S depth) now p s = (true, s2))
  /\ (forall s p recursive depth,
        delete_directory_steps (fun q => delete_directory_depth depth now q true)
                               now p recursive s
        = (Val Next, s1) ->
        delete_directory_depth (S depth) now p recursive s = (true, s2)).
Proof.
  intros Hsave.
  assert (Hs : _save_metadata now s1 = s2)
    by (unfold _save_metadata, try_unit; now rewrite Hsave).
  destruct (save_raises_nothing_persisted now s1 s2 Hsave) as (Hd & Ht & Hds & Hf).
  repeat (split; [assumption|]).
  repeat split.
  - intros s p c Hsteps. unfold create_file, try_bool, bind.
    rewrite Hsteps. unfold finish, bind, call_unit, ret. now rewrite Hs.
  - intros s p c Hsteps. unfold write_file, try_bool, bind.
    rewrite Hsteps. unfold finish, bind, call_unit, ret. now rewrite Hs.
  - intros s p Hsteps. unfold delete_file, try_bool, bind.
    rewrite Hsteps. unfold finish, bind, call_unit, ret. now rewrite Hs.
  - intros s p depth Hsteps. cbn [create_directory_depth]. unfold try_bool, bind.
    rewrite Hsteps. unfold finish, bind, call_unit, ret. now rewrite Hs.
  - intros s p recursive depth Hsteps. cbn [delete_directory_depth].
    unfold try_bool, bind.
    rewrite Hsteps. unfold finish, bind, call_unit, ret. now rewrite Hs.
Qed.

End SaveFailure.

(** C10 at work: with the backup directory gone, the backup copy inside
    [_save_metadata] raises; [create_file("/a", "x")] returns [True] and
    has the file in its table, while the metadata file still records no
    file. *)
Lemma C10_save_failure_reported_as_success_witness :
  fst (create_file 3 "/a" "x" no_backup_dir) = true
  /\ Py.len (file_table (snd (create_file 3 "/a" "x" no_backup_dir))) = 1
  /\ Disk.read metadata_file (disk (snd (create_file 3 "/a" "x" no_backup_dir)))
     = Some "{block_size: 4096, free: 1000, files: 0}".
Proof.
  assert (Hsave : save_metadata_try 3
                    (snd (create_file_steps 3 "/a" "x" no_backup_dir))
                  = (Exc, snd (save_metadata_try 3
                                 (snd (create_file_steps 3 "/a" "x" no_backup_dir)))))
    by (vm_compute; reflexivity).
  assert (Hsteps : create_file_steps 3 "/a" "x" no_backup_dir
                   = (Val Next, snd (create_file_steps 3 "/a" "x" no_backup_dir)))
    by (vm_compute; reflexivity).
  destruct (C10_save_failure_reported_as_success 3 _ _ Hsave)
    as (_ & _ & _ & _ & _ & Hcreate & _).
  rewrite (Hcreate no_backup_dir "/a" "x" Hsteps).
  vm_compute. repeat split; reflexivity.
Defined.

(** * Further properties *)

(** ** The allocator on its own *)

Lemma range_from_NoDup (a : Z) (n : nat) : NoDup (Py.range_from a n).
Proof.
  revert a. induction n as [|n IH]; intros a; cbn [Py.range_from]; constructor.
  - rewrite range_from_In. lia.
  - apply IH.
Qed.

Lemma NoDup_app_disjoint {A : Type} (l1 l2 : list A) :
  NoDup (l1 ++ l2) -> forall x, In x l1 -> ~ In x l2.
Proof.
  induction l1 as [|a l1 IH]; cbn [app In]; intros Hnd x Hx; [contradiction|].
  inversion Hnd as [|? ? Hna Hnd']; subst. destruct Hx as [->|Hx].
  - intros H2. apply Hna. apply in_or_app. now right.
  - now apply IH.
Qed.

Lemma take_drop (n : Z) (l : list Z) : (Py.take n l ++ Py.drop n l)%list = l.
Proof. unfold Py.take, Py.drop. apply firstn_skipn. Qed.

(** With enough free blocks the allocator splits the free list. *)
Lemma allocate_enough (n : Z) (free : list Z) :
  0 <= n <= Py.len free ->
  allocate n free = (firstn (Z.to_nat n) free, skipn (Z.to_nat n) free).
Proof.
  intros Hn. unfold allocate.
  destruct (Py.len free <? n) eqn:E; [apply Z.ltb_lt in E; lia|].
  unfold Py.take, Py.drop, Py.bound.
  destruct (n <? 0) eqn:E'; [apply Z.ltb_lt in E'; lia|]. reflexivity.
Qed.

(** X1: asked for [n >= 0] blocks, the allocator returns exactly [n]; when
    the free list holds at least [n], these are its first [n] entries in
    their order, the rest of the list stays behind them and nothing is
    minted. *)
Theorem X1_allocate_count_and_reuse (n : Z) (free : list Z) :
  0 <= n ->
  Py.len (fst (allocate n free)) = n
  /\ (n <= Py.len free ->
      fst (allocate n free) = firstn (Z.to_nat n) free
      /\ snd (allocate n free) = skipn (Z.to_nat n) free).
Proof.
  intros Hn. split; [now apply allocate_length|].
  intros Hlen. rewrite allocate_enough by lia. now split.
Qed.

Lemma X1_allocate_count_and_reuse_witness :
  Py.len (fst (allocate 2 [7; 3; 9])) = 2
  /\ fst (allocate 2 [7; 3; 9]) = [7; 3]
  /\ snd (allocate 2 [7; 3; 9]) = [9].
Proof.
  destruct (X1_allocate_count_and_reuse 2 [7; 3; 9] ltac:(lia)) as [Hc Hr].
  destruct (Hr ltac:(vm_compute; discriminate)) as [Ha Hb].
  split; [exact Hc|]. split; [exact Ha | exact Hb].
Defined.

(** X2: on a free list without repeated identifiers, the blocks handed
    out are pairwise distinct and none of them stays in the free list:
    allocated and remaining blocks together are the old free list followed
    by what was minted, without repetition. *)
Theorem X2_allocate_keeps_pool_distinct (n : Z) (free : list Z) :
  NoDup free ->
  NoDup (fst (allocate n free) ++ snd (allocate n free))
  /\ (forall x, In x (fst (allocate n free)) -> ~ In x (snd (allocate n free)))
  /\ (forall x, In x free ->
                In x (fst (allocate n free)) \/ In x (snd (allocate n free))).
Proof.
  intros Hnd. unfold allocate. cbn [fst snd].
  set (free1 := if Py.len free <? n
                then (free ++ Py.range
                        (match free with [] => 0 | _ => Py.max_list free end + 1)
                        (match free with [] => 0 | _ => Py.max_list free end + 1 + n))%list
                else free).
  assert (Hnd1 : NoDup free1).
  { unfold free1. destruct (Py.len free <? n); [|exact Hnd].
    apply NoDup_app.
    - exact Hnd.
    - apply range_from_NoDup.
    - intros x Hx Hr. pose proof (allocate_minted_above_free n free x Hr x Hx). lia. }
  assert (Hsub : forall x, In x free -> In x free1).
  { unfold free1. intros x Hx. destruct (Py.len free <? n); [|exact Hx].
    apply in_or_app. now left. }
  pose proof (take_drop n free1) as Htd.
  split; [now rewrite Htd|]. split.
  - intros x Ha Hb. rewrite <- Htd in Hnd1.
    exact (NoDup_app_disjoint _ _ Hnd1 x Ha Hb).
  - intros x Hx. apply in_app_or. rewrite Htd. now apply Hsub.
Qed.

Lemma X2_allocate_keeps_pool_distinct_witness :
  NoDup (fst (allocate 3 [5; 7]) ++ snd (allocate 3 [5; 7])).
Proof.
  apply (X2_allocate_keeps_pool_distinct 3 [5; 7]).
  repeat constructor; cbn [In]; intuition discriminate.
Defined.

(** ** The read cache on its own *)

Lemma keys_In_get {V} (k : string) (d : Dict.t V) :
  In k (Dict.keys d) <-> exists v, Dict.get k d = Some v.
Proof.
  split.
  - induction d as [|[k0 v0] d IH]; [intros []|].
    cbn [Dict.keys map fst In Dict.get]. intros Hin.
    destruct (String.eqb_spec k0 k) as [->|Hne]; [eauto|].
    destruct Hin as [E|Hin]; [contradiction|]. now apply IH.
  - intros [v Hg]. apply get_Some_In in Hg.
    change k with (fst (k, v)). now apply in_map.
Qed.

Lemma keys_del_In {V} (k x : string) (d : Dict.t V) :
  NoDup (Dict.keys d) ->
  In x (Dict.keys (Dict.del k d)) <-> In x (Dict.keys d) /\ x <> k.
Proof.
  intros Hnd. rewrite !keys_In_get. split.
  - intros [v Hg]. destruct (String.eqb_spec k x) as [->|Hne].
    + rewrite get_del_eq in Hg by assumption. discriminate.
    + rewrite get_del_neq in Hg by assumption. split; [eauto | congruence].
  - intros [[v Hg] Hne]. exists v. rewrite get_del_neq by congruence. exact Hg.
Qed.

Lemma keys_set_In {V} (k x : string) (v : V) (d : Dict.t V) :
  In x (Dict.keys (Dict.set k v d)) <-> x = k \/ In x (Dict.keys d).
Proof.
  split; [apply keys_set_incl|].
  rewrite !keys_In_get. intros [->|[v' Hg]].
  - exists v. apply get_set_eq.
  - destruct (String.eqb_spec k x) as [->|Hne].
    + exists v. apply get_set_eq.
    + exists v'. now rewrite get_set_neq.
Qed.

Lemma length_del {V} (k : string) (d : Dict.t V) :
  In k (Dict.keys d) -> S (length (Dict.del k d)) = length d.
Proof.
  induction d as [|[k0 v0] d IH]; [intros []|].
  cbn [Dict.keys map fst In Dict.del].
  destruct (String.eqb_spec k0 k) as [->|Hne]; [reflexivity|].
  intros [E|Hin]; [contradiction|]. cbn [length]. f_equal. now apply IH.
Qed.

Lemma length_set {V} (k : string) (v : V) (d : Dict.t V) :
  length (Dict.set k v d)
  = if Dict.mem k d then length d else S (length d).
Proof.
  unfold Dict.mem. induction d as [|[k0 v0] d IH]; [reflexivity|].
  cbn [Dict.set Dict.get]. destruct (k0 =? k)%string; [reflexivity|].
  cbn [length]. rewrite IH. now destruct (Dict.get k d).
Qed.

(** The key [min] picks is bound, and to a least timestamp. *)
Lemma min_key_least (d : Dict.t Z) (k : string) :
  min_key d = Some k ->
  exists t, In (k, t) d /\ forall k' t', In (k', t') d -> t <= t'.
Proof.
  unfold min_key. destruct d as [|e d]; [discriminate|].
  intros [= <-].
  set (pick := fun (best e' : string * Z) => if snd e' <? snd best then e' else best).
  assert (Hfold : forall l b,
            (In (fold_left pick l b) (b :: l))
            /\ snd (fold_left pick l b) <= snd b
            /\ forall x, In x l -> snd (fold_left pick l b) <= snd x).
  { induction l as [|x l IH]; intros b; cbn [fold_left].
    - split; [now left|]. split; [lia|]. intros x [].
    - destruct (IH (pick b x)) as (Hin & Hle & Hall).
      assert (Hp : (pick b x = x /\ snd x < snd b) \/ (pick b x = b /\ snd b <= snd x)).
      { unfold pick. destruct (snd x <? snd b) eqn:E.
        - left. apply Z.ltb_lt in E. now split.
        - right. apply Z.ltb_ge in E. now split. }
      split; [|split].
      + destruct Hin as [Hin|Hin]; [|right; now right].
        destruct Hp as [[Hp _]|[Hp _]]; rewrite Hp in *.
        * right. now left.
        * now left.
      + destruct Hp as [[Hp Hlt]|[Hp Hge]]; rewrite Hp in *; lia.
      + intros y [<-|Hy]; [|now apply Hall].
        destruct Hp as [[Hp Hlt]|[Hp Hge]]; rewrite Hp in *; lia. }
  destruct (Hfold d e) as (Hin & Hle & Hall).
  destruct (fold_left pick d e) as [k t] eqn:E. cbn [fst snd] in *.
  exists t. split; [exact Hin|].
  intros k' t' [E'|Hin']; [rewrite E' in Hle; exact Hle|]. exact (Hall _ Hin').
Qed.

Lemma expire_key_get (s : state) (key : string) :
  NoDup (Dict.keys (read_cache s)) ->
  NoDup (Dict.keys (cache_timestamps s)) ->
  NoDup (Dict.keys (read_cache (expire_key s key)))
  /\ NoDup (Dict.keys (cache_timestamps (expire_key s key)))
  /\ forall k,
       Dict.get k (read_cache (expire_key s key))
       = (if (key =? k)%string then None else Dict.get k (read_cache s))
       /\ Dict.get k (cache_timestamps (expire_key s key))
          = (if (key =? k)%string then None else Dict.get k (cache_timestamps s)).
Proof.
  intros Hrc Hts. unfold expire_key, Dict.mem.
  destruct (Dict.get key (read_cache s)) eqn:Eg;
    cbn [read_cache cache_timestamps set_read_cache set_cache_timestamps].
  - split; [now apply keys_del_NoDup|]. split; [now apply keys_del_NoDup|].
    intros k. destruct (String.eqb_spec key k) as [->|Hne].
    + split; now apply get_del_eq.
    + split; now apply get_del_neq.
  - split; [exact Hrc|]. split; [now apply keys_del_NoDup|].
    intros k. destruct (String.eqb_spec key k) as [->|Hne].
    + split; [exact Eg | now apply get_del_eq].
    + split; [reflexivity | now apply get_del_neq].
Qed.

Lemma expire_keys_get (l : list string) (s : state) :
  NoDup (Dict.keys (read_cache s)) ->
  NoDup (Dict.keys (cache_timestamps s)) ->
  forall k,
    Dict.get k (read_cache (fold_left expire_key l s))
    = (if existsb (fun x => (x =? k)%string) l then None
       else Dict.get k (read_cache s))
    /\ Dict.get k (cache_timestamps (fold_left expire_key l s))
       = (if existsb (fun x => (x =? k)%string) l then None
          else Dict.get k (cache_timestamps s)).
Proof.
  revert s. induction l as [|key l IH]; intros s Hrc Hts k; [now split|].
  cbn [fold_left existsb].
  destruct (expire_key_get s key Hrc Hts) as (Hrc' & Hts' & Hget).
  destruct (IH (expire_key s key) Hrc' Hts' k) as [H1 H2].
  destruct (Hget k) as [G1 G2]. rewrite H1, H2, G1, G2.
  destruct (key =? k)%string; cbn [orb];
    destruct (existsb (fun x => (x =? k)%string) l); now split.
Qed.

Lemma expired_keys_spec (now : Z) (s : state) (k : string) :
  NoDup (Dict.keys (cache_timestamps s)) ->
  existsb (fun x => (x =? k)%string) (expired_keys now s) = expired now s k.
Proof.
  unfold expired_keys, expired. generalize (cache_ttl s). intros ttl.
  induction (cache_timestamps s) as [|[k0 t0] d IH]; [reflexivity|].
  cbn [Dict.keys map fst]. intros Hnd. apply NoDup_cons_iff in Hnd.
  destruct Hnd as [Hk0 Hnd]. cbn [filter snd Dict.get].
  destruct (String.eqb_spec k0 k) as [->|Hne].
  - destruct (now - t0 >? ttl) eqn:E; cbn [map fst existsb].
    + now rewrite String.eqb_refl.
    + apply not_true_is_false. intros Hex. apply existsb_exists in Hex.
      destruct Hex as (x & Hx & Heq). apply String.eqb_eq in Heq. subst x.
      apply Hk0. apply in_map_iff in Hx. destruct Hx as (e & He & Hin).
      apply filter_In in Hin. destruct Hin as [Hin _].
      rewrite <- He. now apply in_map.
  - destruct (now - t0 >? ttl); cbn [map fst existsb].
    + destruct (String.eqb_spec k0 k); [contradiction|]. cbn [orb]. now apply IH.
    + now apply IH.
Qed.

(** X3: [_check_cache_expiration] removes exactly the entries whose
    timestamp lies more than [cache_ttl] before the clock value: such a key
    is gone from the timestamps and from the cache, every other key is bound
    as before in both -- in particular a cache entry without a timestamp
    stays. *)
Theorem X3_cache_expiration_exact (now : Z) (s : state) (k : string) :
  NoDup (Dict.keys (read_cache s)) ->
  NoDup (Dict.keys (cache_timestamps s)) ->
  Dict.get k (cache_timestamps (_check_cache_expiration now s))
  = (if expired now s k then None else Dict.get k (cache_timestamps s))
  /\ Dict.get k (read_cache (_check_cache_expiration now s))
     = (if expired now s k then None else Dict.get k (read_cache s)).
Proof.
  intros Hrc Hts. unfold _check_cache_expiration.
  destruct (expire_keys_get (expired_keys now s) s Hrc Hts k) as [H1 H2].
  rewrite (expired_keys_spec now s k Hts) in H1, H2. now split.
Qed.

Lemma X3_cache_expiration_exact_witness :
  Dict.get "/docs/readme.txt" (read_cache (_check_cache_expiration 303 with_readme))
  = Some "Welcome"
  /\ Dict.get "/docs/readme.txt" (read_cache (_check_cache_expiration 304 with_readme))
     = None.
Proof.
  assert (Hrc : NoDup (Dict.keys (read_cache with_readme)))
    by (vm_compute; repeat constructor; cbn [In]; intuition discriminate).
  assert (Hts : NoDup (Dict.keys (cache_timestamps with_readme)))
    by (vm_compute; repeat constructor; cbn [In]; intuition discriminate).
  split.
  - rewrite (proj2 (X3_cache_expiration_exact 303 with_readme "/docs/readme.txt" Hrc Hts)).
    vm_compute. reflexivity.
  - rewrite (proj2 (X3_cache_expiration_exact 304 with_readme "/docs/readme.txt" Hrc Hts)).
    vm_compute. reflexivity.
Defined.

Lemma expire_key_consistent (s : state) (key : string) :
  cache_consistent s -> cache_consistent (expire_key s key).
Proof.
  intros (Hrc & Hts & Hsame).
  destruct (expire_key_get s key Hrc Hts) as (Hrc' & Hts' & Hget).
  split; [exact Hrc'|]. split; [exact Hts'|].
  intros k. destruct (Hget k) as [G1 G2].
  rewrite !keys_In_get, G1, G2.
  destruct (key =? k)%string.
  - split; intros [v Hv]; discriminate.
  - rewrite <- !keys_In_get. apply Hsame.
Qed.

Lemma expire_key_sizes (s : state) (key : string) :
  cache_max_size (expire_key s key) = cache_max_size s
  /\ cache_ttl (expire_key s key) = cache_ttl s.
Proof. unfold expire_key. now destruct (Dict.mem key (read_cache s)). Qed.

(** X4: on a cache whose entries and timestamps have the same keys and
    which holds at most [cache_max_size >= 1] entries, [_add_to_cache]
    keeps both facts and binds the path to the content and to the clock
    value.  With room left nothing else changes; at capacity exactly one
    other entry is dropped first, one whose timestamp is least -- also when
    the path is in the cache already. *)
Theorem X4_add_to_cache_bounded (now : Z) (p c : string) (s : state) :
  cache_consistent s ->
  1 <= cache_max_size s ->
  Py.len (read_cache s) <= cache_max_size s ->
  let s' := _add_to_cache now p c s in
  cache_consistent s'
  /\ Py.len (read_cache s') <= cache_max_size s'
  /\ Dict.get p (read_cache s') = Some c
  /\ Dict.get p (cache_timestamps s') = Some now
  /\ (Py.len (read_cache s) < cache_max_size s ->
      forall k, k <> p -> Dict.get k (read_cache s') = Dict.get k (read_cache s))
  /\ (Py.len (read_cache s) = cache_max_size s ->
      exists oldest t,
        Dict.get oldest (cache_timestamps s) = Some t
        /\ (forall k' t', Dict.get k' (cache_timestamps s) = Some t' -> t <= t')
        /\ forall k, k <> p ->
             Dict.get k (read_cache s')
             = if (oldest =? k)%string then None else Dict.get k (read_cache s)).
Proof.
  intros Hc Hmax Hlen s'.
  assert (Hset : forall s1,
            cache_consistent s1 ->
            cache_consistent
              (set_cache_timestamps
                 (Dict.set p now (cache_timestamps (set_read_cache (Dict.set p c (read_cache s1)) s1)))
                 (set_read_cache (Dict.set p c (read_cache s1)) s1))).
  { intros s1 (Hrc & Hts & Hsame).
    unfold cache_consistent.
    cbn [read_cache cache_timestamps set_read_cache set_cache_timestamps].
    split; [now apply keys_set_NoDup|]. split; [now apply keys_set_NoDup|].
    intros k. rewrite !keys_set_In, Hsame. reflexivity. }
  subst s'. unfold _add_to_cache.
  destruct (Py.len (read_cache s) >=? cache_max_size s) eqn:Efull.
  - apply Z.geb_le in Efull.
    assert (Heq : Py.len (read_cache s) = cache_max_size s) by lia.
    destruct Hc as (Hrc & Hts & Hsame).
    destruct (min_key (cache_timestamps s)) as [oldest|] eqn:Emin.
    + destruct (min_key_least _ _ Emin) as (t & Hin & Hleast).
      pose proof (get_In _ _ _ Hts Hin) as Hgt.
      assert (Hino : In oldest (Dict.keys (read_cache s))).
      { apply Hsame. apply keys_In_get. eauto. }
      destruct (expire_key_get s oldest Hrc Hts) as (Hrc' & Hts' & Hget).
      destruct (expire_key_sizes s oldest) as [Hsz _].
      pose proof (expire_key_consistent s oldest (conj Hrc (conj Hts Hsame))) as Hc'.
      assert (Hlen' : S (length (read_cache (expire_key s oldest)))
                      = length (read_cache s)).
      { unfold expire_key, Dict.mem.
        apply keys_In_get in Hino. destruct Hino as [v Hv]. rewrite Hv.
        cbn [read_cache set_read_cache set_cache_timestamps].
        apply length_del. apply keys_In_get. eauto. }
      set (s1 := expire_key s oldest) in *.
      split; [now apply Hset|].
      cbn [read_cache cache_timestamps cache_max_size set_read_cache set_cache_timestamps].
      split.
      { unfold Py.len in *. rewrite length_set, Hsz.
        destruct (Dict.mem p (read_cache s1)); lia. }
      split; [apply get_set_eq|]. split; [apply get_set_eq|].
      split; [intros Hlt; lia|].
      intros _. exists oldest, t. split; [exact Hgt|]. split.
      * intros k' t' Hg. apply (Hleast k' t'). now apply get_Some_In.
      * intros k Hk. rewrite get_set_neq by congruence. apply Hget.
    + exfalso. destruct (cache_timestamps s) as [|e d] eqn:Ets; [|discriminate].
      destruct (read_cache s) as [|[k0 v0] rc] eqn:Erc.
      * unfold Py.len in Heq. cbn [length] in Heq. lia.
      * assert (Hin : In k0 (Dict.keys ((k0, v0) :: rc))) by now left.
        apply Hsame in Hin. destruct Hin.
  - rewrite Z.geb_leb in Efull. apply Z.leb_gt in Efull.
    split; [now apply Hset|].
    cbn [read_cache cache_timestamps cache_max_size set_read_cache set_cache_timestamps].
    split.
    { unfold Py.len in *. rewrite length_set.
      destruct (Dict.mem p (read_cache s)); lia. }
    split; [apply get_set_eq|]. split; [apply get_set_eq|].
    split; [|intros Heq; lia].
    intros _ k Hk. now rewrite get_set_neq by congruence.
Qed.

Lemma X4_add_to_cache_bounded_witness :
  Py.len (read_cache (_add_to_cache 9 "/b" "y" (set_cache_max_size 1 with_readme))) <= 1
  /\ Dict.get "/docs/readme.txt"
       (read_cache (_add_to_cache 9 "/b" "y" (set_cache_max_size 1 with_readme)))
     = None.
Proof.
  assert (Hc : cache_consistent (set_cache_max_size 1 with_readme)).
  { unfold cache_consistent.
    assert (Hk : Dict.keys (read_cache (set_cache_max_size 1 with_readme))
                 = ["/docs/readme.txt"]) by (vm_compute; reflexivity).
    assert (Ht : Dict.keys (cache_timestamps (set_cache_max_size 1 with_readme))
                 = ["/docs/readme.txt"]) by (vm_compute; reflexivity).
    rewrite Hk, Ht. split; [|split]; [| |reflexivity];
      repeat constructor; cbn [In]; intuition discriminate. }
  destruct (X4_add_to_cache_bounded 9 "/b" "y" (set_cache_max_size 1 with_readme) Hc
              ltac:(vm_compute; discriminate) ltac:(vm_compute; discriminate))
    as (_ & Hlen & _ & _ & _ & Hfull).
  split; [exact Hlen|].
  destruct (Hfull ltac:(vm_compute; reflexivity)) as (oldest & t & Hg & _ & Hrest).
  assert (Ho : oldest = "/docs/readme.txt").
  { apply get_Some_In in Hg.
    assert (Ht : cache_timestamps (set_cache_max_size 1 with_readme)
                 = [("/docs/readme.txt", 3)]) by (vm_compute; reflexivity).
    rewrite Ht in Hg. destruct Hg as [Hg|[]]. now inversion Hg. }
  rewrite (Hrest "/docs/readme.txt" ltac:(discriminate)), Ho, String.eqb_refl.
  reflexivity.
Defined.

Lemma pop_first_fold (l : list Z) (s : state) :
  fold_left (fun s' _ => pop_first s') l s
  = set_read_cache (skipn (length l) (read_cache s)) s.
Proof.
  revert s. induction l as [|x l IH]; intros s; cbn [fold_left length skipn].
  - now destruct s.
  - rewrite IH. unfold pop_first.
    destruct (read_cache s) as [|[key v] rc] eqn:E.
    + rewrite E. now rewrite skipn_nil.
    + cbn [Dict.del]. rewrite String.eqb_refl. reflexivity.
Qed.

Lemma configure_cache_eq (max_size ttl : Z) (s : state) :
  configure_cache max_size ttl s
  = set_read_cache
      (skipn (Z.to_nat (Py.len (read_cache s) - max_size)) (read_cache s))
      (set_cache_timestamps Dict.empty
         (set_cache_ttl ttl (set_cache_max_size max_size s))).
Proof.
  unfold configure_cache.
  cbn [read_cache cache_max_size set_cache_timestamps set_cache_ttl set_cache_max_size].
  destruct (Py.len (read_cache s) >? max_size) eqn:E.
  - rewrite pop_first_fold. unfold Py.range. rewrite range_from_length.
    rewrite Z.sub_0_r. reflexivity.
  - rewrite Z.gtb_ltb in E. apply Z.ltb_ge in E.
    replace (Z.to_nat (Py.len (read_cache s) - max_size)) with O by lia.
    cbn [skipn]. now destruct s.
Qed.

(** X5: [configure_cache(max_size, ttl)] stores the two settings, empties
    the timestamps and, when the cache holds more than [max_size] entries,
    drops the surplus from the front, that is the entries inserted first.
    As the entries that stay have lost their timestamps,
    [_check_cache_expiration] leaves them in the cache at every later clock
    value. *)
Theorem X5_configure_cache_trims_front (max_size ttl : Z) (s : state) :
  let s' := configure_cache max_size ttl s in
  cache_max_size s' = max_size
  /\ cache_ttl s' = ttl
  /\ cache_timestamps s' = Dict.empty
  /\ read_cache s'
     = skipn (Z.to_nat (Py.len (read_cache s) - max_size)) (read_cache s)
  /\ Py.len (read_cache s') = Z.min (Py.len (read_cache s)) (Z.max 0 max_size)
  /\ forall now, _check_cache_expiration now s' = s'.
Proof.
  intros s'. subst s'. rewrite configure_cache_eq.
  cbn [read_cache cache_max_size cache_ttl cache_timestamps
       set_read_cache set_cache_timestamps set_cache_ttl set_cache_max_size].
  repeat split.
  unfold Py.len. rewrite length_skipn. lia.
Qed.

(** X6: after [configure_cache(max_size, ttl)] with
    [0 <= max_size <= len(read_cache)] the cache is full and has no
    timestamps, so the next [_add_to_cache] of a path that is not among the
    entries kept finds no oldest key to drop: the cache then holds
    [max_size + 1] entries, one more than the configured limit. *)
Theorem X6_limit_exceeded_after_configure
    (max_size ttl now : Z) (p c : string) (s : state) :
  0 <= max_size <= Py.len (read_cache s) ->
  Dict.mem p (read_cache (configure_cache max_size ttl s)) = false ->
  let s' := _add_to_cache now p c (configure_cache max_size ttl s) in
  Py.len (read_cache s') = max_size + 1
  /\ cache_max_size s' = max_size.
Proof.
  intros Hm Hp s'.
  subst s'. rewrite configure_cache_eq in *. unfold _add_to_cache.
  cbn [read_cache cache_max_size cache_timestamps
       set_read_cache set_cache_timestamps set_cache_ttl set_cache_max_size] in *.
  assert (Hlen : Py.len (skipn (Z.to_nat (Py.len (read_cache s) - max_size))
                               (read_cache s)) = max_size).
  { unfold Py.len in *. rewrite length_skipn. lia. }
  rewrite Hlen, Z.geb_leb, Z.leb_refl. cbn [min_key Dict.empty].
  cbn [read_cache cache_max_size set_read_cache set_cache_timestamps].
  split; [|reflexivity].
  unfold Py.len in *. rewrite length_set, Hp. lia.
Qed.

Lemma X6_limit_exceeded_after_configure_witness :
  Py.len (read_cache (_add_to_cache 9 "/b" "y" (configure_cache 1 300 with_readme)))
  = 2.
Proof.
  apply (X6_limit_exceeded_after_configure 1 300 9 "/b" "y" with_readme).
  - vm_compute. split; discriminate.
  - vm_compute. reflexivity.
Defined.

(** ** Defragmentation: the pool and the statistics *)

Lemma discontinuities_range_from (a : Z) (n : nat) :
  discontinuities (Py.range_from a n) = 0.
Proof.
  revert a. induction n as [|n IH]; intros a; [reflexivity|].
  cbn [Py.range_from discontinuities].
  destruct n as [|n]; [reflexivity|].
  specialize (IH (a + 1)). cbn [Py.range_from] in IH |- *.
  rewrite Z.eqb_refl. exact IH.
Qed.

(** Dictionaries with the same keys whose values agree under [f] key by
    key have the same [f]-values, in order. *)
Lemma values_map_ext {V W} (f : V -> W) (d d' : Dict.t V) :
  NoDup (Dict.keys d) ->
  Dict.keys d' = Dict.keys d ->
  (forall k v, Dict.get k d = Some v ->
               exists v', Dict.get k d' = Some v' /\ f v' = f v) ->
  map f (Dict.values d') = map f (Dict.values d).
Proof.
  revert d'. induction d as [|[k v] d IH]; intros d' Hnd Hk Hget.
  - destruct d'; [reflexivity | discriminate].
  - destruct d' as [|[k' v'] d']; [discriminate|].
    cbn [Dict.keys map fst] in Hk, Hnd. injection Hk as -> Hk.
    apply NoDup_cons_iff in Hnd. destruct Hnd as [Hnk Hnd].
    cbn [Dict.values map snd]. f_equal.
    + destruct (Hget k v) as (v0 & Hg & Hf).
      { cbn [Dict.get]. now rewrite String.eqb_refl. }
      cbn [Dict.get] in Hg. rewrite String.eqb_refl in Hg. now injection Hg as ->.
    + apply IH; [exact Hnd | exact Hk|].
      intros k0 v0 Hg0.
      assert (Hne : k <> k0).
      { intros ->. apply Hnk. apply keys_In_get. eauto. }
      destruct (Hget k0 v0) as (v1 & Hg1 & Hf1).
      { cbn [Dict.get]. destruct (String.eqb_spec k k0); [contradiction | exact Hg0]. }
      cbn [Dict.get] in Hg1. destruct (String.eqb_spec k k0); [contradiction|].
      eauto.
Qed.

Section DefragmentPool.

Context {H : Host}.

(** The loop of [defragment] takes the runs off the front of the pool. *)
Lemma defragment_loop_free (bs : Z) (files : list (string * file_record)) :
  0 < bs ->
  NoDup (Dict.keys files) ->
  forall (start free_end : Z) (s s' : state),
    block_size s = bs ->
    free_blocks s = Py.range start free_end ->
    (forall id r, In (id, r) files ->
                  Dict.get id (file_table s) = Some r /\ 0 <= block_count bs r) ->
    start + Py.sum (map (block_count bs) (Dict.values files)) <= free_end ->
    for_each files defragment_file s = (Val tt, s') ->
    free_blocks s'
    = Py.range (start + Py.sum (map (block_count bs) (Dict.values files))) free_end.
Proof.
  intros Hbs. induction files as [|[id info] files IH];
    intros Hnd start free_end s s' Hb Hfree Hfiles Hroom.
  - cbn [for_each Dict.values map]. unfold ret. intros [= <-].
    change (Py.sum []) with 0. now rewrite Z.add_0_r.
  - cbn [Dict.keys map fst] in Hnd. apply NoDup_cons_iff in Hnd.
    destruct Hnd as [Hid Hnd].
    destruct (Hfiles id info (or_introl eq_refl)) as [Hget Hn].
    cbn [Dict.values map snd] in Hroom |- *. rewrite sum_cons in Hroom |- *.
    assert (Hrest : 0 <= Py.sum (map (block_count bs) (Dict.values files))).
    { apply sum_nonneg. intros x Hx. apply in_map_iff in Hx.
      destruct Hx as (r & <- & Hr). unfold Dict.values in Hr.
      apply in_map_iff in Hr. destruct Hr as ([id' r'] & <- & Hin).
      apply (Hfiles id' r'). now right. }
    unfold Dict.values in Hrest, Hroom |- *.
    set (n := block_count bs info) in *.
    set (s1 := set_file_table
                 (Dict.set id (with_blocks info (Py.range start (start + n)))
                           (file_table s))
                 (set_free_blocks (Py.range (start + n) free_end) s)).
    assert (Hstep : defragment_file (id, info) s = (Val tt, s1)).
    { unfold defragment_file, _allocate_blocks, blocks_needed. mred. cbn [fst snd].
      rewrite Hb. destruct (bs =? 0) eqn:E; [lia|]. cbv beta iota.
      fold (block_count bs info). fold n.
      rewrite Hfree, (allocate_from_range start free_end n) by lia.
      cbv beta iota. cbn [file_table set_free_blocks]. rewrite Hget. reflexivity. }
    cbn [for_each]. unfold bind at 1. rewrite Hstep. intros Hrun.
    rewrite (IH Hnd (start + n) free_end s1 s').
    + unfold Dict.values. f_equal. lia.
    + exact Hb.
    + reflexivity.
    + intros id' r' Hin. split; [|apply (Hfiles id' r'); now right].
      cbn [s1 file_table set_file_table]. rewrite get_set_neq.
      * apply (Hfiles id' r'). now right.
      * intros ->. apply Hid. change id' with (fst (id', r')). now apply in_map.
    + unfold Dict.values. lia.
    + exact Hrun.
Qed.

(** X7: on a state whose block size is positive and whose records hold
    as many blocks as their size calls for, [defragment()] succeeds.  Where
    [used] is the number of blocks the files hold and [total] that number
    plus the length of the free list, the files hold blocks among
    [1 .. used] afterwards, each as a run without a discontinuity as
    [analyze_performance] counts them, and the free list is exactly
    [used + 1 .. total]: no block is both free and held by a file, and both
    counts are what they were. *)
Theorem X7_defragment_separates_pool (now : Z) (s : state) :
  0 < block_size s ->
  NoDup (Dict.keys (file_table s)) ->
  (forall id r, Dict.get id (file_table s) = Some r ->
                Py.len (f_blocks r) = block_count (block_size s) r) ->
  exists s',
    defragment now s = (true, s')
    /\ free_blocks s' = Py.range (used_blocks s + 1) (total_blocks s + 1)
    /\ used_blocks s' = used_blocks s
    /\ total_blocks s' = total_blocks s
    /\ (forall id r b, Dict.get id (file_table s') = Some r ->
                       In b (f_blocks r) ->
                       1 <= b <= used_blocks s /\ ~ In b (free_blocks s'))
    /\ (forall id r, Dict.get id (file_table s') = Some r ->
                     discontinuities (f_blocks r) = 0).
Proof.
  intros Hbs Hnd Hinv.
  set (bs := block_size s) in *.
  set (files := Py.sorted_by (fun e : string * file_record => f_path (snd e))
                             (file_table s)).
  pose proof (sorted_by_perm (fun e : string * file_record => f_path (snd e))
                             (file_table s)) as Hperm.
  fold files in Hperm.
  assert (Hcount : forall id r, In (id, r) files ->
                     Dict.get id (file_table s) = Some r /\ 0 <= block_count bs r).
  { intros id r Hin. apply (Permutation_in _ (Permutation_sym Hperm)) in Hin.
    pose proof (get_In _ _ _ Hnd Hin) as Hg. split; [exact Hg|].
    rewrite <- (Hinv id r Hg). unfold Py.len. lia. }
  assert (Hnd' : NoDup (Dict.keys files)).
  { unfold Dict.keys. eapply Permutation_NoDup; [|exact Hnd].
    apply Permutation_map. exact Hperm. }
  assert (Hsum : Py.sum (map (block_count bs) (Dict.values files)) = used_blocks s).
  { unfold used_blocks.
    rewrite (sum_perm _ (map (block_count bs) (Dict.values (file_table s)))).
    - f_equal. apply map_ext_in. intros r Hr. unfold Dict.values in Hr.
      apply in_map_iff in Hr. destruct Hr as ([id r0] & <- & Hin).
      symmetry. apply (Hinv id r0). now apply get_In.
    - apply Permutation_map. unfold Dict.values. apply Permutation_map.
      now apply Permutation_sym. }
  assert (Hfree0 : 0 <= Py.len (free_blocks s)) by (unfold Py.len; lia).
  set (total := Py.sum (map (fun info => Py.len (f_blocks info))
                            (Dict.values (file_table s)))
                + Py.len (Py.sort_Z (free_blocks s))).
  assert (Htotal : total = total_blocks s).
  { unfold total, total_blocks, used_blocks. now rewrite sort_Z_length. }
  set (s2 := set_free_blocks (Py.range 1 (total + 1))
               (set_free_blocks (Py.sort_Z (free_blocks s)) s)).
  assert (Hroom : 1 + Py.sum (map (block_count bs) (Dict.values files)) <= total + 1).
  { rewrite Hsum, Htotal. unfold total_blocks. lia. }
  destruct (defragment_loop bs files Hbs Hnd' 1 (total + 1) s2
              eq_refl eq_refl Hcount Hroom)
    as (s3 & Hloop & Hb3 & _ & _ & _ & _ & Hkeys & Hgets).
  pose proof (defragment_loop_free bs files Hbs Hnd' 1 (total + 1) s2 s3
                eq_refl eq_refl Hcount Hroom Hloop) as Hfree3.
  rewrite Hsum, Htotal in Hfree3.
  destruct (save_metadata_memory now s3) as (_ & Sf & St & _).
  cbv zeta in Sf, St.
  assert (Hrun : defragment now s = (true, _save_metadata now s3)).
  { unfold defragment, defragment_try. mred.
    change (file_table (set_free_blocks (Py.sort_Z (free_blocks s)) s))
      with (file_table s).
    change (free_blocks (set_free_blocks (Py.sort_Z (free_blocks s)) s))
      with (Py.sort_Z (free_blocks s)).
    fold total. fold s2. fold files. rewrite Hloop. reflexivity. }
  assert (Hrec : forall id r', Dict.get id (file_table s3) = Some r' ->
            exists r st,
              Dict.get id (file_table s) = Some r
              /\ 1 <= st
              /\ st + block_count bs r <= 1 + used_blocks s
              /\ r' = with_blocks r (Py.range st (st + block_count bs r))).
  { intros id r' Hg. rewrite Hgets in Hg.
    destruct (Dict.get id (layout bs 1 files)) as [r0|] eqn:El.
    - injection Hg as ->.
      destruct (layout_inv bs files (fun i r0 Hi => proj2 (Hcount i r0 Hi)) _ _ _ El)
        as (r & st & Hin & Hst & Hend & ->).
      exists r, st. split; [apply (Hcount id r Hin)|].
      unfold Dict.values in Hsum. rewrite Hsum in Hend. now repeat split.
    - exfalso. cbn [s2 file_table set_free_blocks] in Hg.
      assert (Hin : In id (Dict.keys (layout bs 1 files))).
      { rewrite layout_keys. unfold Dict.keys.
        eapply Permutation_in; [apply Permutation_map; exact Hperm|].
        apply keys_In_get. eauto. }
      apply keys_In_get in Hin. destruct Hin as [v Hv]. congruence. }
  exists (_save_metadata now s3). split; [exact Hrun|].
  split; [now rewrite Sf, Hfree3, Z.add_comm|].
  assert (Hused : used_blocks (_save_metadata now s3) = used_blocks s).
  { unfold used_blocks. rewrite St. f_equal.
    apply values_map_ext; [exact Hnd | exact Hkeys|].
    intros k v Hg.
    destruct (Dict.get k (file_table s3)) as [r'|] eqn:Eg.
    - destruct (Hrec k r' Eg) as (r & st & Hgr & Hst & Hend & ->).
      rewrite Hg in Hgr. injection Hgr as <-.
      eexists. split; [reflexivity|]. cbn [with_blocks f_blocks].
      pose proof (proj2 (Hcount k v
                    (Permutation_in _ Hperm (get_Some_In _ _ _ Hg)))) as Hn.
      rewrite range_length by lia. rewrite (Hinv k v Hg). fold bs. lia.
    - exfalso.
      assert (Hin : In k (Dict.keys (file_table s3))).
      { rewrite Hkeys. cbn [s2 file_table set_free_blocks].
        apply keys_In_get. eauto. }
      apply keys_In_get in Hin. destruct Hin as [v' Hv']. congruence. }
  split; [exact Hused|]. split.
  { unfold total_blocks. rewrite Hused, Sf, Hfree3.
    rewrite range_length by (unfold total_blocks; lia).
    unfold total_blocks. lia. }
  split.
  - intros id r' b Hg Hb. rewrite St in Hg.
    destruct (Hrec id r' Hg) as (r & st & Hgr & Hst & Hend & ->).
    cbn [with_blocks f_blocks] in Hb. apply range_In in Hb.
    split; [lia|]. rewrite Sf, Hfree3. intros Hf. apply range_In in Hf. lia.
  - intros id r' Hg. rewrite St in Hg.
    destruct (Hrec id r' Hg) as (r & st & _ & _ & _ & ->).
    cbn [with_blocks f_blocks]. apply discontinuities_range_from.
Qed.

(** X8: with a block size of zero and at least one file, [defragment()]
    fails at the first file and returns [False].  The handler puts the file
    table back, but not the free list, which by then has been replaced by
    [1 .. total]: every identifier up to the total block count is free
    afterwards, those the files hold included. *)
Theorem X8_defragment_failure_keeps_reset_pool (now : Z) (s : state) :
  block_size s = 0 ->
  file_table s <> [] ->
  exists s',
    defragment now s = (false, s')
    /\ file_table s' = file_table s
    /\ free_blocks s' = Py.range 1 (total_blocks s + 1)
    /\ disk s' = disk s
    /\ forall id r b, Dict.get id (file_table s') = Some r ->
                      In b (f_blocks r) -> 1 <= b <= total_blocks s ->
                      In b (free_blocks s').
Proof.
  intros Hbs Hne.
  set (files := Py.sorted_by (fun e : string * file_record => f_path (snd e))
                             (file_table s)).
  pose proof (sorted_by_perm (fun e : string * file_record => f_path (snd e))
                             (file_table s)) as Hperm.
  fold files in Hperm.
  assert (Hfiles : exists e rest, files = e :: rest).
  { destruct files as [|e rest]; [|eauto].
    apply Permutation_sym, Permutation_nil in Hperm. contradiction. }
  destruct Hfiles as (e & rest & Hfiles).
  set (total := Py.sum (map (fun info => Py.len (f_blocks info))
                            (Dict.values (file_table s)))
                + Py.len (Py.sort_Z (free_blocks s))).
  assert (Htotal : total = total_blocks s).
  { unfold total, total_blocks, used_blocks. now rewrite sort_Z_length. }
  assert (Hrun : defragment now s
                 = (false, set_file_table (file_table s)
                             (set_free_blocks (Py.range 1 (total + 1))
                                (set_free_blocks (Py.sort_Z (free_blocks s)) s)))).
  { unfold defragment, defragment_try. mred.
    change (file_table (set_free_blocks (Py.sort_Z (free_blocks s)) s))
      with (file_table s).
    change (free_blocks (set_free_blocks (Py.sort_Z (free_blocks s)) s))
      with (Py.sort_Z (free_blocks s)).
    fold total. fold files. rewrite Hfiles. cbn [for_each].
    unfold defragment_file, blocks_needed. mred.
    cbn [block_size set_free_blocks]. rewrite Hbs. reflexivity. }
  eexists. split; [exact Hrun|].
  cbn [file_table free_blocks disk set_file_table set_free_blocks].
  rewrite Htotal. repeat split.
  intros id r b _ _ Hb. unfold Py.range. apply range_from_In. lia.
Qed.

End DefragmentPool.

Lemma X7_defragment_separates_pool_witness :
  free_blocks (snd (defragment 4 scattered)) = Py.range 3 1001.
Proof.
  assert (Hnd : NoDup (Dict.keys (file_table scattered))).
  { vm_compute. repeat constructor; cbn [In]; intuition discriminate. }
  assert (Hinv : forall id r, Dict.get id (file_table scattered) = Some r ->
                   Py.len (f_blocks r) = block_count (block_size scattered) r).
  { assert (Hb : forallb (fun e => Py.len (f_blocks (snd e))
                                    =? block_count (block_size scattered) (snd e))
                          (file_table scattered) = true)
      by (vm_compute; reflexivity).
    intros id r Hg. apply get_Some_In in Hg.
    rewrite forallb_forall in Hb. specialize (Hb _ Hg). cbn [snd] in Hb.
    apply Z.eqb_eq in Hb. exact Hb. }
  destruct (X7_defragment_separates_pool 4 scattered
              ltac:(vm_compute; reflexivity) Hnd Hinv)
    as (s' & Hrun & Hfree & _).
  rewrite Hrun. cbn [snd]. rewrite Hfree. vm_compute. reflexivity.
Defined.

Lemma X8_defragment_failure_keeps_reset_pool_witness :
  fst (defragment 4 (set_block_size 0 scattered)) = false
  /\ In 1 (free_blocks (snd (defragment 4 (set_block_size 0 scattered)))).
Proof.
  destruct (X8_defragment_failure_keeps_reset_pool 4 (set_block_size 0 scattered)
              eq_refl ltac:(vm_compute; discriminate))
    as (s' & Hrun & _ & Hfree & _).
  rewrite Hrun. cbn [fst snd]. split; [reflexivity|].
  rewrite Hfree. vm_compute. now left.
Defined.

(** ** Failures of the file operations *)

Ltac proj_norm :=
  cbn [block_size free_blocks file_table directory_structure read_cache
       cache_max_size cache_ttl cache_timestamps disk
       set_block_size set_free_blocks set_file_table set_directory_structure
       set_read_cache set_cache_timestamps set_disk negb] in *.

Section Failures.

Context {H : Host}.

(** X9: whenever [create_file] returns [False] -- the parent directory is
    not registered, the name is taken, or a step on the disk or the block
    computation raises -- the block size, the free list, both tables and
    the cache are what they were: at most the disk differs, where the file
    may have been written already.  When the parent is not registered or
    the name is taken, the disk is untouched as well. *)
Theorem X9_create_file_failure_keeps_tables
    (now : Z) (p c : string) (s s' : state) :
  create_file now p c s = (false, s') ->
  s' = set_disk (disk s') s
  /\ (match Dict.get (Py.dirname (normalize p)) (directory_structure s) with
      | None => True
      | Some e => Dict.mem (Py.basename (normalize p)) (d_contents e) = true
      end -> s' = s).
Proof.
  unfold create_file, create_file_steps, set_child, _allocate_blocks. mred.
  destruct (Dict.get (Py.dirname (normalize p)) (directory_structure s)) as [e|] eqn:Ee.
  2:{ intros [= <-]. split; [now destruct s | reflexivity]. }
  destruct (Dict.mem (Py.basename (normalize p)) (d_contents e)) eqn:Em.
  { intros [= <-]. split; [now destruct s | reflexivity]. }
  intros Hrun. split; [|discriminate].
  revert Hrun.
  destruct (Disk.makedirs _ (disk s)) as [d1|]; [|intros [= <-]; now destruct s].
  proj_norm.
  destruct (Disk.write _ _ d1) as [d2|]; [|intros [= <-]; reflexivity].
  destruct (blocks_needed _ (block_size s)) as [n|]; [|intros [= <-]; reflexivity].
  proj_norm. destruct (allocate n (free_blocks s)) as [allocated free'].
  proj_norm. rewrite Ee. discriminate.
Qed.

End Failures.

Lemma X9_create_file_failure_keeps_tables_witness :
  create_file 9 "/docs/readme.txt" "again" with_readme = (false, with_readme)
  /\ with_readme = set_disk (disk with_readme) with_readme.
Proof.
  assert (E : create_file 9 "/docs/readme.txt" "again" with_readme
              = (false, with_readme)) by (vm_compute; reflexivity).
  split; [exact E|].
  exact (proj1 (X9_create_file_failure_keeps_tables 9 "/docs/readme.txt" "again"
                  with_readme with_readme E)).
Defined.

Section FailedOverwrite.

Context {H : Host}.

(** X10: [write_file] on a path that is bound to a file frees the
    file's blocks before it writes.  When it then returns [False] -- the
    write on disk or the block computation raised -- the record still
    lists its blocks while the free list has them at its end: they are
    free and in use at once.  Both tables are as before. *)
Theorem X10_failed_overwrite_frees_blocks
    (now : Z) (p c : string) (s s' : state) (e : dir_entry) (fid : string)
    (r : file_record) :
  Dict.get (Py.dirname (normalize p)) (directory_structure s) = Some e ->
  Dict.get (Py.basename (normalize p)) (d_contents e) = Some (CFile fid) ->
  Dict.get fid (file_table s) = Some r ->
  write_file now p c s = (false, s') ->
  free_blocks s' = (free_blocks s ++ f_blocks r)%list
  /\ file_table s' = file_table s
  /\ directory_structure s' = directory_structure s
  /\ block_size s' = block_size s.
Proof.
  intros He Hname Hr.
  assert (Hinv : forall q s0,
            directory_structure (_invalidate_cache q s0) = directory_structure s0
            /\ file_table (_invalidate_cache q s0) = file_table s0
            /\ free_blocks (_invalidate_cache q s0) = free_blocks s0
            /\ block_size (_invalidate_cache q s0) = block_size s0).
  { intros q s0. unfold _invalidate_cache.
    destruct (Dict.mem (normalize q) (read_cache s0)); repeat split. }
  destruct (Hinv (normalize p) s) as (Id & It & If & Ib).
  unfold write_file, write_file_steps, _allocate_blocks. mred.
  set (s0 := _invalidate_cache (normalize p) s) in *.
  unfold Dict.mem. rewrite Id, He. cbn [negb]. cbv beta iota.
  rewrite Id, He. cbv beta iota. rewrite Hname. cbv beta iota.
  rewrite It, Hr. cbv beta iota.
  destruct (backup_file_frame now (physical (normalize p))
              (_free_blocks (f_blocks r) s0)) as (Bb & Bf & Bt & Bd & _ & _).
  cbv zeta in Bb, Bf, Bt, Bd.
  destruct (_backup_file now (physical (normalize p))
              (_free_blocks (f_blocks r) s0)) as [bk s2].
  cbn [snd] in Bb, Bf, Bt, Bd. cbv beta iota.
  cbn [_free_blocks block_size free_blocks file_table directory_structure
       set_free_blocks] in Bb, Bf, Bt, Bd.
  rewrite If in Bf. rewrite It in Bt. rewrite Id in Bd. rewrite Ib in Bb.
  destruct (Disk.write _ _ (disk s2)) as [d3|].
  2:{ intros [= <-]. now repeat split. }
  cbv beta iota. rewrite Ib.
  destruct (blocks_needed _ (block_size s)) as [n|].
  2:{ intros [= <-]. now repeat split. }
  cbv beta iota. proj_norm.
  destruct (allocate n (free_blocks s2)) as [allocated free'].
  proj_norm. rewrite Bt, Hr. discriminate.
Qed.

End FailedOverwrite.

Lemma X10_failed_overwrite_frees_blocks_witness :
  f_blocks (mk_file_record "/docs/readme.txt" 7 [1] 2 2 (md5 "Welcome")) = [1]
  /\ In 1 (free_blocks (snd (write_file 9 "/docs/readme.txt" "new"
                               (set_block_size 0 with_readme)))).
Proof.
  split; [reflexivity|].
  assert (E : exists s', write_file 9 "/docs/readme.txt" "new"
                           (set_block_size 0 with_readme) = (false, s')).
  { vm_compute. eexists. reflexivity. }
  destruct E as [s' E].
  pose proof (X10_failed_overwrite_frees_blocks 9 "/docs/readme.txt" "new"
                (set_block_size 0 with_readme) s'
                (mk_dir_entry 1 1 [("readme.txt", CFile (md5 "/docs/readme.txt"))])
                (md5 "/docs/readme.txt")
                (mk_file_record "/docs/readme.txt" 7 [1] 2 2 (md5 "Welcome")))
    as Hc.
  specialize (Hc ltac:(vm_compute; reflexivity) ltac:(vm_compute; reflexivity)
                 ltac:(vm_compute; reflexivity) E).
  destruct Hc as (Hfree & _).
  rewrite E. cbn [snd]. rewrite Hfree. apply in_or_app. right. now left.
Defined.

(** ** Creating, deleting and reading *)

Lemma del_set_absent {V} (k : string) (v : V) (d : Dict.t V) :
  Dict.get k d = None -> Dict.del k (Dict.set k v d) = d.
Proof.
  induction d as [|[k0 v0] d IH]; cbn [Dict.get Dict.set Dict.del].
  - now rewrite String.eqb_refl.
  - destruct (k0 =? k)%string eqn:E; [discriminate|].
    intros Hg. cbn [Dict.del]. rewrite E. f_equal. now apply IH.
Qed.

Lemma set_set {V} (k : string) (v v' : V) (d : Dict.t V) :
  Dict.set k v' (Dict.set k v d) = Dict.set k v' d.
Proof.
  induction d as [|[k0 v0] d IH]; cbn [Dict.set].
  - now rewrite String.eqb_refl.
  - destruct (k0 =? k)%string eqn:E; cbn [Dict.set].
    + now rewrite String.eqb_refl.
    + rewrite E. f_equal. exact IH.
Qed.

Lemma set_same {V} (k : string) (v : V) (d : Dict.t V) :
  Dict.get k d = Some v -> Dict.set k v d = d.
Proof.
  induction d as [|[k0 v0] d IH]; cbn [Dict.get Dict.set]; [discriminate|].
  destruct (String.eqb_spec k0 k) as [->|Hne].
  - now intros [= ->].
  - intros Hg. f_equal. now apply IH.
Qed.

Section Runs.

Context {H : Host}.

(** [create_file] under a registered parent in which the name is free. *)
Lemma create_file_run (now : Z) (p c : string) (s : state) (e : dir_entry) :
  Dict.get (Py.dirname (normalize p)) (directory_structure s) = Some e ->
  Dict.get (Py.basename (normalize p)) (d_contents e) = None ->
  create_file now p c s
  = match Disk.makedirs (Py.dirname (physical (normalize p))) (disk s) with
    | None => (false, s)
    | Some d1 =>
        match Disk.write (physical (normalize p)) (text_encode c) d1 with
        | None => (false, set_disk d1 s)
        | Some d2 =>
            match blocks_needed (Py.byte_len c) (block_size s) with
            | None => (false, set_disk d2 s)
            | Some n =>
                (true,
                 _save_metadata now
                   (set_directory_structure
                      (Dict.set (Py.dirname (normalize p))
                         (mk_dir_entry (d_created e) (d_modified e)
                            (Dict.set (Py.basename (normalize p))
                                      (CFile (md5 (normalize p))) (d_contents e)))
                         (directory_structure s))
                      (set_file_table
                         (Dict.set (md5 (normalize p))
                            (mk_file_record (normalize p) (Py.byte_len c)
                               (fst (allocate n (free_blocks s))) now now
                               (_calculate_checksum (physical (normalize p)) d2))
                            (file_table s))
                         (set_free_blocks (snd (allocate n (free_blocks s)))
                            (set_disk d2 s)))))
            end
        end
    end.
Proof.
  intros He Hname.
  unfold create_file, create_file_steps, set_child, _allocate_blocks. mred.
  rewrite He. cbv beta iota. unfold Dict.mem. rewrite Hname. cbv beta iota.
  destruct (Disk.makedirs _ (disk s)) as [d1|]; [|reflexivity].
  proj_norm.
  destruct (Disk.write _ _ d1) as [d2|]; [|reflexivity].
  destruct (blocks_needed _ (block_size s)) as [n|]; [|reflexivity].
  proj_norm. destruct (allocate n (free_blocks s)) as [allocated free'].
  proj_norm. rewrite He. reflexivity.
Qed.

(** [delete_file] on a path that is bound to a file. *)
Lemma delete_file_run (now : Z) (p : string) (s : state) (e : dir_entry)
    (fid : string) :
  Dict.get (Py.dirname (normalize p)) (directory_structure s) = Some e ->
  Dict.get (Py.basename (normalize p)) (d_contents e) = Some (CFile fid) ->
  delete_file now p s
  = let s1 := snd (_backup_file now (physical (normalize p)) s) in
    match Dict.get fid (file_table s) with
    | None => (false, s1)
    | Some r =>
        let s3 :=
          set_directory_structure
            (Dict.set (Py.dirname (normalize p))
               (mk_dir_entry (d_created e) (d_modified e)
                  (Dict.del (Py.basename (normalize p)) (d_contents e)))
               (directory_structure s))
            (set_file_table (Dict.del fid (file_table s))
               (set_free_blocks (free_blocks s ++ f_blocks r)%list s1)) in
        if Disk.exists_ (physical (normalize p)) (disk s1) then
          match Disk.remove (physical (normalize p)) (disk s1) with
          | Some d' => (true, _save_metadata now (set_disk d' s3))
          | None => (false, s3)
          end
        else (true, _save_metadata now s3)
    end.
Proof.
  intros He Hname.
  destruct (backup_file_frame now (physical (normalize p)) s)
    as (Bb & Bf & Bt & Bd & _ & _).
  cbv zeta in Bb, Bf, Bt, Bd.
  unfold delete_file, delete_file_steps, del_child, _free_blocks. mred.
  rewrite He. cbv beta iota. rewrite Hname. cbv beta iota.
  destruct (_backup_file now (physical (normalize p)) s) as [bk s1].
  cbn [snd] in *. cbv beta iota zeta.
  destruct (Dict.get fid (file_table s)) as [r|]; [|reflexivity].
  cbv beta iota. proj_norm. rewrite Bd, He. cbv beta iota.
  rewrite Hname. cbv beta iota. proj_norm. rewrite ?Bf, ?Bt, ?Bd.
  destruct (Disk.exists_ (physical (normalize p)) (disk s1)); [|reflexivity].
  cbv beta iota. proj_norm.
  now destruct (Disk.remove (physical (normalize p)) (disk s1)).
Qed.

End Runs.

Section CreateDeleteRead.

Context {H : Host}.

(** X11: after a [delete_file] that returns [True], a [read_file] of
    the path that does not find it in the cache returns nothing (compare
    C2, where the cache still holds the path). *)
Theorem X11_deleted_file_is_not_read
    (now now' : Z) (p : string) (s s' : state) (e : dir_entry) (fid : string) :
  NoDup (Dict.keys (read_cache s)) ->
  Dict.get (normalize p) (read_cache s) = None ->
  Dict.get (Py.dirname (normalize p)) (directory_structure s) = Some e ->
  NoDup (Dict.keys (d_contents e)) ->
  Dict.get (Py.basename (normalize p)) (d_contents e) = Some (CFile fid) ->
  delete_file now p s = (true, s') ->
  fst (read_file now' p s') = None.
Proof.
  intros Hnd Hmiss He Hnde Hname Hrun.
  rewrite (delete_file_run now p s e fid He Hname) in Hrun. cbv zeta in Hrun.
  destruct (backup_file_frame now (physical (normalize p)) s)
    as (_ & _ & _ & _ & Bc & _).
  cbv zeta in Bc.
  set (s1 := snd (_backup_file now (physical (normalize p)) s)) in *.
  destruct (Dict.get fid (file_table s)) as [r|]; [|discriminate].
  assert (Hs' : read_cache s' = read_cache s
                /\ directory_structure s'
                   = Dict.set (Py.dirname (normalize p))
                       (mk_dir_entry (d_created e) (d_modified e)
                          (Dict.del (Py.basename (normalize p)) (d_contents e)))
                       (directory_structure s)).
  { destruct (Disk.exists_ (physical (normalize p)) (disk s1)).
    - destruct (Disk.remove (physical (normalize p)) (disk s1)) as [d'|];
        [|discriminate].
      injection Hrun as <-.
      match goal with |- context [_save_metadata now ?base] =>
        destruct (save_metadata_memory now base) as (_ & _ & _ & Sd & Sc & _) end.
      cbv zeta in Sd, Sc. rewrite Sd, Sc. proj_norm. now split.
    - injection Hrun as <-.
      match goal with |- context [_save_metadata now ?base] =>
        destruct (save_metadata_memory now base) as (_ & _ & _ & Sd & Sc & _) end.
      cbv zeta in Sd, Sc. rewrite Sd, Sc. proj_norm. now split. }
  destruct Hs' as [Hc Hd].
  destruct (check_cache_expiration_frame now' s') as (Fd & _).
  cbv zeta in Fd.
  assert (Hnd' : NoDup (Dict.keys (read_cache s'))) by now rewrite Hc.
  pose proof (check_cache_expiration_cache now' s' Hnd' (normalize p)) as Hsub.
  unfold read_file. mred.
  destruct (Dict.get (normalize p) (read_cache (_check_cache_expiration now' s')))
    as [v|] eqn:Ec.
  - specialize (Hsub v eq_refl). rewrite Hc, Hmiss in Hsub. discriminate.
  - rewrite Fd, Hd, get_set_eq. cbn [d_contents].
    now rewrite (get_del_eq _ _ Hnde).
Qed.

(** X12: a [create_file] of a new name followed by a [delete_file] of
    the same path, both returning [True], puts both tables, the block size
    and the cache back as they were.  The free list is not the same list:
    the blocks the file held have moved from its front to its end; when
    the free list held enough blocks for the file it is a rearrangement of
    the old one. *)
Theorem X12_create_then_delete_restores_tables
    (now now' : Z) (p c : string) (s s1 s2 : state) (e : dir_entry) :
  Dict.get (Py.dirname (normalize p)) (directory_structure s) = Some e ->
  Dict.get (Py.basename (normalize p)) (d_contents e) = None ->
  Dict.get (md5 (normalize p)) (file_table s) = None ->
  create_file now p c s = (true, s1) ->
  delete_file now' p s1 = (true, s2) ->
  file_table s2 = file_table s
  /\ directory_structure s2 = directory_structure s
  /\ block_size s2 = block_size s
  /\ read_cache s2 = read_cache s
  /\ exists n,
       blocks_needed (Py.byte_len c) (block_size s) = Some n
       /\ free_blocks s2
          = (snd (allocate n (free_blocks s)) ++ fst (allocate n (free_blocks s)))%list
       /\ (0 <= n <= Py.len (free_blocks s) ->
           Permutation (free_blocks s2) (free_blocks s)).
Proof.
  intros He Hname Hfresh Hcreate Hdelete.
  rewrite (create_file_run now p c s e He Hname) in Hcreate.
  destruct (Disk.makedirs _ (disk s)) as [d1|]; [|discriminate].
  destruct (Disk.write _ _ d1) as [d2|]; [|discriminate].
  destruct (blocks_needed (Py.byte_len c) (block_size s)) as [n|] eqn:En;
    [|discriminate].
  destruct (allocate n (free_blocks s)) as [allocated free'] eqn:Ea.
  cbn [fst snd] in Hcreate |- *.
  injection Hcreate as Hs1.
  match type of Hs1 with _save_metadata now ?base = _ =>
    destruct (save_metadata_memory now base) as (Sb & Sf & St & Sd & Sc & _) end.
  cbv zeta in Sb, Sf, St, Sd, Sc. rewrite Hs1 in Sb, Sf, St, Sd, Sc.
  proj_norm. clear Hs1.
  set (e1 := mk_dir_entry (d_created e) (d_modified e)
               (Dict.set (Py.basename (normalize p))
                         (CFile (md5 (normalize p))) (d_contents e))) in *.
  assert (He1 : Dict.get (Py.dirname (normalize p)) (directory_structure s1) = Some e1)
    by (rewrite Sd; apply get_set_eq).
  assert (Hname1 : Dict.get (Py.basename (normalize p)) (d_contents e1)
                   = Some (CFile (md5 (normalize p))))
    by (cbn [e1 d_contents]; apply get_set_eq).
  rewrite (delete_file_run now' p s1 e1 (md5 (normalize p)) He1 Hname1) in Hdelete.
  cbv zeta in Hdelete.
  destruct (backup_file_frame now' (physical (normalize p)) s1)
    as (Bb & _ & _ & _ & Bc & _).
  cbv zeta in Bb, Bc.
  set (s1' := snd (_backup_file now' (physical (normalize p)) s1)) in *.
  rewrite St, get_set_eq in Hdelete.
  assert (Hs2 : block_size s2 = block_size s1'
                /\ read_cache s2 = read_cache s1'
                /\ file_table s2
                   = Dict.del (md5 (normalize p)) (file_table s1)
                /\ directory_structure s2
                   = Dict.set (Py.dirname (normalize p))
                       (mk_dir_entry (d_created e1) (d_modified e1)
                          (Dict.del (Py.basename (normalize p)) (d_contents e1)))
                       (directory_structure s1)
                /\ free_blocks s2 = (free_blocks s1 ++ allocated)%list).
  { rewrite <- St in Hdelete.
    destruct (Disk.exists_ (physical (normalize p)) (disk s1')).
    - destruct (Disk.remove (physical (normalize p)) (disk s1')) as [d'|];
        [|discriminate].
      injection Hdelete as <-.
      match goal with |- context [_save_metadata now' ?base] =>
        destruct (save_metadata_memory now' base) as (Tb & Tf & Tt & Td & Tc & _) end.
      cbv zeta in Tb, Tf, Tt, Td, Tc. rewrite Tb, Tf, Tt, Td, Tc. proj_norm.
      cbn [f_blocks]. repeat split.
    - injection Hdelete as <-.
      match goal with |- context [_save_metadata now' ?base] =>
        destruct (save_metadata_memory now' base) as (Tb & Tf & Tt & Td & Tc & _) end.
      cbv zeta in Tb, Tf, Tt, Td, Tc. rewrite Tb, Tf, Tt, Td, Tc. proj_norm.
      cbn [f_blocks]. repeat split. }
  destruct Hs2 as (Hb2 & Hc2 & Ht2 & Hd2 & Hf2).
  split; [rewrite Ht2, St; now apply del_set_absent|].
  split.
  { rewrite Hd2, Sd. cbn [e1 d_created d_modified d_contents].
    rewrite set_set, (del_set_absent _ _ _ Hname).
    apply set_same. rewrite He. now destruct e. }
  split; [now rewrite Hb2, Bb, Sb|].
  split; [now rewrite Hc2, Bc, Sc|].
  exists n. rewrite Ea. cbn [fst snd].
  split; [reflexivity|]. split; [now rewrite Hf2, Sf|].
  intros Hn. rewrite Hf2, Sf. rewrite (allocate_enough n _ Hn) in Ea.
  injection Ea as <- <-.
  eapply Permutation_trans; [apply Permutation_app_comm|].
  rewrite firstn_skipn. apply Permutation_refl.
Qed.

End CreateDeleteRead.

Lemma X11_deleted_file_is_not_read_witness :
  fst (read_file 6 "/docs/readme.txt"
         (snd (delete_file 5 "/docs/readme.txt" with_file))) = None.
Proof.
  pose proof (X11_deleted_file_is_not_read 5 6 "/docs/readme.txt" with_file
                (snd (delete_file 5 "/docs/readme.txt" with_file))
                (mk_dir_entry 1 1 [("readme.txt", CFile (md5 "/docs/readme.txt"))])
                (md5 "/docs/readme.txt")) as Hc.
  assert (Hnd : NoDup (Dict.keys (read_cache with_file)))
    by (vm_compute; constructor).
  assert (Hnde : NoDup (Dict.keys (d_contents
                   (mk_dir_entry 1 1 [("readme.txt", CFile (md5 "/docs/readme.txt"))]))))
    by (vm_compute; repeat constructor; cbn [In]; intuition discriminate).
  exact (Hc Hnd ltac:(vm_compute; reflexivity) ltac:(vm_compute; reflexivity)
            Hnde ltac:(vm_compute; reflexivity) ltac:(vm_compute; reflexivity)).
Defined.

Lemma X12_create_then_delete_restores_tables_witness :
  file_table (snd (delete_file 5 "/docs/readme.txt" with_file)) = file_table with_docs
  /\ directory_structure (snd (delete_file 5 "/docs/readme.txt" with_file))
     = directory_structure with_docs.
Proof.
  pose proof (X12_create_then_delete_restores_tables 2 5 "/docs/readme.txt" "Welcome"
                with_docs with_file
                (snd (delete_file 5 "/docs/readme.txt" with_file))
                (mk_dir_entry 1 1 [])) as Hc.
  specialize (Hc ltac:(vm_compute; reflexivity) ltac:(vm_compute; reflexivity)
                 ltac:(vm_compute; reflexivity) ltac:(vm_compute; reflexivity)
                 ltac:(vm_compute; reflexivity)).
  destruct Hc as (Ht & Hd & _). split; [exact Ht | exact Hd].
Defined.

(** ** What reading leaves untouched *)

Lemma check_cache_expiration_sizes (now : Z) (s : state) :
  cache_max_size (_check_cache_expiration now s) = cache_max_size s
  /\ cache_ttl (_check_cache_expiration now s) = cache_ttl s.
Proof.
  unfold _check_cache_expiration. generalize (expired_keys now s). intros l.
  revert s. induction l as [|key l IH]; intros s; cbn [fold_left]; [now split|].
  destruct (IH (expire_key s key)) as [I1 I2].
  destruct (expire_key_sizes s key) as [E1 E2]. split; congruence.
Qed.

Lemma add_to_cache_sizes (now : Z) (path content : string) (s : state) :
  cache_max_size (_add_to_cache now path content s) = cache_max_size s
  /\ cache_ttl (_add_to_cache now path content s) = cache_ttl s.
Proof.
  unfold _add_to_cache.
  destruct (Py.len (read_cache s) >=? cache_max_size s); [|now split].
  destruct (min_key (cache_timestamps s)) as [k0|]; [|now split].
  proj_norm. apply expire_key_sizes.
Qed.

Section ReadFrame.

Context {H : Host}.

Lemma restore_first_memory (fid k : string) (l : list string) (s : state) :
  snd (restore_first fid k l s)
  = set_disk (disk (snd (restore_first fid k l s))) s.
Proof.
  induction l as [|b l IH]; cbn [restore_first]; mred.
  - now destruct s.
  - destruct (Dict.get fid (file_table s)) as [r|]; [|now destruct s].
    cbv beta iota.
    destruct (_calculate_checksum (Py.join backup_dir b) (disk s) =? f_checksum r)%string.
    + mred. destruct (Disk.copy2 _ k (disk s)); [reflexivity | now destruct s].
    + exact IH.
Qed.

Lemma recover_file_memory (fid k : string) (s : state) :
  snd (_recover_file fid k s) = set_disk (disk (snd (_recover_file fid k s))) s.
Proof.
  unfold _recover_file. mred.
  destruct (Dict.mem fid (file_table s)); cbn [negb]; [|now destruct s].
  destruct (Disk.listdir backup_dir (disk s)) as [names|]; [|now destruct s].
  cbv beta iota.
  destruct (filter _ names) as [|b0 l0]; [now destruct s|].
  pose proof (restore_first_memory fid k (candidate_backups k names) s) as Hm.
  destruct (restore_first fid k (candidate_backups k names) s) as [[b|] s'];
    exact Hm.
Qed.

Lemma read_file_memory (now : Z) (p : string) (s : state) :
  let s' := snd (read_file now p s) in
  block_size s' = block_size s
  /\ free_blocks s' = free_blocks s
  /\ file_table s' = file_table s
  /\ directory_structure s' = directory_structure s
  /\ cache_max_size s' = cache_max_size s
  /\ cache_ttl s' = cache_ttl s.
Proof.
  intros s'. subst s'.
  destruct (check_cache_expiration_frame now s) as (Fd & Ft & _ & Ff & Fb).
  cbv zeta in Fd, Ft, Ff, Fb.
  destruct (check_cache_expiration_sizes now s) as [Fm Fl].
  set (s0 := _check_cache_expiration now s) in *.
  assert (Hadd : forall path content s1,
            s1 = set_disk (disk s1) s0 ->
            let s2 := _add_to_cache now path content s1 in
            block_size s2 = block_size s
            /\ free_blocks s2 = free_blocks s
            /\ file_table s2 = file_table s
            /\ directory_structure s2 = directory_structure s
            /\ cache_max_size s2 = cache_max_size s
            /\ cache_ttl s2 = cache_ttl s).
  { intros path content s1 Hs1 s2. subst s2.
    destruct (add_to_cache_frame now path content s1) as (Ad & At & _ & Af & Ab).
    cbv zeta in Ad, At, Af, Ab.
    destruct (add_to_cache_sizes now path content s1) as [Am Al].
    rewrite Ad, At, Af, Ab, Am, Al, Hs1. proj_norm. now repeat split. }
  assert (H0 : block_size s0 = block_size s
               /\ free_blocks s0 = free_blocks s
               /\ file_table s0 = file_table s
               /\ directory_structure s0 = directory_structure s
               /\ cache_max_size s0 = cache_max_size s
               /\ cache_ttl s0 = cache_ttl s) by now repeat split.
  assert (Hdisk : forall s1, s1 = set_disk (disk s1) s0 ->
            block_size s1 = block_size s
            /\ free_blocks s1 = free_blocks s
            /\ file_table s1 = file_table s
            /\ directory_structure s1 = directory_structure s
            /\ cache_max_size s1 = cache_max_size s
            /\ cache_ttl s1 = cache_ttl s).
  { intros s1 ->. exact H0. }
  unfold read_file. mred. fold s0.
  destruct (Dict.get (normalize p) (read_cache s0)); [exact H0|].
  destruct (Dict.get (Py.dirname (normalize p)) (directory_structure s0)) as [e|];
    [|exact H0].
  destruct (Dict.get (Py.basename (normalize p)) (d_contents e)) as [[fid|sub]|];
    [|exact H0|exact H0].
  destruct (Dict.get fid (file_table s0)) as [r|]; [|exact H0].
  cbv beta iota.
  destruct (negb (_calculate_checksum (physical (normalize p)) (disk s0)
                  =? f_checksum r)%string).
  - pose proof (recover_file_memory fid (physical (normalize p)) s0) as Hm.
    destruct (_recover_file fid (physical (normalize p)) s0) as [b s1].
    cbn [snd] in Hm. cbv beta iota.
    destruct (Disk.read (physical (normalize p)) (disk s1)) as [bytes|].
    + cbv beta iota. destruct (text_read bytes) as [content|]; cbn [snd].
      * now apply Hadd.
      * now apply Hdisk.
    + cbn [snd]. now apply Hdisk.
  - cbv beta iota.
    destruct (Disk.read (physical (normalize p)) (disk s0)) as [bytes|].
    + cbv beta iota. destruct (text_read bytes) as [content|]; cbn [snd].
      * apply Hadd. now destruct s0.
      * exact H0.
    + exact H0.
Qed.

(** X13: [read_file] changes nothing but the cache, its timestamps and
    -- when it restores a damaged file from a backup -- the disk: the
    block size, the free list, both tables and the cache settings are what
    they were, whatever it returns. *)
Theorem X13_read_file_keeps_tables (now : Z) (p : string) (s : state) :
  let s' := snd (read_file now p s) in
  block_size s' = block_size s
  /\ free_blocks s' = free_blocks s
  /\ file_table s' = file_table s
  /\ directory_structure s' = directory_structure s
  /\ cache_max_size s' = cache_max_size s
  /\ cache_ttl s' = cache_ttl s.
Proof. exact (read_file_memory now p s). Qed.

End ReadFrame.

(** ** Relations that every step of a method respects *)

Section Respects.

Variable R : state -> state -> Prop.
Hypothesis R_refl : forall s, R s s.
Hypothesis R_trans : forall s1 s2 s3, R s1 s2 -> R s2 s3 -> R s1 s3.

Lemma respects_ret {A} (a : A) : respects R (ret a).
Proof. intros s. apply R_refl. Qed.

Lemma respects_raise {A} : respects R (@raise A).
Proof. intros s. apply R_refl. Qed.

Lemma respects_get_state : respects R get_state.
Proof. intros s. apply R_refl. Qed.

Lemma respects_must {A} (o : option A) : respects R (must o).
Proof. intros s. destruct o; apply R_refl. Qed.

Lemma respects_bind {A B} (m : M A) (k : A -> M B) :
  respects R m -> (forall a, respects R (k a)) -> respects R (bind m k).
Proof.
  intros Hm Hk s. unfold bind. specialize (Hm s).
  destruct (m s) as [[a|] s1]; cbn [snd] in *; [|exact Hm].
  eapply R_trans; [exact Hm | apply Hk].
Qed.

Lemma respects_update (f : state -> state) :
  (forall s, R s (f s)) -> respects R (update f).
Proof. intros Hf s. apply Hf. Qed.

Lemma respects_on_disk (f : Disk.t -> option Disk.t) :
  (forall d s, R s (set_disk d s)) -> respects R (on_disk f).
Proof.
  intros Hd s. unfold on_disk. destruct (f (disk s)); cbn [snd];
    [apply Hd | apply R_refl].
Qed.

Lemma respects_call {A} (f : state -> A * state) :
  (forall s, R s (snd (f s))) -> respects R (call f).
Proof.
  intros Hf s. unfold call. specialize (Hf s). now destruct (f s).
Qed.

Lemma respects_call_unit (f : state -> state) :
  (forall s, R s (f s)) -> respects R (call_unit f).
Proof. intros Hf s. apply Hf. Qed.

Lemma respects_for_each {A} (l : list A) (body : A -> M unit) :
  (forall x, respects R (body x)) -> respects R (for_each l body).
Proof.
  intros Hb. induction l as [|x l IH]; cbn [for_each].
  - apply respects_ret.
  - apply respects_bind; [apply Hb | intros _; exact IH].
Qed.

Lemma respects_try_bool (m : M bool) :
  respects R m -> forall s, R s (snd (try_bool m s)).
Proof.
  intros Hm s. unfold try_bool. specialize (Hm s).
  now destruct (m s) as [[b|] s1].
Qed.

Lemma respects_try_unit (m : M unit) :
  respects R m -> forall s, R s (try_unit m s).
Proof. intros Hm s. apply Hm. Qed.

End Respects.

(** Splits a method body into its statements, for a relation that is
    reflexive by [refl] and transitive by [trans]. *)
Ltac respects_steps refl trans :=
  repeat match goal with
         | |- respects _ (ret _) => apply (respects_ret _ refl)
         | |- respects _ raise => apply (respects_raise _ refl)
         | |- respects _ get_state => apply (respects_get_state _ refl)
         | |- respects _ (must _) => apply (respects_must _ refl)
         | |- respects _ (bind _ _) => apply (respects_bind _ trans); [|intros ?]
         | |- respects _ (for_each _ _) =>
             apply (respects_for_each _ refl trans); intros ?
         | |- respects _ (if ?b then _ else _) => destruct b
         | |- respects _ (match ?x with _ => _ end) => destruct x
         end.

Section DirectoryFrame.

Context {H : Host}.

Lemma same_files_save_metadata (now : Z) (s : state) :
  same_files s (_save_metadata now s).
Proof.
  destruct (save_metadata_memory now s) as (S1 & S2 & S3 & _ & S5 & S6 & S7 & S8).
  cbv zeta in *. unfold same_files. now repeat split.
Qed.

Section Steps.

Variable R : state -> state -> Prop.
Hypothesis R_refl : forall s, R s s.
Hypothesis R_trans : forall s1 s2 s3, R s1 s2 -> R s2 s3 -> R s1 s3.
Hypothesis R_disk : forall d s, R s (set_disk d s).
Hypothesis R_dirs : forall v s, R s (set_directory_structure v s).
Hypothesis R_save : forall now s, R s (_save_metadata now s).

Lemma respects_finish (now : Z) (f : flow) : respects R (finish now f).
Proof.
  destruct f; cbn [finish]; respects_steps R_refl R_trans.
  apply respects_call_unit. apply R_save.
Qed.

Lemma respects_set_child (parent name : string) (c : child) :
  respects R (set_child parent name c).
Proof.
  unfold set_child. respects_steps R_refl R_trans. apply respects_update. intros s. apply R_dirs.
Qed.

Lemma respects_del_child (parent name : string) :
  respects R (del_child parent name).
Proof.
  unfold del_child. respects_steps R_refl R_trans. apply respects_update. intros s. apply R_dirs.
Qed.

Lemma respects_create_directory_depth (depth : nat) (now : Z) :
  forall (p : string) (s : state), R s (snd (create_directory_depth depth now p s)).
Proof.
  induction depth as [|depth IH]; intros p s; cbn [create_directory_depth].
  - apply R_refl.
  - apply respects_try_bool.
    apply (respects_bind _ R_trans); [|intros f; apply respects_finish].
    unfold create_directory_steps. respects_steps R_refl R_trans.
    + apply respects_call. apply IH.
    + apply (respects_on_disk _ R_refl). apply R_disk.
    + apply respects_update. intros s0. apply R_dirs.
    + apply respects_set_child.
Qed.

Lemma respects_remove_physical_directory (recursive : bool) (k : string) :
  respects R (remove_physical_directory recursive k).
Proof.
  unfold remove_physical_directory. respects_steps R_refl R_trans.
  - apply respects_update. intros s0. apply R_disk.
  - apply (respects_on_disk _ R_refl). apply R_disk.
Qed.

Lemma respects_delete_directory_depth (now : Z) :
  (forall now' p s, R s (snd (delete_file now' p s))) ->
  forall (depth : nat) (p : string) (recursive : bool) (s : state),
    R s (snd (delete_directory_depth depth now p recursive s)).
Proof.
  intros Hfile. induction depth as [|depth IH]; intros p recursive s;
    cbn [delete_directory_depth].
  - apply R_refl.
  - apply respects_try_bool.
    apply (respects_bind _ R_trans); [|intros f; apply respects_finish].
    unfold delete_directory_steps, delete_contents. respects_steps R_refl R_trans.
    all: try apply respects_remove_physical_directory.
    all: try apply respects_del_child.
    all: try (apply respects_update; intros s0; apply R_dirs).
    all: try (apply respects_call; first [apply Hfile | apply IH]).
Qed.

End Steps.

End DirectoryFrame.

(** ** The block counts of the records *)

Lemma sized_ext (s s' : state) :
  block_size s' = block_size s -> file_table s' = file_table s ->
  sized s -> sized s'.
Proof. unfold sized. intros -> ->. auto. Qed.

Lemma same_files_sized (s s' : state) : same_files s s' -> sized s -> sized s'.
Proof. intros (Hb & _ & Ht & _). now apply sized_ext. Qed.

(** A record with as many blocks as its size calls for may be bound. *)
Lemma sized_set (s : state) (id : string) (r : file_record) (s' : state) :
  block_size s' = block_size s ->
  file_table s' = Dict.set id r (file_table s) ->
  Py.len (f_blocks r) = block_count (block_size s) r ->
  sized s -> sized s'.
Proof.
  unfold sized. intros -> -> Hr (Hbs & Hnd & Hall).
  split; [exact Hbs|]. split; [now apply keys_set_NoDup|].
  intros id' r'. destruct (String.eqb_spec id id') as [<-|Hne].
  - rewrite get_set_eq. now intros [= <-].
  - rewrite get_set_neq by assumption. apply Hall.
Qed.

Lemma sized_del (s : state) (id : string) (s' : state) :
  block_size s' = block_size s ->
  file_table s' = Dict.del id (file_table s) ->
  sized s -> sized s'.
Proof.
  unfold sized. intros -> -> (Hbs & Hnd & Hall).
  split; [exact Hbs|]. split; [now apply keys_del_NoDup|].
  intros id' r' Hg. destruct (get_del_some _ _ _ _ Hg) as [Hg'| ->].
  - exact (Hall id' r' Hg').
  - rewrite get_del_eq in Hg by assumption. discriminate.
Qed.

(** The blocks allocated for a size are as many as the size calls for. *)
Lemma allocate_for_size (bs size n : Z) (free : list Z) :
  0 < bs -> 0 <= size ->
  blocks_needed size bs = Some n ->
  Py.len (fst (allocate n free)) = (size + bs - 1) / bs.
Proof.
  intros Hbs Hsize. unfold blocks_needed.
  destruct (bs =? 0); [discriminate|]. intros [= <-].
  apply allocate_length. apply Z.div_pos; lia.
Qed.

Section BlockCounts.

Context {H : Host}.

(** [write_file]: the lookup happens in the state [prepared]. *)
Lemma write_file_run (now : Z) (p c : string) (s : state) :
  write_file now p c s
  = let s1 := prepared now p s in
    match Dict.get (Py.dirname (normalize p)) (directory_structure s1) with
    | None => (false, s1)
    | Some entry =>
        match Dict.get (Py.basename (normalize p)) (d_contents entry) with
        | None => create_file now p c s1
        | Some (CDir _) => (false, s1)
        | Some (CFile fid) =>
            match Dict.get fid (file_table s1) with
            | None => (false, s1)
            | Some r =>
                let s2 := snd (_backup_file now (physical (normalize p))
                                 (_free_blocks (f_blocks r) s1)) in
                match Disk.write (physical (normalize p)) (text_encode c) (disk s2) with
                | None => (false, s2)
                | Some d3 =>
                    match blocks_needed (Py.byte_len c) (block_size s1) with
                    | None => (false, set_disk d3 s2)
                    | Some n =>
                        (true,
                         _save_metadata now
                           (_add_to_cache now (normalize p) c
                              (set_file_table
                                 (Dict.set fid
                                    (mk_file_record (f_path r) (Py.byte_len c)
                                       (fst (allocate n (free_blocks s2)))
                                       (f_created r) now
                                       (_calculate_checksum (physical (normalize p)) d3))
                                    (file_table s2))
                                 (set_free_blocks (snd (allocate n (free_blocks s2)))
                                    (set_disk d3 s2)))))
                    end
                end
            end
        end
    end.
Proof.
  assert (Heq : forall s', create_file now (normalize p) c s' = create_file now p c s').
  { intros s'. unfold create_file, create_file_steps. now rewrite normalize_idem. }
  unfold write_file, write_file_steps, _allocate_blocks. mred.
  rewrite invalidate_cache_directory_structure.
  unfold prepared.
  set (s0 := _invalidate_cache (normalize p) s).
  destruct (Dict.mem (Py.dirname (normalize p)) (directory_structure s));
    cbn [negb]; cbv beta iota zeta;
    [|destruct (create_directory now (Py.dirname (normalize p)) s0) as [b s1];
      cbn [snd]; cbv beta iota zeta].
  all: destruct (Dict.get (Py.dirname (normalize p)) (directory_structure _))
         as [entry|]; [|reflexivity]; cbv beta iota.
  all: destruct (Dict.get (Py.basename (normalize p)) (d_contents entry))
         as [[fid|sub]|]; cbv beta iota;
       [|reflexivity|rewrite Heq; now destruct (create_file now p c _)].
  all: destruct (Dict.get fid (file_table _)) as [r|] eqn:Er;
         [|reflexivity]; cbv beta iota.
  all: match goal with
       | |- context [_backup_file ?nw ?k (_free_blocks ?bl ?st)] =>
           destruct (backup_file_frame nw k (_free_blocks bl st))
             as (_ & _ & Bt & _); cbv zeta in Bt;
           destruct (_backup_file nw k (_free_blocks bl st)) as [bk s2];
           cbn [snd] in Bt |- *; cbv beta iota zeta;
           unfold _free_blocks in Bt; proj_norm
       end.
  all: destruct (Disk.write (physical (normalize p)) (text_encode c) (disk s2))
         as [d3|]; [|reflexivity]; cbv beta iota.
  all: destruct (blocks_needed (Py.byte_len c) (block_size _)) as [n|];
         [|reflexivity]; cbv beta iota; proj_norm.
  all: destruct (allocate n (free_blocks s2)) as [allocated free'];
         cbn [fst snd]; proj_norm; rewrite Bt, Er; reflexivity.
Qed.

Lemma create_file_refused (now : Z) (p c : string) (s : state) :
  match Dict.get (Py.dirname (normalize p)) (directory_structure s) with
  | None => True
  | Some e => Dict.mem (Py.basename (normalize p)) (d_contents e) = true
  end ->
  create_file now p c s = (false, s).
Proof.
  unfold create_file, create_file_steps. mred.
  destruct (Dict.get (Py.dirname (normalize p)) (directory_structure s)) as [e|];
    [|reflexivity].
  now intros ->.
Qed.

Lemma delete_file_refused (now : Z) (p : string) (s : state) :
  match Dict.get (Py.dirname (normalize p)) (directory_structure s) with
  | None => True
  | Some e =>
      match Dict.get (Py.basename (normalize p)) (d_contents e) with
      | Some (CFile _) => False
      | _ => True
      end
  end ->
  delete_file now p s = (false, s).
Proof.
  unfold delete_file, delete_file_steps. mred.
  destruct (Dict.get (Py.dirname (normalize p)) (directory_structure s)) as [e|];
    [|reflexivity].
  destruct (Dict.get (Py.basename (normalize p)) (d_contents e)) as [[fid|sub]|];
    [intros []|reflexivity|reflexivity].
Qed.

Lemma sized_save_metadata (now : Z) (s : state) :
  sized s -> sized (_save_metadata now s).
Proof.
  destruct (save_metadata_memory now s) as (Sb & _ & St & _). cbv zeta in Sb, St.
  now apply sized_ext.
Qed.

Lemma create_file_sized (now : Z) (p c : string) (s : state) :
  sized s -> sized (snd (create_file now p c s)).
Proof.
  intros Hs.
  destruct (Dict.get (Py.dirname (normalize p)) (directory_structure s)) as [e|] eqn:He.
  2:{ rewrite create_file_refused by now rewrite He. exact Hs. }
  destruct (Dict.get (Py.basename (normalize p)) (d_contents e)) as [ch|] eqn:Hname.
  { rewrite create_file_refused; [exact Hs|]. rewrite He. unfold Dict.mem.
    now rewrite Hname. }
  rewrite (create_file_run now p c s e He Hname).
  destruct (Disk.makedirs _ (disk s)) as [d1|]; [|exact Hs].
  destruct (Disk.write _ _ d1) as [d2|]; [|exact Hs].
  destruct (blocks_needed (Py.byte_len c) (block_size s)) as [n|] eqn:En; [|exact Hs].
  cbn [snd]. apply sized_save_metadata.
  eapply (sized_set s); [reflexivity | reflexivity | | exact Hs].
  cbn [f_blocks]. unfold block_count. cbn [f_size].
  apply allocate_for_size; [apply Hs | unfold Py.byte_len; lia | exact En].
Qed.

Lemma delete_file_sized (now : Z) (p : string) (s : state) :
  sized s -> sized (snd (delete_file now p s)).
Proof.
  intros Hs.
  destruct (Dict.get (Py.dirname (normalize p)) (directory_structure s)) as [e|] eqn:He.
  2:{ rewrite delete_file_refused by now rewrite He. exact Hs. }
  destruct (Dict.get (Py.basename (normalize p)) (d_contents e)) as [[fid|sub]|] eqn:Hname.
  2,3: rewrite delete_file_refused by (now rewrite He, Hname); exact Hs.
  rewrite (delete_file_run now p s e fid He Hname). cbv zeta.
  destruct (backup_file_frame now (physical (normalize p)) s)
    as (Bb & _ & Bt & _).
  cbv zeta in Bb, Bt.
  set (s1 := snd (_backup_file now (physical (normalize p)) s)) in *.
  assert (Hs1 : sized s1) by now apply (sized_ext s).
  destruct (Dict.get fid (file_table s)) as [r|]; [|exact Hs1].
  assert (Hdel : forall s3,
            block_size s3 = block_size s ->
            file_table s3 = Dict.del fid (file_table s) -> sized s3).
  { intros s3 Hb Ht. now apply (sized_del s fid). }
  destruct (Disk.exists_ (physical (normalize p)) (disk s1)).
  - destruct (Disk.remove (physical (normalize p)) (disk s1)) as [d'|]; cbn [snd].
    + apply sized_save_metadata. apply Hdel; proj_norm; [exact Bb | reflexivity].
    + apply Hdel; proj_norm; [exact Bb | reflexivity].
  - cbn [snd]. apply sized_save_metadata.
    apply Hdel; proj_norm; [exact Bb | reflexivity].
Qed.

Lemma sized_respected_disk (d : Disk.t) (s : state) : sized s -> sized (set_disk d s).
Proof. now apply sized_ext. Qed.

Lemma sized_respected_dirs (v : Dict.t dir_entry) (s : state) :
  sized s -> sized (set_directory_structure v s).
Proof. now apply sized_ext. Qed.

Lemma create_directory_sized (now : Z) (p : string) (s : state) :
  sized s -> sized (snd (create_directory now p s)).
Proof.
  unfold create_directory.
  apply (respects_create_directory_depth (fun s s' => sized s -> sized s')).
  - auto.
  - auto.
  - intros d s0. apply sized_respected_disk.
  - intros v s0. apply sized_respected_dirs.
  - intros now0 s0. apply sized_save_metadata.
Qed.

Lemma delete_directory_sized (now : Z) (p : string) (recursive : bool) (s : state) :
  sized s -> sized (snd (delete_directory now p recursive s)).
Proof.
  unfold delete_directory.
  apply (respects_delete_directory_depth (fun s s' => sized s -> sized s')).
  - auto.
  - auto.
  - intros d s0. apply sized_respected_disk.
  - intros v s0. apply sized_respected_dirs.
  - intros now0 s0. apply sized_save_metadata.
  - intros now0 p0 s0. apply delete_file_sized.
Qed.

Lemma prepared_sized (now : Z) (p : string) (s : state) :
  sized s -> sized (prepared now p s).
Proof.
  intros Hs. unfold prepared.
  assert (Hs0 : sized (_invalidate_cache (normalize p) s)).
  { unfold _invalidate_cache.
    destruct (Dict.mem (normalize (normalize p)) (read_cache s)); [|exact Hs].
    now apply (sized_ext s). }
  destruct (Dict.mem (Py.dirname (normalize p)) (directory_structure s)); [exact Hs0|].
  now apply create_directory_sized.
Qed.

Lemma write_file_sized (now : Z) (p c : string) (s : state) :
  sized s -> sized (snd (write_file now p c s)).
Proof.
  intros Hs. rewrite write_file_run. cbv zeta.
  pose proof (prepared_sized now p s Hs) as Hs1.
  set (s1 := prepared now p s) in *.
  destruct (Dict.get (Py.dirname (normalize p)) (directory_structure s1)) as [entry|];
    [|exact Hs1].
  destruct (Dict.get (Py.basename (normalize p)) (d_contents entry)) as [[fid|sub]|];
    [|exact Hs1|now apply create_file_sized].
  destruct (Dict.get fid (file_table s1)) as [r|] eqn:Er; [|exact Hs1].
  set (sf := _free_blocks (f_blocks r) s1).
  destruct (backup_file_frame now (physical (normalize p)) sf) as (Bb & _ & Bt & _).
  cbv zeta in Bb, Bt.
  change (block_size sf) with (block_size s1) in Bb.
  change (file_table sf) with (file_table s1) in Bt.
  set (s2 := snd (_backup_file now (physical (normalize p)) sf)) in *.
  assert (Hs2 : sized s2) by now apply (sized_ext s1).
  destruct (Disk.write (physical (normalize p)) (text_encode c) (disk s2)) as [d3|];
    [|exact Hs2].
  destruct (blocks_needed (Py.byte_len c) (block_size s1)) as [n|] eqn:En;
    [|now apply sized_respected_disk].
  cbn [snd]. apply sized_save_metadata.
  match goal with |- sized (_add_to_cache now (normalize p) c ?base) =>
    destruct (add_to_cache_frame now (normalize p) c base) as (_ & At & _ & _ & Ab)
  end.
  cbv zeta in At, Ab.
  eapply (sized_set s2); [rewrite Ab; reflexivity | rewrite At; reflexivity | | exact Hs2].
  cbn [f_blocks]. unfold block_count. cbn [f_size]. rewrite Bb.
  apply allocate_for_size; [apply Hs1 | unfold Py.byte_len; lia | exact En].
Qed.

(** X14: a state with a positive block size, a file table that binds no
    key twice and, in every record, as many blocks as the size calls for
    (the conditions of C7) stays such a state under every public operation
    on files and directories, whatever the arguments and whether the
    operation succeeds, fails or raises inside. *)
Theorem X14_operations_keep_block_counts
    (now : Z) (p c : string) (recursive : bool) (s : state) :
  sized s ->
  sized (snd (create_file now p c s))
  /\ sized (snd (write_file now p c s))
  /\ sized (snd (read_file now p s))
  /\ sized (snd (delete_file now p s))
  /\ sized (snd (create_directory now p s))
  /\ sized (snd (delete_directory now p recursive s)).
Proof.
  intros Hs.
  split; [now apply create_file_sized|].
  split; [now apply write_file_sized|].
  split.
  { destruct (read_file_memory now p s) as (Rb & _ & Rt & _). cbv zeta in Rb, Rt.
    now apply (sized_ext s). }
  split; [now apply delete_file_sized|].
  split; [now apply create_directory_sized|].
  now apply delete_directory_sized.
Qed.

End BlockCounts.


Lemma X14_operations_keep_block_counts_witness :
  sized fresh /\ sized (snd (write_file 1 "/a.txt" "a" fresh)).
Proof.
  assert (Hf : sized fresh).
  { assert (Ht : file_table fresh = []) by (vm_compute; reflexivity).
    unfold sized. rewrite Ht.
    split; [vm_compute; reflexivity|]. split; [constructor|].
    intros id r Hg. discriminate. }
  split; [exact Hf|].
  exact (proj1 (proj2 (X14_operations_keep_block_counts 1 "/a.txt" "a" false fresh Hf))).
Defined.

(** ** Starting a manager *)

Section Start.

Context {H : Host}.

Lemma makedirs_backup_dir (d d2 : Disk.t) :
  Disk.makedirs backup_dir d = Some d2 ->
  d2 = d \/ (Dict.get backup_dir d = None /\ d2 = Dict.set backup_dir Disk.Dir d).
Proof.
  unfold Disk.makedirs.
  change (S (String.length backup_dir)) with (S (S 7)).
  cbn [Disk.makedirs_fuel].
  change (Disk.node_at backup_dir d) with (Dict.get backup_dir d).
  destruct (Dict.get backup_dir d) as [[b|]|]; [discriminate|intros [= <-]; now left|].
  change (Py.rstrip backup_dir) with backup_dir.
  change (Py.dirname backup_dir) with "".
  change (Disk.node_at "" d) with (Some Disk.Dir).
  change (Disk.isdir "" d) with true. cbv iota.
  intros [= <-]. right. now split.
Qed.

Lemma exists_metadata_file (d : Disk.t) :
  Disk.exists_ metadata_file d = Dict.mem metadata_file d.
Proof.
  unfold Disk.exists_, Disk.lookup, Dict.mem.
  change (Disk.node_at metadata_file d) with (Dict.get metadata_file d).
  now destruct (Dict.get metadata_file d) as [[b|]|].
Qed.

Lemma write_metadata_file_new (b : string) (d : Disk.t) :
  Dict.get metadata_file d = None ->
  Disk.write metadata_file b d = Some (Dict.set metadata_file (Disk.File b) d).
Proof.
  intros Hg. unfold Disk.write.
  change (Py.endswith_slash metadata_file) with false. cbv iota.
  change (Disk.node_at metadata_file d) with (Dict.get metadata_file d).
  rewrite Hg.
  change (Disk.isdir (Py.dirname metadata_file) d) with true. reflexivity.
Qed.

(** X15: a manager started on a tree without a metadata file, whose
    backup directory is there or can be made, starts without raising as an
    empty file system: block size 4096, the free blocks [1 .. 1000], no
    file, the root as the only directory, an empty cache with room for 100
    entries that live 300 seconds.  The state satisfies the conditions of
    C7, the backup directory exists, and the metadata file holds the dump
    of this state. *)
Theorem X15_start_without_metadata (now : Z) (d d2 : Disk.t) :
  Disk.exists_ metadata_file d = false ->
  Disk.makedirs backup_dir d = Some d2 ->
  exists s',
    init now d = (Val tt, s')
    /\ block_size s' = 4096
    /\ free_blocks s' = Py.range 1 1001
    /\ file_table s' = Dict.empty
    /\ directory_structure s' = [("/", mk_dir_entry now now Dict.empty)]
    /\ read_cache s' = Dict.empty
    /\ cache_timestamps s' = Dict.empty
    /\ cache_max_size s' = 100
    /\ cache_ttl s' = 300
    /\ sized s'
    /\ Disk.isdir backup_dir (disk s') = true
    /\ Disk.read metadata_file (disk s')
       = Some (json_dump
                 (mk_snapshot 4096 (Py.range 1 1001) Dict.empty
                    [("/", mk_dir_entry now now Dict.empty)] now)).
Proof.
  intros Hex Hmk.
  assert (Hroot : Disk.makedirs "" d = Some d) by reflexivity.
  rewrite exists_metadata_file in Hex.
  assert (Hex2 : Dict.mem metadata_file d2 = false
                 /\ Dict.get backup_dir d2 = Some Disk.Dir).
  { destruct (makedirs_backup_dir d d2 Hmk) as [->|[Hnone ->]].
    - split; [exact Hex|].
      unfold Disk.makedirs in Hmk.
      change (S (String.length backup_dir)) with (S (S 7)) in Hmk.
      cbn [Disk.makedirs_fuel] in Hmk.
      change (Disk.node_at backup_dir d) with (Dict.get backup_dir d) in Hmk.
      destruct (Dict.get backup_dir d) as [[b|]|] eqn:E;
        [discriminate|reflexivity|].
      change (Py.rstrip backup_dir) with backup_dir in Hmk.
      change (Py.dirname backup_dir) with "" in Hmk.
      change (Disk.node_at "" d) with (Some Disk.Dir) in Hmk.
      change (Disk.isdir "" d) with true in Hmk. cbv iota in Hmk.
      injection Hmk as Hmk.
      assert (Hg : Dict.get backup_dir (Dict.set backup_dir Disk.Dir d) = Some Disk.Dir)
        by apply get_set_eq.
      rewrite Hmk, E in Hg. discriminate.
    - split; [|apply get_set_eq].
      unfold Dict.mem in *. rewrite get_set_neq by discriminate. exact Hex. }
  destruct Hex2 as [Hex2 Hbk].
  assert (Hnone : Dict.get metadata_file d2 = None).
  { unfold Dict.mem in Hex2. now destruct (Dict.get metadata_file d2). }
  unfold init, _load_metadata, _initialize_file_system, _save_metadata,
    save_metadata_try. mred. proj_norm.
  rewrite Hroot. proj_norm. rewrite Hmk. proj_norm.
  repeat (rewrite exists_metadata_file, Hex2; proj_norm; cbv beta iota).
  rewrite (write_metadata_file_new _ d2 Hnone). cbn [snd].
  eexists. split; [reflexivity|].
  proj_norm.
  do 8 (split; [reflexivity|]).
  split.
  { unfold sized. proj_norm. split; [reflexivity|]. split; [constructor|].
    intros id r Hg. discriminate. }
  split.
  - unfold Disk.isdir, Disk.lookup.
    change (Disk.node_at backup_dir ?x) with (Dict.get backup_dir x).
    rewrite get_set_neq by discriminate. now rewrite Hbk.
  - unfold snapshot_of. proj_norm.
    apply read_set_eq; reflexivity.
Qed.

End Start.

Lemma X15_start_without_metadata_witness :
  free_blocks (snd (init 7 [])) = Py.range 1 1001.
Proof.
  destruct (X15_start_without_metadata 7 [] [(backup_dir, Disk.Dir)]
              ltac:(vm_compute; reflexivity) ltac:(vm_compute; reflexivity))
    as (s' & Hrun & _ & Hfree & _).
  rewrite Hrun. exact Hfree.
Defined.


(** ** Rebuilding the tables from the disk *)

Lemma mem_set_mono {V} (k q : string) (v : V) (d : Dict.t V) :
  Dict.mem q d = true -> Dict.mem q (Dict.set k v d) = true.
Proof.
  unfold Dict.mem. destruct (String.eqb_spec k q) as [->|Hne].
  - now rewrite get_set_eq.
  - now rewrite get_set_neq.
Qed.

Lemma mem_set_eq {V} (k : string) (v : V) (d : Dict.t V) :
  Dict.mem k (Dict.set k v d) = true.
Proof. unfold Dict.mem. now rewrite get_set_eq. Qed.

(** *** Names and paths *)

Lemma length_chars (s : string) : length (Py.chars s) = String.length s.
Proof.
  unfold Py.chars. induction s as [|c s IH]; [reflexivity|].
  cbn [list_ascii_of_string length String.length]. now rewrite IH.
Qed.

Lemma length_str (l : list ascii) : String.length (Py.str l) = length l.
Proof. now rewrite <- length_chars, chars_str. Qed.

Lemma take_drop_while (f : ascii -> bool) (l : list ascii) :
  (Py.take_while f l ++ Py.drop_while f l)%list = l.
Proof.
  induction l as [|c l IH]; [reflexivity|].
  cbn [Py.take_while Py.drop_while]. destruct (f c); [|reflexivity].
  cbn [app]. now rewrite IH.
Qed.

Lemma drop_while_length (f : ascii -> bool) (l : list ascii) :
  (length (Py.drop_while f l) <= length l)%nat.
Proof.
  induction l as [|c l IH]; [apply le_n|].
  cbn [Py.drop_while]. destruct (f c); cbn [length]; lia.
Qed.

(** A path is longer than its directory when it has a name. *)
Lemma dirname_shorter (k : string) :
  Py.basename k <> "" -> (String.length (Py.dirname k) < String.length k)%nat.
Proof.
  unfold Py.basename, Py.dirname, Py.rcut. cbn [fst snd].
  set (r := rev (Py.chars k)). intros Hb.
  assert (Hlen : (length (Py.take_while Py.not_slash r)
                  + length (Py.drop_while Py.not_slash r) = String.length k)%nat).
  { rewrite <- length_app, take_drop_while. unfold r.
    now rewrite length_rev, length_chars. }
  assert (Hpos : (0 < length (Py.take_while Py.not_slash r))%nat).
  { destruct (Py.take_while Py.not_slash r) as [|c l]; [|cbn [length]; lia].
    now elim Hb. }
  set (head := Py.str (rev (Py.drop_while Py.not_slash r))).
  assert (Hhead : String.length head = length (Py.drop_while Py.not_slash r)).
  { unfold head. now rewrite length_str, length_rev. }
  destruct (forallb Py.is_slash (Py.chars head)); [lia|].
  unfold Py.rstrip. rewrite length_str, length_rev.
  pose proof (drop_while_length Py.is_slash (rev (Py.chars head))) as Hd.
  rewrite length_rev, length_chars in Hd. lia.
Qed.

(** A path that has a name does not end with a separator. *)
Lemma basename_endswith (k : string) :
  Py.basename k <> "" -> Py.endswith_slash k = false.
Proof.
  unfold Py.basename, Py.rcut, Py.endswith_slash. cbn [snd].
  destruct (rev (Py.chars k)) as [|c l]; [reflexivity|].
  cbn [Py.take_while]. unfold Py.not_slash.
  destruct (Py.is_slash c); [|reflexivity].
  cbn [negb rev]. intros Hb. now elim Hb.
Qed.

Lemma named_In (d : Disk.t) (k : string) (v : Disk.node) :
  named d = true -> In (k, v) d ->
  Py.basename k <> "" /\ Py.join (Py.dirname k) (Py.basename k) = k.
Proof.
  unfold named. rewrite forallb_forall. intros Hall Hin.
  specialize (Hall _ Hin). cbn [fst] in Hall.
  apply andb_prop in Hall. destruct Hall as [Hb Hj].
  apply negb_true_iff, String.eqb_neq in Hb. apply String.eqb_eq in Hj.
  now split.
Qed.

(** What a name listed in a directory stands for. *)
Lemma children_opens (d : Disk.t) (pp item : string) :
  named d = true -> Py.endswith_slash pp = false ->
  In item (Disk.children pp d) ->
  In (Py.join pp item) (Dict.keys d)
  /\ Py.endswith_slash (Py.join pp item) = false
  /\ (String.length pp < String.length (Py.join pp item))%nat
  /\ (Disk.isdir (Py.join pp item) d = true
      \/ exists b, Disk.read (Py.join pp item) d = Some b).
Proof.
  intros Hn Hpp Hin. unfold Disk.children in Hin.
  apply in_map_iff in Hin. destruct Hin as ([k v] & Hitem & Hin).
  apply filter_In in Hin. destruct Hin as [Hin Hdir].
  cbn [fst] in Hitem, Hdir. apply String.eqb_eq in Hdir.
  rewrite (rstrip_id pp Hpp) in Hdir.
  destruct (named_In d k v Hn Hin) as [Hb Hj].
  rewrite Hdir, Hitem in Hj. rewrite Hj.
  pose proof (basename_endswith k Hb) as Hk.
  pose proof (dirname_shorter k Hb) as Hlen. rewrite Hdir in Hlen.
  assert (Hkeys : In k (Dict.keys d)).
  { unfold Dict.keys. apply in_map_iff. now exists (k, v). }
  split; [exact Hkeys|]. split; [exact Hk|]. split; [exact Hlen|].
  assert (Hne : (k =? "")%string = false).
  { apply String.eqb_neq. intros ->. now elim Hb. }
  destruct (proj1 (keys_In_get k d) Hkeys) as [v' Hget].
  unfold Disk.isdir, Disk.read, Disk.lookup, Disk.node_at.
  rewrite (rstrip_id k Hk), Hne, Hget, Hk.
  destruct v' as [b|]; [right; now exists b | now left].
Qed.

(** *** The scan registers what it comes to *)

Lemma grows_refl (s : state) : grows s s.
Proof. unfold grows. auto. Qed.

Lemma grows_trans (s1 s2 s3 : state) : grows s1 s2 -> grows s2 s3 -> grows s1 s3.
Proof.
  unfold grows. intros (D1 & B1 & M1) (D2 & B2 & M2).
  repeat split; [congruence | congruence | auto].
Qed.

Lemma grows_set_dir (k : string) (e : dir_entry) (s : state) :
  grows s (set_directory_structure (Dict.set k e (directory_structure s)) s).
Proof.
  unfold grows. proj_norm. repeat split. intros v. apply mem_set_mono.
Qed.

Section ScanRegisters.

Context {H : Host}.

Variable self_call : string -> string -> state -> state.
Hypothesis self_grows : forall pp vp s, grows s (self_call pp vp s).

Lemma scan_item_grows (now : Z) (pp vp item : string) (s : state) :
  grows s (snd (scan_item self_call now pp vp item s)).
Proof.
  unfold scan_item, set_child, _allocate_blocks.
  destruct ((item =? metadata_file) || (item =? backup_dir))%string; mred;
    [apply grows_refl|].
  set (ipp := Py.join pp item).
  set (ivp := Py.replace Py.backslash Py.slash (Py.join vp item)).
  destruct (Disk.isdir ipp (disk s)).
  - cbn [snd]. eapply grows_trans; [apply grows_set_dir | apply self_grows].
  - destruct (Disk.read ipp (disk s)) as [bytes|]; [|apply grows_refl].
    cbv beta iota.
    destruct (blocks_needed (Py.byte_len bytes) (block_size s)) as [n|];
      [|apply grows_refl].
    cbv beta iota.
    destruct (allocate n (free_blocks s)) as [allocated free'].
    cbv beta iota. proj_norm.
    set (parent := Py.replace Py.backslash Py.slash (Py.dirname ivp)).
    destruct (Dict.mem parent (directory_structure s)) eqn:Em; cbn [negb];
      cbv beta iota; proj_norm.
    + unfold Dict.mem in Em.
      destruct (Dict.get parent (directory_structure s)) as [e|]; [|discriminate].
      cbv beta iota. cbn [snd]. unfold grows. proj_norm.
      repeat split. intros v. apply mem_set_mono.
    + rewrite get_set_eq. cbn [snd]. unfold grows. proj_norm.
      repeat split. intros v Hv. now do 2 apply mem_set_mono.
Qed.

(** A name that can be opened does not stop the loop. *)
Lemma scan_item_runs (now : Z) (pp vp item : string) (s : state) :
  block_size s <> 0 ->
  (Disk.isdir (Py.join pp item) (disk s) = true
   \/ exists b, Disk.read (Py.join pp item) (disk s) = Some b) ->
  fst (scan_item self_call now pp vp item s) = Val tt.
Proof.
  intros Hbs Hopen.
  unfold scan_item, set_child, _allocate_blocks.
  destruct ((item =? metadata_file) || (item =? backup_dir))%string; mred;
    [reflexivity|].
  set (ipp := Py.join pp item) in *.
  set (ivp := Py.replace Py.backslash Py.slash (Py.join vp item)).
  destruct (Disk.isdir ipp (disk s)); [reflexivity|].
  destruct Hopen as [Hd|[b Hb]]; [discriminate|]. rewrite Hb.
  cbv beta iota. unfold blocks_needed.
  destruct (block_size s =? 0) eqn:Ez; [apply Z.eqb_eq in Ez; contradiction|].
  cbv beta iota.
  match goal with |- context [allocate ?n ?f] =>
    destruct (allocate n f) as [allocated free'] end.
  cbv beta iota. proj_norm.
  set (parent := Py.replace Py.backslash Py.slash (Py.dirname ivp)).
  destruct (Dict.mem parent (directory_structure s)) eqn:Em; cbn [negb];
    cbv beta iota; proj_norm.
  - unfold Dict.mem in Em.
    now destruct (Dict.get parent (directory_structure s)) as [e|].
  - now rewrite get_set_eq.
Qed.

(** A directory is registered and then scanned. *)
Lemma scan_item_dir (now : Z) (pp vp item : string) (s : state) :
  ((item =? metadata_file) || (item =? backup_dir))%string = false ->
  Disk.isdir (Py.join pp item) (disk s) = true ->
  snd (scan_item self_call now pp vp item s)
  = self_call (Py.join pp item)
      (Py.replace Py.backslash Py.slash (Py.join vp item))
      (set_directory_structure
         (Dict.set (Py.replace Py.backslash Py.slash (Py.join vp item))
            (mk_dir_entry (getctime (Py.join pp item)) (getmtime (Py.join pp item))
                          Dict.empty)
            (directory_structure s)) s).
Proof.
  intros Hskip Hdir. unfold scan_item. rewrite Hskip. mred. now rewrite Hdir.
Qed.

(** The loop over the names of a directory comes to each of them. *)
Lemma scan_loop_reaches (now : Z) (pp vp : string) (d : Disk.t) (P : state -> Prop)
    (x : string) (l : list string) :
  (forall s s', grows s s' -> P s -> P s') ->
  (forall item, In item l ->
     Disk.isdir (Py.join pp item) d = true
     \/ exists b, Disk.read (Py.join pp item) d = Some b) ->
  (forall s, disk s = d -> block_size s <> 0 ->
             P (snd (scan_item self_call now pp vp x s))) ->
  In x l ->
  forall s, disk s = d -> block_size s <> 0 ->
            P (snd (for_each l (scan_item self_call now pp vp) s)).
Proof.
  intros Hmono. induction l as [|a l IH]; intros Hopen Hx Hin s Hd Hbs; [destruct Hin|].
  cbn [for_each]. unfold bind.
  pose proof (scan_item_runs now pp vp a s Hbs) as Hrun.
  rewrite Hd in Hrun. specialize (Hrun (Hopen a (or_introl eq_refl))).
  pose proof (scan_item_grows now pp vp a s) as Hg.
  assert (Hxa : a = x -> P (snd (scan_item self_call now pp vp a s))).
  { intros ->. now apply Hx. }
  destruct (scan_item self_call now pp vp a s) as [[[]|] s1]; cbn [fst snd] in *;
    [|discriminate].
  destruct Hg as (Gd & Gb & _).
  assert (Hloop : grows s1 (snd (for_each l (scan_item self_call now pp vp) s1))).
  { apply (respects_for_each grows grows_refl grows_trans).
    intros item s0. apply scan_item_grows. }
  destruct (string_dec a x) as [Heq|Hne].
  - apply (Hmono s1); [exact Hloop | now apply Hxa].
  - destruct Hin as [->|Hin]; [contradiction|].
    apply IH; [intros item Hi; apply Hopen; now right | exact Hx | exact Hin
              | congruence | congruence].
Qed.

End ScanRegisters.

Section ScanDepth.

Context {H : Host}.

Lemma scan_depth_grows (now : Z) (depth : nat) :
  forall pp vp s, grows s (_scan_directory_depth depth now pp vp s).
Proof.
  induction depth as [|depth IH]; intros pp vp s; cbn [_scan_directory_depth];
    [apply grows_refl|].
  apply respects_try_unit.
  respects_steps grows_refl grows_trans.
  intros s0. now apply scan_item_grows.
Qed.

(** With a bound on the depth that is at least the number of names to go
    down through, the scan registers the directory they lead to. *)
Lemma scan_depth_registers (now : Z) (d : Disk.t) (vp' : string) :
  named d = true ->
  forall (items : list string) (fuel : nat) (pp vp : string) (s : state)
         (pp' : string),
    disk s = d -> block_size s <> 0 ->
    Py.endswith_slash pp = false -> Disk.isdir pp d = true ->
    items <> [] -> (length items <= fuel)%nat ->
    descend d pp vp items = Some (pp', vp') ->
    Dict.mem vp' (directory_structure (_scan_directory_depth fuel now pp vp s))
    = true.
Proof.
  intros Hn. induction items as [|item rest IH];
    intros fuel pp vp s pp' Hd Hbs Hpp Hdir Hne Hlen Hdesc; [contradiction|].
  destruct fuel as [|f]; [cbn [length] in Hlen; lia|].
  cbn [length] in Hlen. cbn [descend] in Hdesc.
  destruct (existsb (String.eqb item) (Disk.children pp d)) eqn:Ein;
    [|discriminate].
  destruct ((item =? metadata_file) || (item =? backup_dir))%string eqn:Eskip;
    [discriminate|].
  destruct (Disk.isdir (Py.join pp item) d) eqn:Esub; [|discriminate].
  cbn [negb andb] in Hdesc.
  apply existsb_exists in Ein. destruct Ein as (x & Hin & Ex).
  apply String.eqb_eq in Ex. subst x.
  destruct (children_opens d pp item Hn Hpp Hin) as (_ & Hsl & _ & _).
  cbn [_scan_directory_depth]. unfold try_unit. mred.
  rewrite Hd. unfold Disk.listdir. rewrite Hdir.
  apply (scan_loop_reaches (_scan_directory_depth f now) (scan_depth_grows now f)
           now pp vp d
           (fun s0 => Dict.mem vp' (directory_structure s0) = true) item).
  - intros s0 s1 (_ & _ & Hm). apply Hm.
  - intros it Hit. now destruct (children_opens d pp it Hn Hpp Hit) as (_ & _ & _ & Ho).
  - intros s0 Hd0 Hbs0.
    rewrite (scan_item_dir _ now pp vp item s0 Eskip) by now rewrite Hd0.
    destruct rest as [|item' rest'].
    + cbn [descend] in Hdesc. injection Hdesc as _ <-.
      apply (scan_depth_grows now f). proj_norm. apply mem_set_eq.
    + apply (IH f _ _ _ pp'); proj_norm;
        [exact Hd0 | exact Hbs0 | exact Hsl | exact Esub | discriminate | lia
        | exact Hdesc].
  - exact Hin.
  - exact Hd.
  - exact Hbs.
Qed.

(** The directories on the way down are objects of the tree, each with a
    longer path than the one before: there are no more of them than the
    tree has objects. *)
Lemma descend_visited (d : Disk.t) :
  named d = true ->
  forall (items : list string) (pp vp : string) (r : string * string),
    Py.endswith_slash pp = false ->
    descend d pp vp items = Some r ->
    incl (visited pp items) (Dict.keys d)
    /\ (forall k, In k (visited pp items) ->
                  (String.length pp < String.length k)%nat)
    /\ NoDup (visited pp items).
Proof.
  intros Hn. induction items as [|item rest IH]; intros pp vp r Hpp Hdesc.
  - cbn [visited]. split; [intros k []|]. split; [intros k []|constructor].
  - cbn [descend] in Hdesc.
    destruct (existsb (String.eqb item) (Disk.children pp d)) eqn:Ein;
      [|discriminate].
    destruct ((item =? metadata_file) || (item =? backup_dir))%string; [discriminate|].
    destruct (Disk.isdir (Py.join pp item) d); [|discriminate].
    cbn [negb andb] in Hdesc.
    apply existsb_exists in Ein. destruct Ein as (x & Hin & Ex).
    apply String.eqb_eq in Ex. subst x.
    destruct (children_opens d pp item Hn Hpp Hin) as (Hkey & Hsl & Hlen & _).
    destruct (IH _ _ _ Hsl Hdesc) as (Hincl & Hlonger & Hnd).
    cbn [visited]. split; [|split].
    + intros k [<-|Hk]; [exact Hkey | now apply Hincl].
    + intros k [<-|Hk]; [exact Hlen|]. specialize (Hlonger k Hk). lia.
    + constructor; [|exact Hnd]. intros Hk. specialize (Hlonger _ Hk). lia.
Qed.

Lemma visited_length (pp : string) (items : list string) :
  length (visited pp items) = length items.
Proof.
  revert pp. induction items as [|item rest IH]; intros pp; [reflexivity|].
  cbn [visited length]. now rewrite IH.
Qed.

Lemma descend_depth (d : Disk.t) (items : list string) (vp : string)
    (r : string * string) :
  named d = true -> descend d "" vp items = Some r ->
  (length items <= length d)%nat.
Proof.
  intros Hn Hdesc.
  destruct (descend_visited d Hn items "" vp r eq_refl Hdesc) as (Hincl & _ & Hnd).
  rewrite <- (visited_length "" items).
  replace (length d) with (length (Dict.keys d)) by apply length_map.
  now apply NoDup_incl_length.
Qed.

End ScanDepth.

Lemma files_only_ext (s s' : state) :
  directory_structure s' = directory_structure s -> files_only s -> files_only s'.
Proof. unfold files_only. intros ->. auto. Qed.

Lemma files_only_add_dir (s : state) (k : string) (created modified : Z) (s' : state) :
  directory_structure s'
  = Dict.set k (mk_dir_entry created modified Dict.empty) (directory_structure s) ->
  files_only s -> files_only s'.
Proof.
  unfold files_only. intros -> Hs dir e name c.
  destruct (String.eqb_spec k dir) as [<-|Hne].
  - rewrite get_set_eq. intros [= <-]. discriminate.
  - rewrite get_set_neq by assumption. apply Hs.
Qed.

Lemma files_only_add_file (s : state) (k name : string) (e : dir_entry)
    (fid : string) (s' : state) :
  Dict.get k (directory_structure s) = Some e ->
  directory_structure s'
  = Dict.set k (mk_dir_entry (d_created e) (d_modified e)
                  (Dict.set name (CFile fid) (d_contents e)))
             (directory_structure s) ->
  files_only s -> files_only s'.
Proof.
  unfold files_only. intros He -> Hs dir e' name' c.
  destruct (String.eqb_spec k dir) as [<-|Hne].
  - rewrite get_set_eq. intros [= <-]. cbn [d_contents].
    destruct (String.eqb_spec name name') as [<-|Hne'].
    + rewrite get_set_eq. intros [= <-]. eauto.
    + rewrite get_set_neq by assumption. now apply (Hs k e).
  - rewrite get_set_neq by assumption. apply Hs.
Qed.

Section Scan.

Context {H : Host}.

(** One name of the loop of [_scan_directory]. *)
Lemma scan_item_keeps
    (self_call : string -> string -> state -> state) (now : Z)
    (physical_path virtual_path item : string) (s : state) :
  (forall pp vp s0, sized s0 /\ files_only s0 ->
                    sized (self_call pp vp s0) /\ files_only (self_call pp vp s0)) ->
  sized s /\ files_only s ->
  sized (snd (scan_item self_call now physical_path virtual_path item s))
  /\ files_only (snd (scan_item self_call now physical_path virtual_path item s)).
Proof.
  intros Hself [Hs Hf].
  unfold scan_item, set_child, _allocate_blocks.
  destruct ((item =? metadata_file) || (item =? backup_dir))%string; mred;
    [now split|].
  set (ipp := Py.join physical_path item).
  set (ivp := Py.replace Py.backslash Py.slash (Py.join virtual_path item)).
  destruct (Disk.isdir ipp (disk s)).
  - cbn [snd]. apply Hself. split.
    + now apply (sized_ext s).
    + now apply (files_only_add_dir s ivp (getctime ipp) (getmtime ipp)).
  - destruct (Disk.read ipp (disk s)) as [bytes|]; [|now split].
    cbv beta iota.
    destruct (blocks_needed (Py.byte_len bytes) (block_size s)) as [n|] eqn:En;
      [|now split].
    cbv beta iota.
    destruct (allocate n (free_blocks s)) as [allocated free'] eqn:Ea.
    cbv beta iota. proj_norm.
    set (rec := mk_file_record ivp (Py.byte_len bytes) allocated
                  (getctime ipp) (getmtime ipp) (_calculate_checksum ipp (disk s))).
    set (parent := Py.replace Py.backslash Py.slash (Py.dirname ivp)).
    set (s1 := set_file_table (Dict.set (md5 ivp) rec (file_table s))
                 (set_free_blocks free' s)).
    assert (Hs1 : sized s1 /\ files_only s1).
    { split; [|now apply (files_only_ext s)].
      apply (sized_set s (md5 ivp) rec); [reflexivity | reflexivity | | exact Hs].
      unfold block_count, rec. cbn [f_blocks f_size].
      replace allocated with (fst (allocate n (free_blocks s))) by now rewrite Ea.
      apply allocate_for_size; [apply Hs | unfold Py.byte_len; lia | exact En]. }
    destruct Hs1 as [Hs1 Hf1].
    change (directory_structure s1) with (directory_structure s).
    destruct (Dict.mem parent (directory_structure s)) eqn:Em; cbn [negb];
      cbv beta iota; proj_norm;
      change (directory_structure s1) with (directory_structure s).
    + unfold Dict.mem in Em.
      destruct (Dict.get parent (directory_structure s)) as [e|] eqn:Ee;
        [|discriminate].
      cbv beta iota. cbn [snd]. split.
      * now apply (sized_ext s1).
      * now apply (files_only_add_file s1 parent item e (md5 ivp)).
    + rewrite get_set_eq. cbn [snd d_created d_modified d_contents].
      set (s2 := set_directory_structure
                   (Dict.set parent (mk_dir_entry now now Dict.empty)
                             (directory_structure s)) s1).
      assert (Hs2 : sized s2 /\ files_only s2).
      { split; [now apply (sized_ext s1)|].
        now apply (files_only_add_dir s1 parent now now). }
      destruct Hs2 as [Hs2 Hf2]. split.
      * now apply (sized_ext s2).
      * apply (files_only_add_file s2 parent item (mk_dir_entry now now Dict.empty)
                 (md5 ivp)); [apply get_set_eq | | exact Hf2].
        cbn [s2 directory_structure set_directory_structure d_created d_modified d_contents].
        reflexivity.
Qed.

Lemma scan_directory_depth_keeps (depth : nat) (now : Z) :
  forall (physical_path virtual_path : string) (s : state),
    sized s /\ files_only s ->
    sized (_scan_directory_depth depth now physical_path virtual_path s)
    /\ files_only (_scan_directory_depth depth now physical_path virtual_path s).
Proof.
  induction depth as [|depth IH]; intros pp vp s Hs; cbn [_scan_directory_depth];
    [exact Hs|].
  set (R := fun s0 s1 : state =>
              sized s0 /\ files_only s0 -> sized s1 /\ files_only s1).
  assert (R_refl : forall s0, R s0 s0) by (intros s0 Hx; exact Hx).
  assert (R_trans : forall s1 s2 s3, R s1 s2 -> R s2 s3 -> R s1 s3)
    by (intros s1 s2 s3 H12 H23 Hx; auto).
  revert Hs. change (R s (try_unit
                            (s0 <- get_state ;;
                             items <- must (Disk.listdir pp (disk s0)) ;;
                             for_each items
                               (scan_item (_scan_directory_depth depth now) now pp vp))
                            s)).
  apply respects_try_unit.
  respects_steps R_refl R_trans.
  intros s0 Hx. now apply scan_item_keeps.
Qed.


End Scan.


(** ** Generations of the metadata *)

Section Generations.

Context {H : Host}.

(** A save that goes through. *)
Lemma save_metadata_done (now : Z) (s s' : state) (prev : string) :
  save_metadata_try now s = (Val tt, s') ->
  Disk.read metadata_file (disk s) = Some prev ->
  Disk.isdir (metadata_backup_of now) (disk s) = false ->
  s' = set_disk (disk s') s
  /\ Py.endswith_slash (metadata_backup_of now) = false
  /\ Disk.read (metadata_backup_of now) (disk s') = Some prev
  /\ Disk.read metadata_file (disk s') = Some (json_dump (snapshot_of now s))
  /\ forall x, Disk.node_at x (disk s) = Some Disk.Dir ->
               Disk.node_at x (disk s') = Some Disk.Dir.
Proof.
  intros Hrun Hprev Hnd. unfold metadata_backup_of in *.
  unfold save_metadata_try in Hrun. revert Hrun. mred.
  assert (Hex : Disk.exists_ metadata_file (disk s) = true).
  { unfold Disk.exists_. unfold Disk.read in Hprev.
    now destruct (Disk.lookup metadata_file (disk s)). }
  rewrite Hex.
  destruct (Disk.copy2 metadata_file _ (disk s)) as [d1|] eqn:Ec; [|discriminate].
  proj_norm.
  destruct (Disk.write metadata_file _ d1) as [d2|] eqn:Ew; [|discriminate].
  intros [= <-]. proj_norm.
  pose proof (fun x => copy2_node_at _ _ _ _ x Ec) as Hn1.
  unfold Disk.copy2 in Ec. rewrite Hprev, Hnd in Ec.
  destruct (write_inv _ _ _ _ Ec) as [Hw1 Hd1].
  destruct (writable_inv _ _ Hw1) as (Hslash & _ & _).
  assert (Hne : (Py.join backup_dir ("metadata_backup_" ++ strftime now ++ ".json")
                 =? "")%string = false) by (rewrite metadata_backup_path; reflexivity).
  assert (Hb1 : Disk.read (Py.join backup_dir
                             ("metadata_backup_" ++ strftime now ++ ".json")) d1
                = Some prev).
  { rewrite Hd1. now apply read_set_eq. }
  destruct (write_inv _ _ _ _ Ew) as [Hw2 Hd2].
  split; [reflexivity|]. split; [exact Hslash|]. split.
  - rewrite <- Hb1. apply (write_read_other _ _ _ _ _ Ew Hslash).
    rewrite metadata_backup_path. discriminate.
  - split.
    + rewrite Hd2. unfold snapshot_of. proj_norm. apply read_set_eq; reflexivity.
    + intros x Hx. apply (proj1 (write_node_at _ _ _ _ x Ew)).
      apply (proj1 (Hn1 x)). exact Hx.
Qed.

(** X17: when the metadata file exists and [_save_metadata] goes
    through, the file holds the dump of the state saved, and the backup the
    save has written under the name of its own time holds what the file
    held before: a metadata backup is one generation older than the time
    in its name says.  Nothing but the disk changes. *)
Theorem X17_metadata_backup_is_previous_generation
    (now : Z) (s s' : state) (prev : string) :
  save_metadata_try now s = (Val tt, s') ->
  Disk.read metadata_file (disk s) = Some prev ->
  Disk.isdir (metadata_backup_of now) (disk s) = false ->
  _save_metadata now s = s'
  /\ s' = set_disk (disk s') s
  /\ Disk.read metadata_file (disk s') = Some (json_dump (snapshot_of now s))
  /\ Disk.read (metadata_backup_of now) (disk s') = Some prev.
Proof.
  intros Hrun Hprev Hnd.
  destruct (save_metadata_done now s s' prev Hrun Hprev Hnd)
    as (Hmem & _ & Hbackup & Hfile & _).
  split; [unfold _save_metadata, try_unit; now rewrite Hrun|].
  now repeat split.
Qed.

End Generations.

Lemma X17_metadata_backup_is_previous_generation_witness :
  Disk.read (metadata_backup_of 6) (disk (_save_metadata 6 with_docs))
  = Disk.read metadata_file (disk with_docs).
Proof.
  assert (Hprev : exists prev, Disk.read metadata_file (disk with_docs) = Some prev)
    by (vm_compute; eexists; reflexivity).
  destruct Hprev as [prev Hprev].
  assert (Hrun : exists s', save_metadata_try 6 with_docs = (Val tt, s'))
    by (vm_compute; eexists; reflexivity).
  destruct Hrun as [s' Hrun].
  assert (Hnd : Disk.isdir (metadata_backup_of 6) (disk with_docs) = false)
    by (vm_compute; reflexivity).
  destruct (X17_metadata_backup_is_previous_generation 6 with_docs s' prev
              Hrun Hprev Hnd) as (Hs & _ & _ & Hb).
  rewrite Hs, Hb, Hprev. reflexivity.
Defined.

Section Restart.

Context {H : Host}.

(** [_recover_metadata] on a backup directory that can be listed. *)
Lemma recover_metadata_run (now : Z) (s : state) (names : list string) :
  Disk.listdir backup_dir (disk s) = Some names ->
  _recover_metadata now s
  = (Val tt,
     match metadata_backups names with
     | [] => rescan now s
     | _ :: _ =>
         match load_backup (Py.join backup_dir (latest_backup names)) (disk s) with
         | Some data => adopt data s
         | None => rescan now s
         end
     end).
Proof.
  intros Hls. unfold _recover_metadata, load_from. mred.
  rewrite Hls. cbv beta iota.
  unfold latest_backup, load_backup.
  destruct (metadata_backups names) as [|f fs]; [reflexivity|].
  destruct (Disk.read _ (disk s)) as [b|]; [|reflexivity].
  now destruct (json_load b).
Qed.

(** X18: let the metadata file hold a generation [prev], let a save go
    through and write its backup, and let
    [simulate_disk_crash("metadata")] then damage the metadata file.  A
    manager started on this tree fails to load the file and recovers from
    the backup that sorts last; when that is the backup of the last save,
    the manager starts with the tables of [prev]: the state before the
    last save, not the state that was saved. *)
Theorem X18_restart_after_crash_loses_last_save
    (now now' : Z) (s s1 s2 : state) (sample : list string)
    (prev : string) (data : json_data) :
  Disk.read metadata_file (disk s) = Some prev ->
  Disk.isdir (metadata_backup_of now) (disk s) = false ->
  save_metadata_try now s = (Val tt, s1) ->
  simulate_disk_crash "metadata" sample s1 = (Val tt, s2) ->
  json_load (text_encode "{{{Invalid JSON!!") = None ->
  json_load prev = Some data ->
  Py.join backup_dir (latest_backup (backup_names (disk s2))) = metadata_backup_of now ->
  Disk.read metadata_file (disk s1) = Some (json_dump (snapshot_of now s))
  /\ init now' (disk s2)
     = (Val tt,
        adopt data
          (mk_state 4096 [] Dict.empty Dict.empty Dict.empty 100 300 Dict.empty
                    (disk s2))).
Proof.
  intros Hprev Hnd Hsave Hcrash Hbad Hgood Hlatest.
  destruct (save_metadata_done now s s1 prev Hsave Hprev Hnd)
    as (_ & Hslash & Hbackup & Hfile & _).
  split; [exact Hfile|].
  unfold simulate_disk_crash in Hcrash.
  change ("metadata" =? "metadata")%string with true in Hcrash. cbv iota in Hcrash.
  unfold on_disk in Hcrash.
  destruct (Disk.write metadata_file (text_encode "{{{Invalid JSON!!") (disk s1))
    as [d2|] eqn:Ew; [|discriminate].
  injection Hcrash as <-. proj_norm.
  destruct (write_inv _ _ _ _ Ew) as [_ Hd2].
  assert (Hmeta : Disk.read metadata_file d2 = Some (text_encode "{{{Invalid JSON!!")).
  { rewrite Hd2. apply read_set_eq; reflexivity. }
  assert (Hbackup2 : Disk.read (metadata_backup_of now) d2 = Some prev).
  { rewrite <- Hbackup. apply (write_read_other _ _ _ _ _ Ew Hslash).
    unfold metadata_backup_of. rewrite metadata_backup_path. discriminate. }
  assert (Hnames : exists names,
            Disk.listdir backup_dir d2 = Some names
            /\ backup_names d2 = names
            /\ metadata_backups names <> []).
  { unfold backup_names in *.
    destruct (Disk.listdir backup_dir d2) as [names|].
    - exists names. split; [reflexivity|]. split; [reflexivity|].
      intros Hnil. unfold latest_backup in Hlatest. rewrite Hnil in Hlatest.
      unfold metadata_backup_of in Hlatest. rewrite metadata_backup_path in Hlatest.
      discriminate.
    - exfalso. unfold latest_backup in Hlatest.
      unfold metadata_backup_of in Hlatest. rewrite metadata_backup_path in Hlatest.
      discriminate. }
  destruct Hnames as (names & Hls & Hbn & Hne).
  rewrite Hbn in Hlatest.
  assert (Hdir : Disk.isdir backup_dir d2 = true).
  { unfold Disk.listdir in Hls. now destruct (Disk.isdir backup_dir d2). }
  assert (Hex : Disk.exists_ metadata_file d2 = true).
  { unfold Disk.exists_. unfold Disk.read in Hmeta.
    now destruct (Disk.lookup metadata_file d2). }
  assert (Hroot : Disk.makedirs "" d2 = Some d2) by reflexivity.
  unfold init, _load_metadata, load_from. mred. proj_norm.
  rewrite Hroot. proj_norm. rewrite (makedirs_present _ _ Hdir). proj_norm.
  rewrite Hex. proj_norm. rewrite Hmeta. cbv beta iota. rewrite Hbad.
  cbv beta iota.
  rewrite (recover_metadata_run now' _ names) by (proj_norm; exact Hls).
  destruct (metadata_backups names) as [|f fs]; [contradiction|].
  unfold load_backup. proj_norm. rewrite Hlatest, Hbackup2, Hgood. reflexivity.
Qed.

End Restart.

Lemma X18_restart_after_crash_loses_last_save_witness :
  exists s1 s2,
    save_metadata_try 6 one_generation = (Val tt, s1)
    /\ simulate_disk_crash "metadata" [] s1 = (Val tt, s2)
    /\ directory_structure s2 = [("/", mk_dir_entry 0 0 Dict.empty)]
    /\ directory_structure (snd (init 9 (disk s2))) = Dict.empty.
Proof.
  assert (Hsave : exists s1, save_metadata_try 6 one_generation = (Val tt, s1))
    by (vm_compute; eexists; reflexivity).
  destruct Hsave as [s1 Hsave].
  assert (Hcrash : exists s2, simulate_disk_crash "metadata" [] s1 = (Val tt, s2)).
  { assert (Hs1 : s1 = snd (save_metadata_try 6 one_generation))
      by now rewrite Hsave.
    rewrite Hs1. vm_compute. eexists. reflexivity. }
  destruct Hcrash as [s2 Hcrash].
  exists s1, s2. split; [exact Hsave|]. split; [exact Hcrash|].
  assert (Hs2 : s2 = snd (simulate_disk_crash "metadata" []
                            (snd (save_metadata_try 6 one_generation)))).
  { rewrite Hsave. cbn [snd]. now rewrite Hcrash. }
  split; [rewrite Hs2; vm_compute; reflexivity|].
  pose proof (X18_restart_after_crash_loses_last_save 6 9 one_generation s1 s2 []
                "{}" (mk_json_data None None None None)) as Hc.
  assert (Hlatest : Py.join backup_dir (latest_backup (backup_names (disk s2)))
                    = metadata_backup_of 6)
    by (rewrite Hs2; vm_compute; reflexivity).
  specialize (Hc ltac:(vm_compute; reflexivity) ltac:(vm_compute; reflexivity)
                 Hsave Hcrash ltac:(vm_compute; reflexivity)
                 ltac:(vm_compute; reflexivity) Hlatest).
  destruct Hc as [_ Hinit]. rewrite Hinit. reflexivity.
Defined.

(** ** Listing a directory *)

Lemma chars_app (x y : string) : Py.chars (x ++ y) = (Py.chars x ++ Py.chars y)%list.
Proof.
  unfold Py.chars. induction x as [|c x IH]; [reflexivity|].
  cbn [String.append list_ascii_of_string app]. now rewrite IH.
Qed.

Lemma replace_app (a b : ascii) (x y : string) :
  Py.replace a b (x ++ y) = Py.replace a b x ++ Py.replace a b y.
Proof.
  induction x as [|c x IH]; [reflexivity|].
  cbn [String.append]. rewrite !replace_cons. cbn [String.append]. now rewrite IH.
Qed.

Lemma endswith_slash_app (x : string) : Py.endswith_slash (x ++ "/") = true.
Proof.
  unfold Py.endswith_slash. rewrite chars_app, rev_app_distr. reflexivity.
Qed.

Lemma drop_last_app (x : string) : Py.drop_last (x ++ "/") = x.
Proof.
  unfold Py.drop_last. rewrite chars_app.
  change (Py.chars "/") with ["/"%char]. rewrite removelast_last. apply str_chars.
Qed.

Lemma normalize_app_slash (p : string) :
  p <> "" -> normalize (p ++ "/") = normalize p ++ "/".
Proof.
  intros Hp. unfold normalize. rewrite replace_app.
  change (Py.replace Py.backslash Py.slash "/") with "/".
  destruct p as [|c p]; [contradiction|].
  rewrite replace_cons. cbn [String.append].
  rewrite !startswith_slash_cons.
  destruct (Ascii.eqb _ Py.slash); reflexivity.
Qed.

(** The listing loop on names none of which is in the accumulator. *)
Lemma set_fresh {V} (k : string) (v : V) (d : Dict.t V) :
  ~ In k (Dict.keys d) -> Dict.set k v d = (d ++ [(k, v)])%list.
Proof.
  induction d as [|[k0 v0] d IH]; [reflexivity|].
  cbn [Dict.keys map fst In Dict.set app]. intros Hn.
  destruct (String.eqb_spec k0 k) as [->|Hne]; [exfalso; auto|].
  f_equal. apply IH. auto.
Qed.

Lemma list_items_describe (s : state) (items : Dict.t child) :
  NoDup (Dict.keys items) ->
  forall acc,
    (forall k, In k (Dict.keys items) -> ~ In k (Dict.keys acc)) ->
    list_items s items acc
    = option_map (fun l => (acc ++ l)%list) (describe_all s items).
Proof.
  induction items as [|[name c] items IH]; intros Hnd acc Hfresh.
  - cbn [list_items describe_all option_map]. now rewrite app_nil_r.
  - cbn [Dict.keys map fst] in Hnd. apply NoDup_cons_iff in Hnd.
    destruct Hnd as [Hname Hnd].
    assert (Hstep : forall i,
              list_items s items (Dict.set name i acc)
              = option_map (fun l => (acc ++ (name, i) :: l)%list)
                           (describe_all s items)).
    { intros i. rewrite IH; [|exact Hnd|].
      - rewrite set_fresh by (apply Hfresh; now left).
        destruct (describe_all s items); cbn [option_map]; [|reflexivity].
        now rewrite <- app_assoc.
      - intros k Hk Hin. apply keys_set_incl in Hin. destruct Hin as [->|Hin].
        + contradiction.
        + apply (Hfresh k); [now right | exact Hin]. }
    cbn [list_items describe_all]. destruct c as [fid|sub]; cbn [describe].
    + destruct (Dict.get fid (file_table s)) as [r|]; cbn [option_map];
        [|reflexivity].
      rewrite Hstep. now destruct (describe_all s items).
    + destruct (Dict.get sub (directory_structure s)) as [e|]; cbn [option_map];
        [|reflexivity].
      rewrite Hstep. now destruct (describe_all s items).
Qed.

(** X19: [list_directory] drops exactly one trailing slash: for a path
    followed by a slash it looks up the normalized path itself.  So a path
    that does not end with a slash once normalized and the same path
    followed by a slash give the same listing.  For a registered directory
    whose entries have distinct names the listing holds every entry under
    its name, in the order of the directory: a file with the size and
    times of its record, a subdirectory with its times and the number of
    its entries.  If the record of one file or the entry of one
    subdirectory is missing, there is no listing at all. *)
Theorem X19_list_directory_describes_entries (p : string) (s : state) :
  list_path (p ++ "/") = normalize p
  /\ (Py.endswith_slash (normalize p) = false ->
      list_directory (p ++ "/") s = list_directory p s)
  /\ forall e,
       Dict.get (list_path p) (directory_structure s) = Some e ->
       NoDup (Dict.keys (d_contents e)) ->
       list_directory p s
       = option_map
           (mk_listing (if (Py.basename (list_path p) =? "")%string then "/"
                        else Py.basename (list_path p))
                       (list_path p) (d_created e) (d_modified e))
           (describe_all s (d_contents e)).
Proof.
  assert (Hone : list_path (p ++ "/") = normalize p).
  { destruct (String.eqb_spec p "") as [->|Hp]; [reflexivity|].
    assert (Hn : normalize p <> "").
    { pose proof (normalize_startswith p) as Hs.
      destruct (normalize p); [discriminate | discriminate]. }
    unfold list_path. rewrite (normalize_app_slash p Hp).
    rewrite endswith_slash_app, drop_last_app, andb_true_r.
    destruct (normalize p) as [|c n]; [contradiction|].
    cbn [String.append].
    assert (E : (String c (n ++ "/") =? "/")%string = false).
    { cbn [String.eqb]. destruct (Ascii.eqb c "/"); [|reflexivity].
      now destruct n. }
    rewrite E. reflexivity. }
  split; [exact Hone|]. split.
  - intros Hend.
    assert (Hpath : list_path (p ++ "/") = list_path p).
    { rewrite Hone. unfold list_path. now rewrite Hend, andb_false_r. }
    unfold list_directory. now rewrite Hpath.
  - intros e He Hnd. unfold list_directory. rewrite He.
    rewrite (list_items_describe s (d_contents e) Hnd Dict.empty)
      by (intros k _ []).
    now destruct (describe_all s (d_contents e)).
Qed.

Lemma X19_list_directory_describes_entries_witness :
  list_directory "/docs/" with_readme = list_directory "/docs" with_readme
  /\ option_map l_contents (list_directory "/docs" with_readme)
     = Some [("readme.txt", IFile 7 2 2)].
Proof.
  destruct (X19_list_directory_describes_entries "/docs" with_readme)
    as (_ & Hslash & Hlist).
  split; [apply Hslash; vm_compute; reflexivity|].
  pose proof (Hlist (mk_dir_entry 1 1 [("readme.txt", CFile (md5 "/docs/readme.txt"))]))
    as Hl.
  assert (Hnd : NoDup (Dict.keys (d_contents
                  (mk_dir_entry 1 1 [("readme.txt", CFile (md5 "/docs/readme.txt"))]))))
    by (vm_compute; repeat constructor; cbn [In]; intuition discriminate).
  specialize (Hl ltac:(vm_compute; reflexivity) Hnd).
  rewrite Hl. vm_compute. reflexivity.
Defined.

(** ** Directories *)

Lemma same_files_refl (s : state) : same_files s s.
Proof. unfold same_files. now repeat split. Qed.

Lemma same_files_trans (s1 s2 s3 : state) :
  same_files s1 s2 -> same_files s2 s3 -> same_files s1 s3.
Proof.
  unfold same_files.
  intros (A1 & A2 & A3 & A4 & A5 & A6 & A7) (B1 & B2 & B3 & B4 & B5 & B6 & B7).
  repeat split; congruence.
Qed.

Lemma same_files_set_disk (d : Disk.t) (s : state) : same_files s (set_disk d s).
Proof. unfold same_files. now repeat split. Qed.

Lemma same_files_set_directory_structure (v : Dict.t dir_entry) (s : state) :
  same_files s (set_directory_structure v s).
Proof. unfold same_files. now repeat split. Qed.

Section Directories.

Context {H : Host}.

(** One level of [create_directory]. *)
Lemma create_directory_depth_run (depth : nat) (now : Z) (p : string) (s : state) :
  create_directory_depth (S depth) now p s
  = if Dict.mem (normalize p) (directory_structure s) then (false, s)
    else
      let parent := Py.dirname (normalize p) in
      let r := if negb (parent =? "")%string
                  && negb (Dict.mem parent (directory_structure s))
               then create_directory_depth depth now parent s
               else (true, s) in
      if negb (fst r) then (false, snd r)
      else
        match Disk.makedirs (physical (normalize p)) (disk (snd r)) with
        | None => (false, snd r)
        | Some d1 =>
            let s2 := set_directory_structure
                        (Dict.set (normalize p) (mk_dir_entry now now Dict.empty)
                                  (directory_structure (snd r)))
                        (set_disk d1 (snd r)) in
            if negb (normalize p =? "/")%string then
              match Dict.get parent (directory_structure s2) with
              | None => (false, s2)
              | Some e =>
                  (true,
                   _save_metadata now
                     (set_directory_structure
                        (Dict.set parent
                           (mk_dir_entry (d_created e) (d_modified e)
                              (Dict.set (Py.basename (normalize p))
                                        (CDir (normalize p)) (d_contents e)))
                           (directory_structure s2))
                        s2))
              end
            else (true, _save_metadata now s2)
        end.
Proof.
  cbn [create_directory_depth]. unfold create_directory_steps, set_child. mred.
  destruct (Dict.mem (normalize p) (directory_structure s)); [reflexivity|].
  cbv zeta.
  destruct (negb (Py.dirname (normalize p) =? "")%string
            && negb (Dict.mem (Py.dirname (normalize p)) (directory_structure s))).
  - destruct (create_directory_depth depth now (Py.dirname (normalize p)) s)
      as [ok s1].
    cbn [fst snd]. destruct ok; cbn [negb]; [|reflexivity].
    destruct (Disk.makedirs (physical (normalize p)) (disk s1)) as [d1|];
      [|reflexivity].
    proj_norm.
    destruct (normalize p =? "/")%string; cbn [negb]; [reflexivity|].
    proj_norm.
    now destruct (Dict.get (Py.dirname (normalize p))
                    (Dict.set (normalize p) (mk_dir_entry now now Dict.empty)
                       (directory_structure s1))).
  - cbn [fst snd negb].
    destruct (Disk.makedirs (physical (normalize p)) (disk s)) as [d1|];
      [|reflexivity].
    proj_norm.
    destruct (normalize p =? "/")%string; cbn [negb]; [reflexivity|].
    proj_norm.
    now destruct (Dict.get (Py.dirname (normalize p))
                    (Dict.set (normalize p) (mk_dir_entry now now Dict.empty)
                       (directory_structure s))).
Qed.

Lemma create_directory_depth_registers (now : Z) (depth : nat) :
  forall (p : string) (s : state),
    (forall q, Dict.mem q (directory_structure s) = true ->
               Dict.mem q (directory_structure
                             (snd (create_directory_depth depth now p s))) = true)
    /\ (fst (create_directory_depth depth now p s) = true ->
        Dict.mem (normalize p) (directory_structure s) = false
        /\ Dict.mem (normalize p)
             (directory_structure (snd (create_directory_depth depth now p s))) = true
        /\ (normalize p = "/"
            \/ exists e,
                 Dict.get (Py.dirname (normalize p))
                   (directory_structure (snd (create_directory_depth depth now p s)))
                 = Some e
                 /\ Dict.get (Py.basename (normalize p)) (d_contents e)
                    = Some (CDir (normalize p)))).
Proof.
  induction depth as [|depth IH]; intros p s.
  - cbn [create_directory_depth fst snd]. split; [auto | discriminate].
  - rewrite create_directory_depth_run.
    destruct (Dict.mem (normalize p) (directory_structure s)) eqn:Hmem.
    { cbn [fst snd]. split; [auto | discriminate]. }
    cbv zeta.
    set (parent := Py.dirname (normalize p)).
    set (r := if negb (parent =? "")%string
                 && negb (Dict.mem parent (directory_structure s))
              then create_directory_depth depth now parent s
              else (true, s)).
    assert (Hr : forall q, Dict.mem q (directory_structure s) = true ->
                           Dict.mem q (directory_structure (snd r)) = true).
    { unfold r.
      destruct (negb (parent =? "")%string
                && negb (Dict.mem parent (directory_structure s))).
      - apply IH.
      - cbn [snd]. auto. }
    destruct (negb (fst r)); [cbn [fst snd]; split; [exact Hr | discriminate]|].
    destruct (Disk.makedirs (physical (normalize p)) (disk (snd r))) as [d1|];
      [|cbn [fst snd]; split; [exact Hr | discriminate]].
    set (s2 := set_directory_structure
                 (Dict.set (normalize p) (mk_dir_entry now now Dict.empty)
                           (directory_structure (snd r)))
                 (set_disk d1 (snd r))).
    assert (H2 : forall q, Dict.mem q (directory_structure s) = true ->
                           Dict.mem q (directory_structure s2) = true).
    { intros q Hq. cbn [s2 directory_structure set_directory_structure].
      apply mem_set_mono. now apply Hr. }
    assert (Hp2 : Dict.mem (normalize p) (directory_structure s2) = true).
    { cbn [s2 directory_structure set_directory_structure]. apply mem_set_eq. }
    destruct (String.eqb_spec (normalize p) "/") as [Eroot|Hroot]; cbn [negb].
    + cbn [fst snd].
      destruct (save_metadata_memory now s2) as (_ & _ & _ & Sd & _).
      cbv zeta in Sd. rewrite Sd.
      split; [exact H2|]. intros _. split; [reflexivity|]. split; [exact Hp2|].
      now left.
    + destruct (Dict.get parent (directory_structure s2)) as [e|] eqn:Ee.
      * cbn [fst snd].
        match goal with |- context [_save_metadata now ?base] =>
          destruct (save_metadata_memory now base) as (_ & _ & _ & Sd & _) end.
        cbv zeta in Sd. rewrite Sd.
        cbn [directory_structure set_directory_structure].
        split; [intros q Hq; apply mem_set_mono; now apply H2|].
        intros _. split; [reflexivity|].
        split; [apply mem_set_mono; exact Hp2|].
        right. eexists. split; [apply get_set_eq|].
        cbn [d_contents]. apply get_set_eq.
      * cbn [fst snd]. split; [exact H2 | discriminate].
Qed.

(** X20: [create_directory] on a registered path returns [False] and
    changes nothing.  When it returns [True], the path was not registered
    before and is registered afterwards, and unless it is the root its
    parent directory is registered too -- created by the call itself when
    it was missing -- and lists the new directory under its name.  No
    directory that was registered is lost, and nothing but the directory
    table and the disk changes. *)
Theorem X20_create_directory_registers_and_links
    (now : Z) (p : string) (s : state) :
  (Dict.mem (normalize p) (directory_structure s) = true ->
   create_directory now p s = (false, s))
  /\ forall s',
       create_directory now p s = (true, s') ->
       Dict.mem (normalize p) (directory_structure s) = false
       /\ Dict.mem (normalize p) (directory_structure s') = true
       /\ (normalize p = "/"
           \/ exists e,
                Dict.get (Py.dirname (normalize p)) (directory_structure s') = Some e
                /\ Dict.get (Py.basename (normalize p)) (d_contents e)
                   = Some (CDir (normalize p)))
       /\ (forall q, Dict.mem q (directory_structure s) = true ->
                     Dict.mem q (directory_structure s') = true)
       /\ same_files s s'.
Proof.
  split.
  - intros Hmem. unfold create_directory. rewrite create_directory_depth_run.
    now rewrite Hmem.
  - intros s' Hrun. unfold create_directory in Hrun.
    destruct (create_directory_depth_registers now (S (S (String.length p))) p s)
      as [Hgrow Hreg].
    pose proof (respects_create_directory_depth same_files
                  same_files_refl same_files_trans
                  same_files_set_disk same_files_set_directory_structure
                  same_files_save_metadata
                  (S (S (String.length p))) now p s) as Hsame.
    rewrite Hrun in Hgrow, Hreg, Hsame. cbn [fst snd] in Hgrow, Hreg, Hsame.
    destruct (Hreg eq_refl) as (Hnew & Hin & Hlink).
    split; [exact Hnew|]. split; [exact Hin|]. split; [exact Hlink|].
    split; [exact Hgrow | exact Hsame].
Qed.

(** X21: [delete_directory] refuses, returning [False] and changing
    nothing, when the path is the root -- with or without [recursive] --,
    when it is not a registered directory, and when the directory has
    entries and [recursive] is not set. *)
Theorem X21_delete_directory_refusals
    (now : Z) (p : string) (recursive : bool) (s : state) :
  (normalize p = "/" -> delete_directory now p recursive s = (false, s))
  /\ (Dict.get (normalize p) (directory_structure s) = None ->
      delete_directory now p recursive s = (false, s))
  /\ (forall e, Dict.get (normalize p) (directory_structure s) = Some e ->
                d_contents e <> [] -> recursive = false ->
                delete_directory now p recursive s = (false, s)).
Proof.
  unfold delete_directory. cbn [delete_directory_depth].
  unfold delete_directory_steps. mred.
  split; [|split].
  - intros ->. reflexivity.
  - intros Hg. destruct (normalize p =? "/")%string; [reflexivity|].
    now rewrite Hg.
  - intros e Hg Hne ->. destruct (normalize p =? "/")%string; [reflexivity|].
    rewrite Hg. destruct (d_contents e); [contradiction | reflexivity].
Qed.

End Directories.


Lemma X20_create_directory_registers_and_links_witness :
  Dict.mem "/a" (directory_structure fresh) = false
  /\ exists e,
       Dict.get "/a" (directory_structure (snd (create_directory 1 "/a/b" fresh)))
       = Some e
       /\ Dict.get "b" (d_contents e) = Some (CDir "/a/b").
Proof.
  split; [vm_compute; reflexivity|].
  assert (Hn : normalize "/a/b" = "/a/b") by (vm_compute; reflexivity).
  assert (Hd : Py.dirname "/a/b" = "/a") by (vm_compute; reflexivity).
  assert (Hb : Py.basename "/a/b" = "b") by (vm_compute; reflexivity).
  assert (Hrun : create_directory 1 "/a/b" fresh
                 = (true, snd (create_directory 1 "/a/b" fresh)))
    by (vm_compute; reflexivity).
  set (s' := snd (create_directory 1 "/a/b" fresh)) in *.
  destruct (X20_create_directory_registers_and_links 1 "/a/b" fresh) as [_ Hs].
  destruct (Hs s' Hrun) as (_ & _ & Hlink & _).
  rewrite Hn, Hd, Hb in Hlink.
  destruct Hlink as [Hroot|Hlink]; [discriminate | exact Hlink].
Defined.

Lemma X21_delete_directory_refusals_witness :
  delete_directory 5 "/" true with_readme = (false, with_readme)
  /\ delete_directory 5 "/docs" false with_readme = (false, with_readme).
Proof.
  split.
  - apply (proj1 (X21_delete_directory_refusals 5 "/" true with_readme)).
    reflexivity.
  - pose proof (proj2 (proj2 (X21_delete_directory_refusals 5 "/docs" false with_readme))
                  (mk_dir_entry 1 1 [("readme.txt", CFile (md5 "/docs/readme.txt"))]))
      as Hr.
    apply Hr; [vm_compute; reflexivity | discriminate | reflexivity].
Defined.

(** ** Blocks are not shared while the free list suffices *)

Lemma del_absent {V} (k : string) (d : Dict.t V) :
  Dict.get k d = None -> Dict.del k d = d.
Proof.
  induction d as [|[k0 v0] d IH]; [reflexivity|]. cbn [Dict.get Dict.del].
  destruct (k0 =? k)%string; [discriminate|]. intros Hg. f_equal. now apply IH.
Qed.

Lemma concat_values_del {V} (f : V -> list Z) (k : string) (v0 : V) (d : Dict.t V) :
  Dict.get k d = Some v0 ->
  Permutation (concat (map f (Dict.values d)))
              (f v0 ++ concat (map f (Dict.values (Dict.del k d)))).
Proof.
  induction d as [|[k0 v] d IH]; [discriminate|].
  cbn [Dict.get Dict.del]. destruct (k0 =? k)%string.
  - intros [= ->]. cbn [Dict.values map snd concat]. apply Permutation_refl.
  - intros Hg. cbn [Dict.values map snd concat].
    eapply Permutation_trans; [apply Permutation_app_head, (IH Hg)|].
    unfold Dict.values. rewrite !app_assoc.
    apply Permutation_app_tail, Permutation_app_comm.
Qed.

Lemma concat_values_set {V} (f : V -> list Z) (k : string) (v : V) (d : Dict.t V) :
  NoDup (Dict.keys d) ->
  Permutation (concat (map f (Dict.values (Dict.set k v d))))
              (f v ++ concat (map f (Dict.values (Dict.del k d)))).
Proof.
  intros Hnd.
  assert (Hg : Dict.get k (Dict.set k v d) = Some v) by apply get_set_eq.
  eapply Permutation_trans; [apply (concat_values_del f k v _ Hg)|].
  apply Permutation_app_head.
  assert (Hdel : Dict.del k (Dict.set k v d) = Dict.del k d).
  { clear Hg. induction d as [|[k0 v0] d IH].
    - cbn [Dict.set Dict.del]. now rewrite String.eqb_refl.
    - cbn [Dict.keys map fst] in Hnd. apply NoDup_cons_iff in Hnd.
      destruct Hnd as [_ Hnd]. cbn [Dict.set Dict.del].
      destruct (k0 =? k)%string eqn:E; cbn [Dict.del].
      + now rewrite String.eqb_refl.
      + rewrite E. f_equal. now apply IH. }
  rewrite Hdel. apply Permutation_refl.
Qed.

(** Blocks that stay unshared when a record is replaced by one holding
    the first [n] free blocks and the blocks [old] return to the free
    list. *)
Lemma unshared_step (free old : list Z) (held_rest : list Z) (n : nat) :
  NoDup (free ++ old ++ held_rest) ->
  NoDup ((skipn n free ++ old) ++ firstn n free ++ held_rest).
Proof.
  intros Hnd. eapply Permutation_NoDup; [|exact Hnd].
  rewrite <- (firstn_skipn n free) at 1.
  rewrite <- (app_assoc (firstn n free)).
  rewrite (app_assoc (skipn n free) old held_rest).
  apply Permutation_app_swap_app.
Qed.

Lemma NoDup_app_drop_middle {A} (l1 l2 l3 : list A) :
  NoDup (l1 ++ l2 ++ l3) -> NoDup (l1 ++ l3).
Proof.
  intros Hnd. induction l2 as [|x l2 IH]; [exact Hnd|].
  apply IH. cbn [app] in Hnd. now apply NoDup_remove_1 in Hnd.
Qed.

Lemma allocate_enough_app (n : Z) (free old : list Z) :
  0 <= n <= Py.len free ->
  allocate n (free ++ old)
  = (firstn (Z.to_nat n) free, (skipn (Z.to_nat n) free ++ old)%list).
Proof.
  intros Hn. rewrite allocate_enough.
  - unfold Py.len in Hn.
    rewrite firstn_app, skipn_app.
    replace (Z.to_nat n - length free)%nat with O by lia.
    cbn [firstn skipn]. now rewrite app_nil_r.
  - unfold Py.len in *. rewrite length_app. lia.
Qed.

Lemma held_replace (free old : list Z) (ft : Dict.t file_record) (fid : string)
    (rec : file_record) (n : nat) :
  NoDup (Dict.keys ft) ->
  NoDup (free ++ old ++ concat (map f_blocks (Dict.values (Dict.del fid ft)))) ->
  f_blocks rec = firstn n free ->
  NoDup ((skipn n free ++ old)
         ++ concat (map f_blocks (Dict.values (Dict.set fid rec ft)))).
Proof.
  intros Hk Hnd Hrec.
  eapply Permutation_NoDup.
  - apply Permutation_app_head, Permutation_sym, (concat_values_set f_blocks fid rec ft Hk).
  - rewrite Hrec. now apply unshared_step.
Qed.

Lemma held_without (free : list Z) (ft : Dict.t file_record) (fid : string) :
  NoDup (free ++ concat (map f_blocks (Dict.values ft))) ->
  NoDup (free ++ concat (map f_blocks (Dict.values (Dict.del fid ft)))).
Proof.
  intros Hnd. destruct (Dict.get fid ft) as [r0|] eqn:Eg.
  - apply (NoDup_app_drop_middle free (f_blocks r0)).
    eapply Permutation_NoDup; [|exact Hnd].
    apply Permutation_app_head, (concat_values_del f_blocks fid r0 ft Eg).
  - now rewrite (del_absent _ _ Eg).
Qed.

Section Unshared.

Context {H : Host}.

Lemma unshared_ext (s s' : state) :
  file_table s' = file_table s -> free_blocks s' = free_blocks s ->
  unshared s -> unshared s'.
Proof. unfold unshared, held_blocks. intros -> ->. auto. Qed.

Lemma prepared_tables (now : Z) (p : string) (s : state) :
  block_size (prepared now p s) = block_size s
  /\ free_blocks (prepared now p s) = free_blocks s
  /\ file_table (prepared now p s) = file_table s.
Proof.
  unfold prepared.
  assert (H0 : block_size (_invalidate_cache (normalize p) s) = block_size s
               /\ free_blocks (_invalidate_cache (normalize p) s) = free_blocks s
               /\ file_table (_invalidate_cache (normalize p) s) = file_table s).
  { unfold _invalidate_cache.
    now destruct (Dict.mem (normalize (normalize p)) (read_cache s)). }
  destruct (Dict.mem (Py.dirname (normalize p)) (directory_structure s)); [exact H0|].
  pose proof (respects_create_directory_depth same_files
                same_files_refl same_files_trans
                same_files_set_disk same_files_set_directory_structure
                same_files_save_metadata
                (S (S (String.length (Py.dirname (normalize p))))) now
                (Py.dirname (normalize p)) (_invalidate_cache (normalize p) s))
    as (Sb & Sf & St & _).
  unfold create_directory. destruct H0 as (B0 & F0 & T0).
  repeat split; congruence.
Qed.

Lemma create_file_unshared (now : Z) (p c : string) (s s' : state) :
  unshared s ->
  (forall n, blocks_needed (Py.byte_len c) (block_size s) = Some n ->
             0 <= n <= Py.len (free_blocks s)) ->
  create_file now p c s = (true, s') ->
  unshared s'.
Proof.
  intros [Hk Hnd] Hroom Hrun.
  destruct (Dict.get (Py.dirname (normalize p)) (directory_structure s)) as [e|] eqn:He.
  2:{ rewrite create_file_refused in Hrun by now rewrite He. discriminate. }
  destruct (Dict.get (Py.basename (normalize p)) (d_contents e)) as [ch|] eqn:Hname.
  { rewrite create_file_refused in Hrun; [discriminate|].
    rewrite He. unfold Dict.mem. now rewrite Hname. }
  rewrite (create_file_run now p c s e He Hname) in Hrun.
  destruct (Disk.makedirs _ (disk s)) as [d1|]; [|discriminate].
  destruct (Disk.write _ _ d1) as [d2|]; [|discriminate].
  destruct (blocks_needed (Py.byte_len c) (block_size s)) as [n|] eqn:En;
    [|discriminate].
  rewrite (allocate_enough n _ (Hroom n eq_refl)) in Hrun. cbn [fst snd] in Hrun.
  injection Hrun as <-.
  match goal with |- unshared (_save_metadata now ?base) =>
    destruct (save_metadata_memory now base) as (_ & Sf & St & _) end.
  cbv zeta in Sf, St. unfold unshared, held_blocks. rewrite Sf, St. proj_norm.
  split; [now apply keys_set_NoDup|].
  rewrite <- (app_nil_r (skipn (Z.to_nat n) (free_blocks s))).
  apply held_replace; [exact Hk | | reflexivity].
  cbn [app]. now apply held_without.
Qed.

Lemma delete_file_unshared (now : Z) (p : string) (s s' : state) :
  unshared s -> delete_file now p s = (true, s') -> unshared s'.
Proof.
  intros [Hk Hnd] Hrun.
  destruct (Dict.get (Py.dirname (normalize p)) (directory_structure s)) as [e|] eqn:He.
  2:{ rewrite delete_file_refused in Hrun by now rewrite He. discriminate. }
  destruct (Dict.get (Py.basename (normalize p)) (d_contents e)) as [[fid|sub]|] eqn:Hname.
  2,3: rewrite delete_file_refused in Hrun by (now rewrite He, Hname); discriminate.
  rewrite (delete_file_run now p s e fid He Hname) in Hrun. cbv zeta in Hrun.
  destruct (Dict.get fid (file_table s)) as [r|] eqn:Er; [|discriminate].
  assert (Hgoal : forall s3,
            file_table s3 = Dict.del fid (file_table s) ->
            free_blocks s3 = (free_blocks s ++ f_blocks r)%list ->
            unshared s3).
  { intros s3 Ht Hf. unfold unshared, held_blocks. rewrite Ht, Hf.
    split; [now apply keys_del_NoDup|].
    rewrite <- app_assoc. eapply Permutation_NoDup; [|exact Hnd].
    apply Permutation_app_head. unfold held_blocks.
    exact (concat_values_del f_blocks fid r _ Er). }
  destruct (Disk.exists_ _ _).
  - destruct (Disk.remove _ _) as [d'|]; [|discriminate].
    injection Hrun as <-.
    match goal with |- unshared (_save_metadata now ?base) =>
      destruct (save_metadata_memory now base) as (_ & Sf & St & _) end.
    cbv zeta in Sf, St. apply Hgoal; [rewrite St | rewrite Sf]; reflexivity.
  - injection Hrun as <-.
    match goal with |- unshared (_save_metadata now ?base) =>
      destruct (save_metadata_memory now base) as (_ & Sf & St & _) end.
    cbv zeta in Sf, St. apply Hgoal; [rewrite St | rewrite Sf]; reflexivity.
Qed.

Lemma write_file_unshared (now : Z) (p c : string) (s s' : state) :
  unshared s ->
  (forall n, blocks_needed (Py.byte_len c) (block_size s) = Some n ->
             0 <= n <= Py.len (free_blocks s)) ->
  write_file now p c s = (true, s') ->
  unshared s'.
Proof.
  intros Hu Hroom Hrun. rewrite write_file_run in Hrun. cbv zeta in Hrun.
  destruct (prepared_tables now p s) as (Pb & Pf & Pt).
  set (s1 := prepared now p s) in *.
  assert (Hu1 : unshared s1) by now apply (unshared_ext s).
  assert (Hroom1 : forall n, blocks_needed (Py.byte_len c) (block_size s1) = Some n ->
                             0 <= n <= Py.len (free_blocks s1))
    by now rewrite Pb, Pf.
  destruct (Dict.get (Py.dirname (normalize p)) (directory_structure s1)) as [entry|];
    [|discriminate].
  destruct (Dict.get (Py.basename (normalize p)) (d_contents entry)) as [[fid|sub]|];
    [|discriminate|now apply (create_file_unshared now p c s1)].
  destruct (Dict.get fid (file_table s1)) as [r|] eqn:Er; [|discriminate].
  set (sf := _free_blocks (f_blocks r) s1) in *.
  destruct (backup_file_frame now (physical (normalize p)) sf)
    as (_ & Bf & Bt & _).
  cbv zeta in Bf, Bt.
  change (free_blocks sf) with (free_blocks s1 ++ f_blocks r)%list in Bf.
  change (file_table sf) with (file_table s1) in Bt.
  set (s2 := snd (_backup_file now (physical (normalize p)) sf)) in *.
  destruct (Disk.write _ _ (disk s2)) as [d3|]; [|discriminate].
  destruct (blocks_needed (Py.byte_len c) (block_size s1)) as [n|] eqn:En;
    [|discriminate].
  rewrite Bf, (allocate_enough_app n _ _ (Hroom1 n eq_refl)), Bt in Hrun.
  cbn [fst snd] in Hrun. injection Hrun as <-.
  match goal with |- unshared (_save_metadata now (_add_to_cache now ?q c ?base)) =>
    destruct (save_metadata_memory now (_add_to_cache now q c base))
      as (_ & Sf & St & _);
    destruct (add_to_cache_frame now q c base) as (_ & At & _ & Af & _)
  end.
  cbv zeta in Sf, St, At, Af.
  unfold unshared, held_blocks. rewrite Sf, St, At, Af. proj_norm.
  destruct Hu1 as [Hk Hnd].
  split; [now apply keys_set_NoDup|].
  apply held_replace; [exact Hk | | reflexivity].
  eapply Permutation_NoDup; [|exact Hnd].
  apply Permutation_app_head. unfold held_blocks.
  exact (concat_values_del f_blocks fid r _ Er).
Qed.

(** X22: let no block be shared -- the free list followed by the blocks
    of all files has no repetition -- and let the free list hold the
    blocks the content calls for.  Then after a [create_file] or a
    [write_file] that returns [True], and after a [delete_file] that
    returns [True], no block is shared either: the allocator hands out a
    block twice only once it has to mint identifiers (C3, C4). *)
Theorem X22_blocks_stay_unshared (now : Z) (p c : string) (s : state) :
  unshared s ->
  (forall n, blocks_needed (Py.byte_len c) (block_size s) = Some n ->
             0 <= n <= Py.len (free_blocks s)) ->
  (forall s', create_file now p c s = (true, s') -> unshared s')
  /\ (forall s', write_file now p c s = (true, s') -> unshared s')
  /\ (forall s', delete_file now p s = (true, s') -> unshared s').
Proof.
  intros Hu Hroom. split; [|split]; intros s' Hrun.
  - exact (create_file_unshared now p c s s' Hu Hroom Hrun).
  - exact (write_file_unshared now p c s s' Hu Hroom Hrun).
  - exact (delete_file_unshared now p s s' Hu Hrun).
Qed.

End Unshared.

Lemma X22_blocks_stay_unshared_witness :
  unshared (snd (create_file 1 "/a.txt" "a" (set_free_blocks [5; 6; 7] fresh))).
Proof.
  assert (Hu : unshared (set_free_blocks [5; 6; 7] fresh)).
  { assert (Ht : file_table (set_free_blocks [5; 6; 7] fresh) = [])
      by (vm_compute; reflexivity).
    unfold unshared, held_blocks. rewrite Ht.
    split; [constructor|].
    cbn [free_blocks set_free_blocks Dict.values map concat app].
    repeat constructor; cbn [In]; intuition discriminate. }
  assert (Hb : blocks_needed (Py.byte_len "a")
                 (block_size (set_free_blocks [5; 6; 7] fresh)) = Some 1)
    by (vm_compute; reflexivity).
  assert (Hroom : forall n,
            blocks_needed (Py.byte_len "a")
              (block_size (set_free_blocks [5; 6; 7] fresh)) = Some n ->
            0 <= n <= Py.len (free_blocks (set_free_blocks [5; 6; 7] fresh))).
  { intros n Hn. rewrite Hb in Hn. injection Hn as <-.
    vm_compute. split; discriminate. }
  assert (Hrun : create_file 1 "/a.txt" "a" (set_free_blocks [5; 6; 7] fresh)
                 = (true, snd (create_file 1 "/a.txt" "a"
                                 (set_free_blocks [5; 6; 7] fresh))))
    by (vm_compute; reflexivity).
  exact (proj1 (X22_blocks_stay_unshared 1 "/a.txt" "a"
                  (set_free_blocks [5; 6; 7] fresh) Hu Hroom) _ Hrun).
Defined.

(** ** Reading from the cache after a crash *)

Section CacheHit.

Context {H : Host}.

Lemma simulate_disk_crash_cache (kind : string) (sample : list string) (s : state) :
  let s' := snd (simulate_disk_crash kind sample s) in
  read_cache s' = read_cache s
  /\ cache_timestamps s' = cache_timestamps s
  /\ cache_ttl s' = cache_ttl s
  /\ file_table s' = file_table s
  /\ directory_structure s' = directory_structure s
  /\ free_blocks s' = free_blocks s.
Proof.
  set (R := fun s0 s1 : state =>
              read_cache s1 = read_cache s0
              /\ cache_timestamps s1 = cache_timestamps s0
              /\ cache_ttl s1 = cache_ttl s0
              /\ file_table s1 = file_table s0
              /\ directory_structure s1 = directory_structure s0
              /\ free_blocks s1 = free_blocks s0).
  assert (R_refl : forall s0, R s0 s0) by (intros s0; unfold R; now repeat split).
  assert (R_trans : forall s1 s2 s3, R s1 s2 -> R s2 s3 -> R s1 s3).
  { unfold R. intros s1 s2 s3 (A1 & A2 & A3 & A4 & A5 & A6)
      (B1 & B2 & B3 & B4 & B5 & B6). repeat split; congruence. }
  assert (R_disk : forall d s0, R s0 (set_disk d s0))
    by (intros d s0; unfold R; now repeat split).
  change (R s (snd (simulate_disk_crash kind sample s))).
  revert s. change (respects R (simulate_disk_crash kind sample)).
  unfold simulate_disk_crash. respects_steps R_refl R_trans.
  all: apply (respects_on_disk _ R_refl); exact R_disk.
Qed.

(** X23: a path that has a cache entry which has not expired is read
    from the cache, whatever [simulate_disk_crash] has done to the files
    in between: the damage is neither noticed nor repaired, and the read
    returns the content cached before the crash. *)
Theorem X23_cache_hit_hides_corruption
    (now : Z) (kind : string) (sample : list string) (p c : string) (s : state) :
  NoDup (Dict.keys (read_cache s)) ->
  NoDup (Dict.keys (cache_timestamps s)) ->
  Dict.get (normalize p) (read_cache s) = Some c ->
  expired now s (normalize p) = false ->
  let s' := snd (simulate_disk_crash kind sample s) in
  fst (read_file now p s') = Some c
  /\ disk (snd (read_file now p s')) = disk s'.
Proof.
  intros Hrc Hts Hc Hlive s'.
  destruct (simulate_disk_crash_cache kind sample s) as (Cc & Ct & Cl & _).
  cbv zeta in Cc, Ct, Cl. fold s' in Cc, Ct, Cl.
  assert (Hrc' : NoDup (Dict.keys (read_cache s'))) by now rewrite Cc.
  assert (Hts' : NoDup (Dict.keys (cache_timestamps s'))) by now rewrite Ct.
  destruct (expire_keys_get (expired_keys now s') s' Hrc' Hts' (normalize p))
    as [Hget _].
  rewrite (expired_keys_spec now s' (normalize p) Hts') in Hget.
  assert (Hlive' : expired now s' (normalize p) = false).
  { unfold expired in *. now rewrite Ct, Cl. }
  rewrite Hlive', Cc, Hc in Hget.
  destruct (check_cache_expiration_frame now s') as (_ & _ & Fk & _).
  cbv zeta in Fk.
  change (fold_left expire_key (expired_keys now s') s')
    with (_check_cache_expiration now s') in Hget.
  unfold read_file. mred. rewrite Hget. cbn [fst snd].
  split; [reflexivity | exact Fk].
Qed.

End CacheHit.

Lemma X23_cache_hit_hides_corruption_witness :
  Disk.read "docs/readme.txt"
    (disk (snd (simulate_disk_crash "files" [md5 "/docs/readme.txt"] with_readme)))
  = Some "CORRUPTED DATA!!!"
  /\ fst (read_file 100 "/docs/readme.txt"
            (snd (simulate_disk_crash "files" [md5 "/docs/readme.txt"] with_readme)))
     = Some "Welcome".
Proof.
  split; [vm_compute; reflexivity|].
  assert (Hrc : NoDup (Dict.keys (read_cache with_readme)))
    by (vm_compute; repeat constructor; cbn [In]; intuition discriminate).
  assert (Hts : NoDup (Dict.keys (cache_timestamps with_readme)))
    by (vm_compute; repeat constructor; cbn [In]; intuition discriminate).
  assert (Hc : Dict.get (normalize "/docs/readme.txt") (read_cache with_readme)
               = Some "Welcome") by (vm_compute; reflexivity).
  assert (Hlive : expired 100 with_readme (normalize "/docs/readme.txt") = false)
    by (vm_compute; reflexivity).
  exact (proj1 (X23_cache_hit_hides_corruption 100 "files" [md5 "/docs/readme.txt"]
                  "/docs/readme.txt" "Welcome" with_readme Hrc Hts Hc Hlive)).
Defined.

(** ** Overwriting and re-creating a file *)

Section Overwrite.

Context {H : Host}.

(** X24: an overwrite that succeeds while the free list holds the blocks
    the new content calls for gives the file the blocks at the front of the
    free list and puts the blocks the file held at its end: a file gets
    other blocks each time it is written, also when its size is
    unchanged.  Path and creation time of the record are kept, size and
    modification time are new. *)
Theorem X24_overwrite_takes_front_blocks
    (now : Z) (p c : string) (s s' : state) (e : dir_entry) (fid : string)
    (r : file_record) (n : Z) :
  Dict.get (Py.dirname (normalize p)) (directory_structure s) = Some e ->
  Dict.get (Py.basename (normalize p)) (d_contents e) = Some (CFile fid) ->
  Dict.get fid (file_table s) = Some r ->
  blocks_needed (Py.byte_len c) (block_size s) = Some n ->
  0 <= n <= Py.len (free_blocks s) ->
  write_file now p c s = (true, s') ->
  free_blocks s' = (skipn (Z.to_nat n) (free_blocks s) ++ f_blocks r)%list
  /\ exists r',
       Dict.get fid (file_table s') = Some r'
       /\ f_blocks r' = firstn (Z.to_nat n) (free_blocks s)
       /\ f_size r' = Py.byte_len c
       /\ f_path r' = f_path r
       /\ f_created r' = f_created r
       /\ f_modified r' = now.
Proof.
  intros He Hname Hr Hn Hroom.
  assert (Hprep : prepared now p s = _invalidate_cache (normalize p) s).
  { unfold prepared, Dict.mem. rewrite He. reflexivity. }
  assert (Hinv : directory_structure (_invalidate_cache (normalize p) s)
                 = directory_structure s
                 /\ file_table (_invalidate_cache (normalize p) s) = file_table s
                 /\ free_blocks (_invalidate_cache (normalize p) s) = free_blocks s
                 /\ block_size (_invalidate_cache (normalize p) s) = block_size s).
  { unfold _invalidate_cache.
    destruct (Dict.mem (normalize (normalize p)) (read_cache s)); repeat split. }
  destruct Hinv as (Id & It & If & Ib).
  intros Hrun.
  rewrite write_file_run in Hrun. cbv zeta in Hrun.
  rewrite Hprep in Hrun.
  set (s1 := _invalidate_cache (normalize p) s) in *.
  rewrite Id, He, Hname, It, Hr, Ib, Hn in Hrun.
  set (sf := _free_blocks (f_blocks r) s1) in *.
  destruct (backup_file_frame now (physical (normalize p)) sf)
    as (_ & Bf & Bt & _).
  cbv zeta in Bf, Bt.
  change (free_blocks sf) with (free_blocks s1 ++ f_blocks r)%list in Bf.
  change (file_table sf) with (file_table s1) in Bt.
  rewrite If in Bf. rewrite It in Bt.
  set (s2 := snd (_backup_file now (physical (normalize p)) sf)) in *.
  destruct (Disk.write _ _ (disk s2)) as [d3|]; [|discriminate].
  rewrite Bf, (allocate_enough_app n _ _ Hroom), Bt in Hrun.
  cbn [fst snd] in Hrun. injection Hrun as <-.
  match goal with |- context [_save_metadata now (_add_to_cache now ?q c ?base)] =>
    destruct (save_metadata_memory now (_add_to_cache now q c base))
      as (_ & Sf & St & _);
    destruct (add_to_cache_frame now q c base) as (_ & At & _ & Af & _)
  end.
  cbv zeta in Sf, St, At, Af. rewrite Sf, St, At, Af. proj_norm.
  split; [reflexivity|].
  eexists. split; [apply get_set_eq|]. cbn [f_blocks f_size f_path f_created f_modified].
  now repeat split.
Qed.

(** A read in a state whose cache, timestamps and lifetime are those of a
    state in which the path has a live entry. *)
Lemma read_file_cached (now : Z) (p c : string) (s s' : state) :
  NoDup (Dict.keys (read_cache s)) ->
  NoDup (Dict.keys (cache_timestamps s)) ->
  Dict.get (normalize p) (read_cache s) = Some c ->
  expired now s (normalize p) = false ->
  read_cache s' = read_cache s ->
  cache_timestamps s' = cache_timestamps s ->
  cache_ttl s' = cache_ttl s ->
  fst (read_file now p s') = Some c.
Proof.
  intros Hrc Hts Hc Hlive Cc Ct Cl.
  assert (Hrc' : NoDup (Dict.keys (read_cache s'))) by now rewrite Cc.
  assert (Hts' : NoDup (Dict.keys (cache_timestamps s'))) by now rewrite Ct.
  destruct (expire_keys_get (expired_keys now s') s' Hrc' Hts' (normalize p))
    as [Hget _].
  rewrite (expired_keys_spec now s' (normalize p) Hts') in Hget.
  assert (Hlive' : expired now s' (normalize p) = false).
  { unfold expired in *. now rewrite Ct, Cl. }
  rewrite Hlive', Cc, Hc in Hget.
  change (fold_left expire_key (expired_keys now s') s')
    with (_check_cache_expiration now s') in Hget.
  unfold read_file. mred. now rewrite Hget.
Qed.

Lemma create_file_cache (now : Z) (p c : string) (s : state) :
  read_cache (snd (create_file now p c s)) = read_cache s
  /\ cache_timestamps (snd (create_file now p c s)) = cache_timestamps s
  /\ cache_ttl (snd (create_file now p c s)) = cache_ttl s.
Proof.
  destruct (Dict.get (Py.dirname (normalize p)) (directory_structure s)) as [e|] eqn:He.
  2:{ rewrite create_file_refused by now rewrite He. now repeat split. }
  destruct (Dict.get (Py.basename (normalize p)) (d_contents e)) as [ch|] eqn:Hname.
  { rewrite create_file_refused; [now repeat split|].
    rewrite He. unfold Dict.mem. now rewrite Hname. }
  rewrite (create_file_run now p c s e He Hname).
  destruct (Disk.makedirs _ (disk s)) as [d1|]; [|now repeat split].
  destruct (Disk.write _ _ d1) as [d2|]; [|now repeat split].
  destruct (blocks_needed (Py.byte_len c) (block_size s)) as [n|];
    [|now repeat split].
  cbn [snd].
  match goal with |- context [_save_metadata now ?base] =>
    destruct (save_metadata_memory now base) as (_ & _ & _ & _ & Sc & St & _ & Sl) end.
  cbv zeta in Sc, St, Sl. rewrite Sc, St, Sl. now repeat split.
Qed.

(** X25: [create_file] does not touch the cache.  When the path still
    has a cache entry that has not expired -- left there by a
    [delete_file], see C2 -- a [read_file] after the file has been created
    anew returns the cached content of the old file, not the content just
    written. *)
Theorem X25_recreated_file_reads_stale_content
    (now now' : Z) (p c_old c_new : string) (s : state) :
  NoDup (Dict.keys (read_cache s)) ->
  NoDup (Dict.keys (cache_timestamps s)) ->
  Dict.get (normalize p) (read_cache s) = Some c_old ->
  expired now' s (normalize p) = false ->
  fst (read_file now' p (snd (create_file now p c_new s))) = Some c_old.
Proof.
  intros Hrc Hts Hc Hlive.
  destruct (create_file_cache now p c_new s) as (Cc & Ct & Cl).
  exact (read_file_cached now' p c_old s _ Hrc Hts Hc Hlive Cc Ct Cl).
Qed.

End Overwrite.

Lemma X24_overwrite_takes_front_blocks_witness :
  option_map f_blocks
    (Dict.get (md5 "/docs/readme.txt")
       (file_table (snd (write_file 6 "/docs/readme.txt" "Welcome" with_readme))))
  = Some [2].
Proof.
  assert (Hrun : write_file 6 "/docs/readme.txt" "Welcome" with_readme
                 = (true, snd (write_file 6 "/docs/readme.txt" "Welcome" with_readme)))
    by (vm_compute; reflexivity).
  set (s' := snd (write_file 6 "/docs/readme.txt" "Welcome" with_readme)) in *.
  pose proof (X24_overwrite_takes_front_blocks 6 "/docs/readme.txt" "Welcome"
                with_readme s'
                (mk_dir_entry 1 1 [("readme.txt", CFile (md5 "/docs/readme.txt"))])
                (md5 "/docs/readme.txt")
                (mk_file_record "/docs/readme.txt" 7 [1] 2 2 (md5 "Welcome")) 1)
    as Hc.
  specialize (Hc ltac:(vm_compute; reflexivity) ltac:(vm_compute; reflexivity)
                 ltac:(vm_compute; reflexivity) ltac:(vm_compute; reflexivity)
                 ltac:(vm_compute; split; discriminate) Hrun).
  destruct Hc as (_ & r' & Hg & Hb & _).
  rewrite Hg. cbn [option_map]. rewrite Hb. vm_compute. reflexivity.
Defined.

Lemma X25_recreated_file_reads_stale_content_witness :
  fst (delete_file 5 "/docs/readme.txt" with_readme) = true
  /\ fst (create_file 6 "/docs/readme.txt" "New"
            (snd (delete_file 5 "/docs/readme.txt" with_readme))) = true
  /\ fst (read_file 7 "/docs/readme.txt"
            (snd (create_file 6 "/docs/readme.txt" "New"
                    (snd (delete_file 5 "/docs/readme.txt" with_readme)))))
     = Some "Welcome".
Proof.
  split; [vm_compute; reflexivity|]. split; [vm_compute; reflexivity|].
  set (s := snd (delete_file 5 "/docs/readme.txt" with_readme)).
  assert (Hrc : NoDup (Dict.keys (read_cache s)))
    by (vm_compute; repeat constructor; cbn [In]; intuition discriminate).
  assert (Hts : NoDup (Dict.keys (cache_timestamps s)))
    by (vm_compute; repeat constructor; cbn [In]; intuition discriminate).
  assert (Hc : Dict.get (normalize "/docs/readme.txt") (read_cache s) = Some "Welcome")
    by (vm_compute; reflexivity).
  assert (Hlive : expired 7 s (normalize "/docs/readme.txt") = false)
    by (vm_compute; reflexivity).
  exact (X25_recreated_file_reads_stale_content 6 7 "/docs/readme.txt" "Welcome" "New"
           s Hrc Hts Hc Hlive).
Defined.
